(** * Baseline classifiers and repeated-holdout error of HW1/code/src/titanic.py

    The script is read with Python 3 semantics: [/] is true division and a
    [Counter] iterates in insertion order.  Floats are IEEE binary64 values,
    taken from the Standard Library's executable specification [SpecFloat];
    labels are the integer class codes of the label column (the data set
    holds 0.0 and 1.0, which hash and compare equal to 0 and 1).

    numpy's generator and scikit-learn's splitter, metric and estimators are
    not part of the script: they are interfaces ([Numpy], [Sklearn]) that
    every definition is generic in.  [plot_histogram] is modelled the same
    way over matplotlib's [Pyplot]. *)

From Stdlib Require Import ZArith Lia List String Floats.SpecFloat QArith Qcanon Qround.
From stdpp Require Import base option list gmap strings sorting.

Local Open Scope Z_scope.
Set Warnings "-clear-no-such-hyp".
Set Default Proof Using "Type*".


(** ** Exceptions *)

Inductive exn :=
  | Exception (msg : string)        (* raise Exception(msg) *)
  | IndexError
  | ZeroDivisionError
  | OverflowError
  | ValueError
  | AttributeError
  | LibraryError (name : string).   (* raised inside numpy or scikit-learn *)

Inductive result (A : Type) :=
  | Value (a : A)
  | Error (e : exn).
Arguments Value {A} a.
Arguments Error {A} e.

#[global] Instance result_ret : MRet result := @Value.
#[global] Instance result_bind : MBind result := λ A B f r,
  match r with
  | Value a => f a
  | Error e => Error e
  end.

(** What a library call gives back: the name of the exception it raised, or
    its value. *)
Definition library (A : Type) : Type := string + A.

Definition from_library {A} (r : library A) : result A :=
  match r with
  | inl name => Error (LibraryError name)
  | inr a => Value a
  end.

(** ** Python floats *)

Module Float.
Definition prec : Z := 53.
Definition emax : Z := 1024.

Definition float := spec_float.

Definition of_Z (z : Z) : float := binary_normalize prec emax z 0 false.
Definition add : float → float → float := SFadd prec emax.
Definition sub : float → float → float := SFsub prec emax.
Definition mul : float → float → float := SFmul prec emax.
Definition div : float → float → float := SFdiv prec emax.

Definition is_zero (f : float) : bool :=
  match f with
  | S754_zero _ => true
  | _ => false
  end.

Definition is_finite (f : float) : bool :=
  match f with
  | S754_zero _ | S754_finite _ _ _ => true
  | _ => false
  end.

(** The integer part, towards zero. *)
Definition trunc (f : float) : option Z :=
  match f with
  | S754_zero _ => Some 0
  | S754_finite s m e =>
      Some (cond_Zopp s (if 0 <=? e then Z.pos m * 2 ^ e else Z.pos m / 2 ^ (- e)))
  | _ => None
  end.

(** Literals of the script. *)
Definition lit_10_0 : float := S754_finite false 5629499534213120 (-49).
Definition lit_0_2 : float := S754_finite false 7205759403792794 (-55).

(** 1.0 and 0.75, for the statements. *)
Definition one : float := S754_finite false 4503599627370496 (-52).
Definition three_quarters : float := S754_finite false 6755399441055744 (-53).

(** The double that holds a positive integer below 2^53. *)
Definition canon (n : Z) : float :=
  S754_finite false (Z.to_pos (n * 2 ^ (52 - Z.log2 n))) (Z.log2 n - 52).

(** A double that is +0.0 or positive and finite, below 2^B. *)
Definition below (B : Z) (f : float) : Prop :=
  match f with
  | S754_zero false => True
  | S754_finite false m e => Z.pos (digits2_pos m) + e <= B
  | _ => False
  end.
End Float.

Abbreviation float := Float.float.

(** ** Python numbers: [int] and [float] *)

Inductive number :=
  | Int (z : Z)
  | Float (f : float).

(** [float(z)] *)
Definition float_of_int (z : Z) : result float :=
  let f := Float.of_Z z in
  if Float.is_finite f then Value f else Error OverflowError.

Definition to_float (a : number) : result float :=
  match a with
  | Int z => float_of_int z
  | Float f => Value f
  end.

(** [int(a)] *)
Definition py_int (a : number) : result Z :=
  match a with
  | Int z => Value z
  | Float S754_nan => Error ValueError
  | Float f => from_option Value (Error OverflowError) (Float.trunc f)
  end.

Definition py_add (a b : number) : result number :=
  match a, b with
  | Int x, Int y => Value (Int (x + y))
  | _, _ => x ← to_float a; y ← to_float b; Value (Float (Float.add x y))
  end.

Definition py_sub (a b : number) : result number :=
  match a, b with
  | Int x, Int y => Value (Int (x - y))
  | _, _ => x ← to_float a; y ← to_float b; Value (Float (Float.sub x y))
  end.

Definition py_mul (a b : number) : result number :=
  match a, b with
  | Int x, Int y => Value (Int (x * y))
  | _, _ => x ← to_float a; y ← to_float b; Value (Float (Float.mul x y))
  end.

(** [x / y] on two ints: the correctly rounded quotient. *)
Definition int_truediv (x y : Z) : result number :=
  if y =? 0 then Error ZeroDivisionError
  else
    match x with
    | 0 => Value (Float (S754_zero (y <? 0)))
    | _ =>
        let q := Float.div (S754_finite (x <? 0) (Z.to_pos (Z.abs x)) 0)
                           (S754_finite (y <? 0) (Z.to_pos (Z.abs y)) 0) in
        if Float.is_finite q then Value (Float q) else Error OverflowError
    end.

(** [x / y] on two floats *)
Definition float_truediv (x y : float) : result float :=
  if Float.is_zero y then Error ZeroDivisionError else Value (Float.div x y).

Definition py_truediv (a b : number) : result number :=
  match a, b with
  | Int x, Int y => int_truediv x y
  | _, _ => x ← to_float a; y ← to_float b; q ← float_truediv x y; Value (Float q)
  end.

(** ** Sequences *)

Abbreviation label := Z.
Abbreviation labels := (list label).
Abbreviation matrix := (list (list float)).

(** [X.shape] of a two-dimensional array *)
Definition shape (X : matrix) : nat * nat :=
  (length X, match X with [] => 0%nat | row :: _ => length row end).

(** [l[i]] *)
Definition getitem {A} (l : list A) (i : Z) : result A :=
  let n := Z.of_nat (length l) in
  let j := if i <? 0 then i + n else i in
  if (0 <=? j) && (j <? n)
  then from_option Value (Error IndexError) (l !! Z.to_nat j)
  else Error IndexError.

(** [l[:k]] *)
Definition slice_to {A} (l : list A) (k : Z) : list A :=
  let n := Z.of_nat (length l) in
  take (Z.to_nat (if k <? 0 then k + n else k)) l.

(** [range(start, stop)] *)
Definition range (start stop : Z) : list Z :=
  (λ k : nat, start + Z.of_nat k) <$> seq 0 (Z.to_nat (stop - start)).

(** [list(range(start, stop))]: a list holds at most [sys.maxsize] items,
    2^63 - 1 on a 64-bit build, and building a longer one raises
    OverflowError; a list of fewer items is taken to fit in memory. *)
Definition list_range (start stop : Z) : result (list Z) :=
  if stop - start <? 2 ^ 63 then Value (range start stop) else Error OverflowError.

(** A keyword argument with a default. *)
Definition kwarg {A} (dflt : A) (given : option A) : A := default dflt given.

(** ** collections.Counter *)

Module Counter.
(** key and count, in the order the keys were first seen *)
Definition t := list (label * Z).

Fixpoint incr (k : label) (c : t) : t :=
  match c with
  | [] => [(k, 1)]
  | (k', n) :: c' => if decide (k' = k) then (k', n + 1) :: c' else (k', n) :: incr k c'
  end.

(** [Counter(y)] *)
Definition new (y : labels) : t := fold_left (λ c k, incr k c) y [].

(** [c[k]]: a missing key counts 0 *)
Fixpoint get (c : t) (k : label) : Z :=
  match c with
  | [] => 0
  | (k', n) :: c' => if decide (k' = k) then n else get c' k
  end.

(** [max(items, key=itemgetter(1))]: the first item with the largest count *)
Fixpoint max_item (best : label * Z) (items : t) : label * Z :=
  match items with
  | [] => best
  | it :: rest => max_item (if best.2 <? it.2 then it else best) rest
  end.

(** [c.most_common(1)] *)
Definition most_common_1 (c : t) : list (label * Z) :=
  match c with
  | [] => []
  | it :: rest => [max_item it rest]
  end.
End Counter.

(** ** The libraries the script calls *)

(** [numpy.random]: the module-level generator. *)
Class Numpy := {
  RandomState : Type;
  (** [np.random.seed(seed)]: the generator is initialised again from
      [seed] alone *)
  np_random_seed : Z → library RandomState;
  (** [np.random.choice(a, size, p=p)] *)
  np_random_choice : Z → nat → list float → RandomState → library (labels * RandomState);
}.

(** [sklearn]: the splitter, the metric and the estimators
    ([DecisionTreeClassifier], [KNeighborsClassifier]). *)
Class Sklearn `{Numpy} := {
  (** [train_test_split(X, y, test_size=test_size, random_state=i)] *)
  train_test_split : matrix → labels → number → Z → library (matrix * matrix * labels * labels);
  (** [metrics.accuracy_score(y_true, y_pred, normalize=True)] *)
  accuracy_score : labels → labels → library float;
  estimator : Type;
  estimator_fit :
    estimator → matrix → labels → RandomState → library () * estimator * RandomState;
  estimator_predict :
    estimator → matrix → RandomState → library labels * estimator * RandomState;
}.

(** ** Objects, the heap and the interpreter's state *)

Definition loc := positive.

Section Interpreter.
Context `{Sklearn}.

Inductive object :=
  | MajorityVote (prediction_ : option label)
  | Random (probabilities_ : option float)
  | Estimator (e : estimator).

Record world := World {
  heap : gmap loc object;
  np_random : RandomState;
}.

Inductive outcome (A : Type) :=
  | Return (a : A) (w : world)
  | Raise (e : exn) (w : world).
#[global] Arguments Return {A} a w.
#[global] Arguments Raise {A} e w.

Definition M (A : Type) : Type := world → outcome A.

#[global] Instance M_ret : MRet M := λ A a w, Return a w.
#[global] Instance M_bind : MBind M := λ A B f m w,
  match m w with
  | Return a w' => f a w'
  | Raise e w' => Raise e w'
  end.

Definition raise {A} (e : exn) : M A := λ w, Raise e w.

Definition lift {A} (r : result A) : M A := λ w,
  match r with
  | Value a => Return a w
  | Error e => Raise e w
  end.

(** What the caller observes of a call: the value or the exception. *)
Definition observe {A} (o : outcome A) : result A :=
  match o with
  | Return a _ => Value a
  | Raise e _ => Error e
  end.

Definition final {A} (o : outcome A) : world :=
  match o with
  | Return _ w | Raise _ w => w
  end.

(** Object creation *)
Definition new (o : object) : M loc := λ w,
  let l := fresh (dom (heap w)) in
  Return l (World (<[l := o]> (heap w)) (np_random w)).

Definition load (l : loc) : M object := λ w,
  match heap w !! l with
  | Some o => Return o w
  | None => Raise AttributeError w
  end.

(** The state after the object at [l] has become [o]. *)
Definition set_object (l : loc) (o : object) (w : world) : world :=
  World (<[l := o]> (heap w)) (np_random w).

Definition store (l : loc) (o : object) : M () := λ w, Return () (set_object l o w).

(** [for x in xs: s = body(x, s)] *)
Fixpoint for_in {A S} (xs : list A) (body : A → S → M S) (s : S) : M S :=
  match xs with
  | [] => mret s
  | x :: xs' => s' ← body x s; for_in xs' body s'
  end.

(** [np.random.seed(seed)] *)
Definition random_seed (s : Z) : M () := λ w,
  match np_random_seed s with
  | inl name => Raise (LibraryError name) w
  | inr g => Return () (World (heap w) g)
  end.

(** [np.random.choice(a, size, p=p)] *)
Definition random_choice (a : Z) (size : nat) (p : list float) : M labels := λ w,
  match np_random_choice a size p (np_random w) with
  | inl name => Raise (LibraryError name) w
  | inr (ys, g) => Return ys (World (heap w) g)
  end.
End Interpreter.


(** ** The classifiers *)

Definition not_initialized : string := "Classifier not initialized. Perform a fit first.".

Module MajorityVoteClassifier.
Section Methods.
Context `{Sklearn}.

(** [MajorityVoteClassifier()] *)
Definition init : M loc := new (MajorityVote None).

(** [self.prediction_] *)
Definition get_prediction_ (self : loc) : M (option label) :=
  o ← load self;
  match o with
  | MajorityVote p => mret p
  | _ => raise AttributeError
  end.

(** [self.prediction_ = v] *)
Definition set_prediction_ (self : loc) (v : label) : M () :=
  o ← load self;
  match o with
  | MajorityVote _ => store self (MajorityVote (Some v))
  | _ => raise AttributeError
  end.

Definition fit (self : loc) (X : matrix) (y : labels) : M loc :=
  item ← lift (getitem (Counter.most_common_1 (Counter.new y)) 0);
  let majority_val := item.1 in
  set_prediction_ self majority_val;;
  mret self.

Definition predict (self : loc) (X : matrix) : M labels :=
  p ← get_prediction_ self;
  match p with
  | None => raise (Exception not_initialized)
  | Some v =>
      let '(n, d) := shape X in
      mret (replicate n v)
  end.
End Methods.
End MajorityVoteClassifier.

Module RandomClassifier.
Section Methods.
Context `{Sklearn}.

(** [RandomClassifier()] *)
Definition init : M loc := new (Random None).

(** [self.probabilities_] *)
Definition get_probabilities_ (self : loc) : M (option float) :=
  o ← load self;
  match o with
  | Random p => mret p
  | _ => raise AttributeError
  end.

(** [self.probabilities_ = p] *)
Definition set_probabilities_ (self : loc) (p : float) : M () :=
  o ← load self;
  match o with
  | Random _ => store self (Random (Some p))
  | _ => raise AttributeError
  end.

Definition fit (self : loc) (X : matrix) (y : labels) : M loc :=
  let cur_dist := Counter.new y in
  a ← lift (float_of_int (Counter.get cur_dist 0));
  b ← lift (float_of_int (Counter.get cur_dist 0));
  c ← lift (float_of_int (Counter.get cur_dist 1));
  p ← lift (float_truediv a (Float.add b c));
  set_probabilities_ self p;;
  mret self.

Definition predict (self : loc) (X : matrix) (seed : option Z) : M labels :=
  let seed := kwarg 1234 seed in
  p ← get_probabilities_ self;
  match p with
  | None => raise (Exception not_initialized)
  | Some p =>
      random_seed seed;;
      q ← lift (py_sub (Int 1) (Float p) ≫= to_float);
      random_choice 2 (shape X).1 [p; q]
  end.
End Methods.
End RandomClassifier.

(** ** The evaluators *)

Section Evaluation.
Context `{Sklearn}.

(** [clf.fit(X, y)]: the method of the class of [clf] *)
Definition call_fit (clf : loc) (X : matrix) (y : labels) : M loc :=
  o ← load clf;
  match o with
  | MajorityVote _ => MajorityVoteClassifier.fit clf X y
  | Random _ => RandomClassifier.fit clf X y
  | Estimator e => λ w,
      let '(r, e', g) := estimator_fit e X y (np_random w) in
      let w' := World (<[clf := Estimator e']> (heap w)) g in
      match r with
      | inl name => Raise (LibraryError name) w'
      | inr _ => Return clf w'
      end
  end.

(** [clf.predict(X)]: no seed is passed *)
Definition call_predict (clf : loc) (X : matrix) : M labels :=
  o ← load clf;
  match o with
  | MajorityVote _ => MajorityVoteClassifier.predict clf X
  | Random _ => RandomClassifier.predict clf X None
  | Estimator e => λ w,
      let '(r, e', g) := estimator_predict e X (np_random w) in
      let w' := World (<[clf := Estimator e']> (heap w)) g in
      match r with
      | inl name => Raise (LibraryError name) w'
      | inr ys => Return ys w'
      end
  end.

(** The body of the loop of [error], on the two running sums. *)
Definition error_trial (clf : loc) (X : matrix) (y : labels) (test_size : number)
    (i : Z) (sums : number * number) : M (number * number) :=
  let '(train_error, test_error) := sums in
  '(X_train, X_test, y_train, y_test) ← lift (from_library (train_test_split X y test_size i));
  call_fit clf X_train y_train;;
  y_train_pred ← call_predict clf X_train;
  y_test_pred ← call_predict clf X_test;
  a ← lift (from_library (accuracy_score y_train y_train_pred));
  train_error ← lift (py_sub (Int 1) (Float a) ≫= py_add train_error);
  b ← lift (from_library (accuracy_score y_test y_test_pred));
  test_error ← lift (py_sub (Int 1) (Float b) ≫= py_add test_error);
  mret (train_error, test_error).

Definition error (clf : loc) (X : matrix) (y : labels)
    (ntrials : option Z) (test_size : option number) : M (number * number) :=
  let ntrials := kwarg 100 ntrials in
  let test_size := kwarg (Float Float.lit_0_2) test_size in
  '(train_error, test_error) ←
    for_in (range 0 ntrials) (error_trial clf X y test_size) (Int 0, Int 0);
  train_error ← lift (py_truediv train_error (Int ntrials));
  test_error ← lift (py_truediv test_error (Int ntrials));
  mret (train_error, test_error).

(** [a[:int(len(a)*partial_amt)]] *)
Definition truncate {A} (a : list A) (partial_amt : number) : result (list A) :=
  k ← py_mul (Int (Z.of_nat (length a))) partial_amt ≫= py_int;
  Value (slice_to a k).

(** The body of the loop of [error_partial]. *)
Definition error_partial_trial (clf : loc) (X : matrix) (y : labels) (test_size : number)
    (partial_amt : number) (i : Z) (sums : number * number) : M (number * number) :=
  let '(train_error, test_error) := sums in
  '(X_train, X_test, y_train, y_test) ← lift (from_library (train_test_split X y test_size i));
  X_train ← lift (truncate X_train partial_amt);
  y_train ← lift (truncate y_train partial_amt);
  call_fit clf X_train y_train;;
  y_train_pred ← call_predict clf X_train;
  y_test_pred ← call_predict clf X_test;
  a ← lift (from_library (accuracy_score y_train y_train_pred));
  train_error ← lift (py_sub (Int 1) (Float a) ≫= py_add train_error);
  b ← lift (from_library (accuracy_score y_test y_test_pred));
  test_error ← lift (py_sub (Int 1) (Float b) ≫= py_add test_error);
  mret (train_error, test_error).

Definition error_partial (clf : loc) (X : matrix) (y : labels)
    (ntrials : option Z) (test_size : option number) (partial_amt : option number)
    : M (number * number) :=
  let ntrials := kwarg 100 ntrials in
  let test_size := kwarg (Float Float.lit_0_2) test_size in
  let partial_amt := kwarg (Int 10) partial_amt in
  partial_amt ← lift (py_truediv partial_amt (Float Float.lit_10_0));
  '(train_error, test_error) ←
    for_in (range 0 ntrials) (error_partial_trial clf X y test_size partial_amt) (Int 0, Int 0);
  train_error ← lift (py_truediv train_error (Int ntrials));
  test_error ← lift (py_truediv test_error (Int ntrials));
  mret (train_error, test_error).
End Evaluation.

(** ** The evaluator in the words of the specification *)

Section Specification.
Context `{Sklearn}.

(** [count(y == v)] *)
Definition count (v : label) (y : labels) : Z :=
  Z.of_nat (length (filter (λ u, u = v) y)).

(** [count(y == 0) / (count(y == 0) + count(y == 1))] in Python's floats *)
Definition zero_share (y : labels) : result float :=
  a ← float_of_int (count 0 y);
  c ← float_of_int (count 1 y);
  float_truediv a (Float.add a c).

(** Trial [i]: split with [random_state = i], fit on the training partition,
    and give 1 - accuracy on the training and on the test partition. *)
Definition trial (clf : loc) (X : matrix) (y : labels) (test_size : number) (i : Z)
    : M (float * float) :=
  '(X_train, X_test, y_train, y_test) ← lift (from_library (train_test_split X y test_size i));
  call_fit clf X_train y_train;;
  train_pred ← call_predict clf X_train;
  test_pred ← call_predict clf X_test;
  a ← lift (from_library (accuracy_score y_train train_pred));
  b ← lift (from_library (accuracy_score y_test test_pred));
  mret (Float.sub (Float.of_Z 1) a, Float.sub (Float.of_Z 1) b).

(** [s + c] for a running sum [s] and a contribution [c] *)
Definition plus (s : number) (c : float) : number :=
  Float (Float.add (match s with Int z => Float.of_Z z | Float f => f end) c).

(** The sum of the contributions, added in trial order to the int 0. *)
Definition total (cs : list float) : number := fold_left plus cs (Int 0).

Definition error_spec (clf : loc) (X : matrix) (y : labels) (ntrials : Z) (test_size : number)
    : M (number * number) :=
  cs ← mapM (trial clf X y test_size) (range 0 ntrials);
  train_error ← lift (py_truediv (total cs.*1) (Int ntrials));
  test_error ← lift (py_truediv (total cs.*2) (Int ntrials));
  mret (train_error, test_error).

(** [train_test_split] followed by the truncation of the training partition. *)
Definition truncated_split (partial_amt : number)
    (X : matrix) (y : labels) (test_size : number) (i : Z)
    : result (matrix * matrix * labels * labels) :=
  '(X_train, X_test, y_train, y_test) ← from_library (train_test_split X y test_size i);
  X_train ← truncate X_train partial_amt;
  y_train ← truncate y_train partial_amt;
  Value (X_train, X_test, y_train, y_test).

(** What a trial does once its partitions are fixed: fit, predict on both
    partitions and add the two contributions to the running sums. *)
Definition score (clf : loc) (parts : matrix * matrix * labels * labels)
    (sums : number * number) : M (number * number) :=
  let '(X_train, X_test, y_train, y_test) := parts in
  let '(train_error, test_error) := sums in
  call_fit clf X_train y_train;;
  y_train_pred ← call_predict clf X_train;
  y_test_pred ← call_predict clf X_test;
  a ← lift (from_library (accuracy_score y_train y_train_pred));
  train_error ← lift (py_sub (Int 1) (Float a) ≫= py_add train_error);
  b ← lift (from_library (accuracy_score y_test y_test_pred));
  test_error ← lift (py_sub (Int 1) (Float b) ≫= py_add test_error);
  mret (train_error, test_error).

(** The truncation in the words of the specification: the first
    floor(len * partial_amt / 10) rows. *)
Definition truncate_spec {A} (a : list A) (partial_amt : Z) : list A :=
  take (Z.to_nat (Z.of_nat (length a) * partial_amt / 10)) a.

Definition error_partial_spec (clf : loc) (X : matrix) (y : labels)
    (ntrials : Z) (test_size : number) (partial_amt : Z) : M (number * number) :=
  '(train_error, test_error) ←
    for_in (range 0 ntrials)
      (λ i sums,
         '(X_train, X_test, y_train, y_test) ←
           lift (from_library (train_test_split X y test_size i));
         score clf (truncate_spec X_train partial_amt, X_test,
                    truncate_spec y_train partial_amt, y_test) sums)
      (Int 0, Int 0);
  train_error ← lift (py_truediv train_error (Int ntrials));
  test_error ← lift (py_truediv test_error (Int ntrials));
  mret (train_error, test_error).

(** The index of the truncation as the script computes it,
    [int(len * (partial_amt / 10.0))]: the quotient and the product are
    those of doubles, [int] drops the fraction. *)
Definition double_index (len : nat) (partial_amt : Z) : option Z :=
  Float.trunc (Float.mul (Float.of_Z (Z.of_nat len))
                         (Float.div (Float.of_Z partial_amt) Float.lit_10_0)).

(** The first [int(len * (partial_amt / 10.0))] rows. *)
Definition first_rows {A} (a : list A) (partial_amt : Z) : list A :=
  take (Z.to_nat (default 0 (double_index (length a) partial_amt))) a.

(** The repeated holdout on the first rows of every training partition. *)
Definition error_on_first_rows (clf : loc) (X : matrix) (y : labels)
    (ntrials : Z) (test_size : number) (partial_amt : Z) : M (number * number) :=
  '(train_error, test_error) ←
    for_in (range 0 ntrials)
      (λ i sums,
         '(X_train, X_test, y_train, y_test) ←
           lift (from_library (train_test_split X y test_size i));
         score clf (first_rows X_train partial_amt, X_test,
                    first_rows y_train partial_amt, y_test) sums)
      (Int 0, Int 0);
  train_error ← lift (py_truediv train_error (Int ntrials));
  test_error ← lift (py_truediv test_error (Int ntrials));
  mret (train_error, test_error).

(** The labels [predict] of a random classifier draws when no seed is
    passed: the generator is seeded with 1234, whatever its state was. *)
Definition random_labels (p : float) (n : nat) : library labels :=
  match np_random_seed 1234 with
  | inl name => inl name
  | inr g =>
      match np_random_choice 2 n [p; Float.sub (Float.of_Z 1) p] g with
      | inl name => inl name
      | inr (ys, _) => inr ys
      end
  end.

(** What a trial of a random classifier yields, from the partitions alone. *)
Definition random_score (parts : matrix * matrix * labels * labels)
    (sums : number * number) : result (number * number) :=
  let '(X_train, X_test, y_train, y_test) := parts in
  let '(train_error, test_error) := sums in
  p ← zero_share y_train;
  y_train_pred ← from_library (random_labels p (length X_train));
  y_test_pred ← from_library (random_labels p (length X_test));
  a ← from_library (accuracy_score y_train y_train_pred);
  train_error ← py_sub (Int 1) (Float a) ≫= py_add train_error;
  b ← from_library (accuracy_score y_test y_test_pred);
  test_error ← py_sub (Int 1) (Float b) ≫= py_add test_error;
  Value (train_error, test_error).

(** A running sum of the evaluators: the int 0 or a float. *)
Definition summable (s : number) : Prop := s = Int 0 ∨ ∃ f, s = Float f.

(** The training partitions of the trials of a run have fewer than 2^53 rows. *)
Definition small_partitions (X : matrix) (y : labels) (test_size : number) (ntrials : Z) : Prop :=
  Forall (λ i,
    match train_test_split X y test_size i with
    | inr (X_train, _, y_train, _) =>
        Z.of_nat (length X_train) < 2 ^ 53 ∧ Z.of_nat (length y_train) < 2 ^ 53
    | inl _ => True
    end) (range 0 ntrials).
End Specification.

(** ** Stand-ins for the libraries, to run the script on examples *)

Module Sample.

Fixpoint draws (size : nat) (p0 : float) (g : Z) : labels * Z :=
  match size with
  | O => ([], g)
  | S k =>
      let g' := (1103515245 * g + 12345) mod 2 ^ 31 in
      let u := Float.div (Float.of_Z g') (Float.of_Z (2 ^ 31)) in
      let '(vs, g'') := draws k p0 g' in
      ((if SFltb u p0 then 0 else 1) :: vs, g'')
  end.

(** A linear congruential generator; [choice] draws from two classes. *)
#[export] Instance numpy : Numpy := {|
  RandomState := Z;
  np_random_seed s := if (0 <=? s) && (s <? 2 ^ 32) then inr s else inl "ValueError"%string;
  np_random_choice a size p g :=
    match p with
    | [p0; _] => if a =? 2 then inr (draws size p0 g) else inl "ValueError"%string
    | _ => inl "ValueError"%string
    end;
|}.

(** The number of test rows: [test_size] itself when an int, the ceiling of
    the fraction of [n] when a float. *)
Definition n_test (test_size : number) (n : nat) : nat :=
  match test_size with
  | Int k => Z.to_nat k
  | Float f =>
      let t := Float.mul f (Float.of_Z (Z.of_nat n)) in
      let k := default 0 (Float.trunc t) in
      Z.to_nat (if SFeqb (Float.of_Z k) t then k else k + 1)
  end.

(** The rows are rotated by the seed, the first rows are the test partition. *)
Definition split (X : matrix) (y : labels) (test_size : number) (i : Z)
    : library (matrix * matrix * labels * labels) :=
  if decide (length X = length y) then
    let k := n_test test_size (length X) in
    let r := Z.to_nat i in
    inr (drop k (rotate r X), take k (rotate r X), drop k (rotate r y), take k (rotate r y))
  else inl "ValueError"%string.

(** The fraction of equal entries; the mean of no entries is nan. *)
Definition accuracy (y_true y_pred : labels) : library float :=
  if decide (length y_true = length y_pred) then
    let hits := length (filter (λ p : label * label, p.1 = p.2) (zip y_true y_pred)) in
    inr (Float.div (Float.of_Z (Z.of_nat hits)) (Float.of_Z (Z.of_nat (length y_true))))
  else inl "ValueError"%string.

(** The only library estimator of the examples predicts a stored label. *)
#[export] Instance sklearn : Sklearn := {|
  train_test_split := split;
  accuracy_score := accuracy;
  estimator := label;
  estimator_fit e X y g := (inr (), default e (head y), g);
  estimator_predict e X g := (inr (replicate (length X) e), e, g);
|}.

Definition row (a b : Z) : list float := [Float.of_Z a; Float.of_Z b].

(** Four passengers. *)
Definition X4 : matrix := [row 1 22; row 3 38; row 3 26; row 2 35].
Definition y4 : labels := [0; 1; 1; 1].

(** A hundred passengers: ten for the test partition, then 31 survivors, 32
    victims and 27 survivors. *)
Definition X100 : matrix := replicate 100 (row 3 30).
Definition y100 : labels :=
  replicate 10 0 ++ replicate 31 1 ++ replicate 32 0 ++ replicate 27 1.

(** A heap with a new majority-vote classifier at 1 and a new random
    classifier at 2. *)
Definition w0 : world :=
  World (<[2%positive := Random None]> {[1%positive := MajorityVote None]}) 0.

(** The random classifier of [w0] fitted on three zeros and a one, and the
    same classifier alone in another heap, the generator in another state. *)
Definition w_fit : world := set_object 2%positive (Random (Some Float.three_quarters)) w0.
Definition w_alone : world := World {[2%positive := Random (Some Float.three_quarters)]} 77.

(** Four other rows. *)
Definition X4' : matrix := replicate 4 (row 0 0).

End Sample.

(** ** A trial of a majority-vote classifier *)

Section ClosedForms.
Context `{Sklearn}.

(** What a trial of a majority-vote classifier yields, from the partitions
    alone: both partitions are predicted as the most common training label. *)
Definition majority_score (parts : matrix * matrix * labels * labels)
    (sums : number * number) : result (number * number) :=
  let '(X_train, X_test, y_train, y_test) := parts in
  let '(train_error, test_error) := sums in
  item ← getitem (Counter.most_common_1 (Counter.new y_train)) 0;
  a ← from_library (accuracy_score y_train (replicate (length X_train) item.1));
  train_error ← py_sub (Int 1) (Float a) ≫= py_add train_error;
  b ← from_library (accuracy_score y_test (replicate (length X_test) item.1));
  test_error ← py_sub (Int 1) (Float b) ≫= py_add test_error;
  Value (train_error, test_error).

(** The object at [clf] is an instance of the same baseline class in both
    states. *)
Definition same_baseline (clf : loc) (w1 w2 : world) : Prop :=
  (∃ st1 st2, heap w1 !! clf = Some (MajorityVote st1) ∧ heap w2 !! clf = Some (MajorityVote st2))
  ∨ (∃ st1 st2, heap w1 !! clf = Some (Random st1) ∧ heap w2 !! clf = Some (Random st2)).

(** An exception of the interpreter or of a library, not one the script
    raises itself. *)
Definition not_raised_by_script (e : exn) : Prop := ∀ msg, e ≠ Exception msg.

End ClosedForms.

(** ** plot_histogram

    The feature values of a column are finite doubles, held as the rational
    numbers they denote: [set], [min], [max], [sorted], [math.floor],
    [math.ceil] and the comparison with an int are all exact on them.
    A column with a nan or an infinity is outside this model: on those
    [math.floor] and [math.ceil] raise, and the order of a set with nan is
    that of its hash table.
    The formatting operator [%] and matplotlib's [pyplot] are interfaces. *)

(** ['%s = %s' % (yname, target)] *)
Class Format := {
  percent_s_eq_s : string → label → string;
}.

(** The [bins] argument and result of [plt.hist]: a number of bins, the
    edges the script computes, or the edges [plt.hist] gives back. *)
Inductive bins :=
  | Count (n : Z)
  | Edges (edges : list Z)
  | Computed (edges : list Qc).

(** [matplotlib.pyplot], a state of figures with the calls the script makes. *)
Class Pyplot := {
  canvas : Type;
  plt_figure : canvas → library canvas;
  (** [plt.hist(data, bins=bins, align=align, alpha=0.5, label=labels)];
      of the triple it returns the script keeps the edges *)
  plt_hist : list (list Qc) → bins → string → list string → canvas → library (list Qc * canvas);
  plt_xlabel : string → canvas → library canvas;
  plt_ylabel : string → canvas → library canvas;
  plt_legend : canvas → library canvas;
  plt_show : canvas → library canvas;
}.

Section Histogram.
Context `{Format, Pyplot}.

(** [sorted(set(y))] on labels and on feature values *)
Definition sorted_labels (y : labels) : labels := merge_sort Z.le (remove_dups y).
Definition sorted_values (X : list Qc) : list Qc := merge_sort Qcle (remove_dups X).

(** [[X[i] for i in range(len(y)) if y[i] == target]], from index [i] on *)
Fixpoint select {A} (X : list A) (y : labels) (i : Z) (target : label) : result (list A) :=
  match y with
  | [] => Value []
  | yi :: y' =>
      if decide (yi = target)
      then x ← getitem X i; xs ← select X y' (i + 1) target; Value (x :: xs)
      else select X y' (i + 1) target
  end.

(** [min(features)] and [max(features)] *)
Definition py_min (features : list Qc) : result Qc :=
  match features with
  | [] => Error ValueError
  | v :: rest => Value (fold_left (λ best u, if decide (Qclt u best) then u else best) rest v)
  end.

Definition py_max (features : list Qc) : result Qc :=
  match features with
  | [] => Error ValueError
  | v :: rest => Value (fold_left (λ best u, if decide (Qclt best u) then u else best) rest v)
  end.

Definition plot_histogram (X : list Qc) (y : labels) (Xname yname : string) (show : bool)
    (c : canvas) : result ((list (list Qc) * bins * string * list string) * canvas) :=
  let targets := sorted_labels y in
  data ← mapM (select X y 0) targets;
  let labels := percent_s_eq_s yname <$> targets in
  let features := remove_dups X in
  let nfeatures := Z.of_nat (length features) in
  lo ← py_min features;
  hi ← py_max features;
  test_range ← list_range (Qfloor (this lo)) (Qceiling (this hi) + 1);
  '(bins, align) ←
    (if (nfeatures <? 10) && bool_decide (sorted_values features = Qc_of_Z <$> test_range)
     then last ← getitem test_range (-1);
          Value (Edges (test_range ++ [last + 1]), "left"%string)
     else Value (Count 10, "mid"%string));
  if show then
    c ← from_library (plt_figure c);
    '(edges, c) ← from_library (plt_hist data bins align labels c);
    c ← from_library (plt_xlabel Xname c);
    c ← from_library (plt_ylabel "Frequency" c);
    c ← from_library (plt_legend c);
    c ← from_library (plt_show c);
    Value ((data, Computed edges, align, labels), c)
  else Value ((data, bins, align, labels), c).

(** The values of [X] are the integers from [lo] to [hi], fewer than ten. *)
Definition small_integer_range (X : list Qc) (lo hi : Z) : Prop :=
  lo <= hi ∧ hi - lo < 9 ∧ ∀ x, x ∈ X ↔ ∃ k, lo <= k <= hi ∧ x = Qc_of_Z k.

End Histogram.

(** Stand-ins to run [plot_histogram] on examples: a format for the two
    class codes and a pyplot that logs its calls. *)
Module SampleHistogram.

#[export] Instance format : Format := {|
  percent_s_eq_s yname target :=
    (yname ++ " = " ++ (if decide (target = 0) then "0.0" else "1.0"))%string;
|}.

#[export] Instance pyplot : Pyplot := {|
  canvas := list string;
  plt_figure c := inr (c ++ ["figure"%string]);
  plt_hist data b align labels c := inr ([], c ++ ["hist"%string]);
  plt_xlabel name c := inr (c ++ ["xlabel"%string]);
  plt_ylabel name c := inr (c ++ ["ylabel"%string]);
  plt_legend c := inr (c ++ ["legend"%string]);
  plt_show c := inr (c ++ ["show"%string]);
|}.

(** The passenger class and the fare of four passengers. *)
Definition Pclass : list Qc := Qc_of_Z <$> [3; 1; 3; 2].
Definition Fare : list Qc := [Q2Qc (29 # 4); Q2Qc (71 # 1); Q2Qc (8 # 1); Q2Qc (53 # 1)].

(** No call made yet, and the calls of one histogram. *)
Definition blank : canvas := [].
Definition drawn : canvas :=
  ["figure"; "hist"; "xlabel"; "ylabel"; "legend"; "show"]%string.

End SampleHistogram.

(** * Facts *)

(** ** Doubles that hold integers *)

Section FloatFacts.
Import Float.

Lemma digits2_log2 p : Z.pos (digits2_pos p) = Z.log2 (Z.pos p) + 1.
Proof.
  induction p as [p IH|p IH|]; simpl; try reflexivity.
  all: rewrite Pos2Z.inj_succ; destruct p; simpl in *; lia.
Qed.

Lemma shr_1_double z :
  0 < z -> shr_1 (Build_shr_record (2 * z) false false) = Build_shr_record z false false.
Proof. destruct z; simpl; try lia. reflexivity. Qed.

Lemma iter_shr_exact p : forall z, 0 < z ->
  SpecFloat.iter_pos shr_1 p (Build_shr_record (z * 2 ^ Z.pos p) false false)
  = Build_shr_record z false false.
Proof.
  induction p as [p IH|p IH|]; intros z Hz.
  - change (SpecFloat.iter_pos shr_1 p~1 ?x) with (SpecFloat.iter_pos shr_1 p (SpecFloat.iter_pos shr_1 p (shr_1 x))).
    replace (z * 2 ^ Z.pos p~1) with (2 * (z * 2 ^ Z.pos p * 2 ^ Z.pos p)).
    + rewrite shr_1_double by nia. rewrite IH by nia. apply IH; lia.
    + replace (Z.pos p~1) with (Z.pos p + Z.pos p + 1) by lia.
      rewrite !Z.pow_add_r, Z.pow_1_r by lia. lia.
  - change (SpecFloat.iter_pos shr_1 p~0 ?x) with (SpecFloat.iter_pos shr_1 p (SpecFloat.iter_pos shr_1 p x)).
    replace (z * 2 ^ Z.pos p~0) with (z * 2 ^ Z.pos p * 2 ^ Z.pos p).
    + rewrite IH by nia. apply IH; lia.
    + replace (Z.pos p~0) with (Z.pos p + Z.pos p) by lia.
      rewrite Z.pow_add_r by lia. lia.
  - change (SpecFloat.iter_pos shr_1 1 ?x) with (shr_1 x).
    rewrite Z.pow_1_r. replace (z * 2) with (2 * z) by lia. now apply shr_1_double.
Qed.

Lemma Zdigits2_log2 z : 0 < z -> Zdigits2 z = Z.log2 z + 1.
Proof. destruct z; simpl; try lia. intros _. apply digits2_log2. Qed.

Lemma fexp_normal d :
  3 - emax - prec <= d - prec -> fexp prec emax d = d - prec.
Proof. unfold fexp, SpecFloat.emin. lia. Qed.

Lemma shr_fexp_exact (z s e : Z) :
  0 < z -> 0 <= s -> Z.log2 z + 1 = prec -> 3 - emax - prec <= e + s ->
  shr_fexp prec emax (z * 2 ^ s) e loc_Exact
  = (Build_shr_record z false false, e + s).
Proof.
  intros Hz Hs Hd He. unfold shr_fexp.
  rewrite Zdigits2_log2 by nia.
  rewrite Z.log2_mul_pow2 by lia.
  rewrite fexp_normal by lia.
  replace (s + Z.log2 z + 1 + e - prec - e) with s by lia.
  unfold shr_record_of_loc, shr. destruct s as [|p|p]; try lia.
  - rewrite Z.pow_0_r, Z.mul_1_r, Z.add_0_r. reflexivity.
  - rewrite iter_shr_exact by lia. reflexivity.
Qed.

Lemma binary_round_aux_exact sx (m : positive) (s e : Z) :
  0 <= s -> Z.log2 (Z.pos m) + 1 = prec ->
  3 - emax - prec <= e + s <= emax - prec ->
  binary_round_aux prec emax sx (Z.pos m * 2 ^ s) e loc_Exact = S754_finite sx m (e + s).
Proof.
  intros Hs Hd He. unfold binary_round_aux.
  rewrite shr_fexp_exact by lia.
  cbn [shr_m loc_of_shr_record round_nearest_even].
  pose proof (shr_fexp_exact (Z.pos m) 0 (e + s)) as H0.
  rewrite Z.pow_0_r, Z.mul_1_r, Z.add_0_r in H0. rewrite H0 by lia.
  cbn [shr_m]. destruct (Z.leb_spec (e + s) (emax - prec)); [reflexivity | lia].
Qed.

Lemma iter_xO_spec (p d : positive) : Z.pos (Pos.iter xO p d) = Z.pos p * 2 ^ Z.pos d.
Proof.
  induction d as [|d IH] using Pos.peano_ind.
  - simpl. lia.
  - rewrite Pos.iter_succ, Pos2Z.inj_succ, Z.pow_succ_r by lia.
    rewrite Pos2Z.inj_xO, IH. lia.
Qed.

Lemma shl_align_spec (m : positive) (e s : Z) :
  0 <= s ->
  exists m', shl_align m e (e - s) = (m', e - s) /\ Z.pos m' = Z.pos m * 2 ^ s.
Proof.
  intros Hs. unfold shl_align. replace (e - s - e) with (- s) by lia.
  destruct s as [|d|d]; try lia.
  - exists m. rewrite Z.sub_0_r. simpl. split; [reflexivity | lia].
  - exists (Pos.iter xO m d). simpl Z.opp. cbv iota. split; [reflexivity | apply iter_xO_spec].
Qed.

Lemma shl_align_id (m : positive) (e e' : Z) : e <= e' -> shl_align m e e' = (m, e).
Proof. intros H. unfold shl_align. destruct (e' - e) eqn:E; try reflexivity. lia. Qed.

(** A value whose mantissa has at most 53 bits is rounded by a left shift. *)
Lemma binary_round_exact_l sx (p m : positive) (e s : Z) :
  0 <= s -> Z.pos m = Z.pos p * 2 ^ s -> Z.log2 (Z.pos m) + 1 = prec ->
  3 - emax - prec <= e - s <= emax - prec ->
  binary_round prec emax sx p e = S754_finite sx m (e - s).
Proof.
  intros Hs Hm Hd He. unfold binary_round.
  rewrite digits2_log2.
  assert (Hl : Z.log2 (Z.pos p) = Z.log2 (Z.pos m) - s).
  { rewrite Hm, Z.log2_mul_pow2 by lia. lia. }
  rewrite fexp_normal by lia.
  replace (Z.log2 (Z.pos p) + 1 + e - prec) with (e - s) by lia.
  destruct (shl_align_spec p e s Hs) as (m' & -> & Hm').
  assert (m' = m) as -> by lia.
  pose proof (binary_round_aux_exact sx m 0 (e - s)) as H0.
  rewrite Z.pow_0_r, Z.mul_1_r, Z.add_0_r in H0. apply H0; lia.
Qed.

(** A value whose mantissa has 53 bits followed by zeros is rounded by a right shift. *)
Lemma binary_round_exact_r sx (p m : positive) (e s : Z) :
  0 <= s -> Z.pos p = Z.pos m * 2 ^ s -> Z.log2 (Z.pos m) + 1 = prec ->
  3 - emax - prec <= e + s <= emax - prec ->
  binary_round prec emax sx p e = S754_finite sx m (e + s).
Proof.
  intros Hs Hm Hd He. unfold binary_round.
  rewrite digits2_log2, Hm, Z.log2_mul_pow2 by lia.
  rewrite fexp_normal by lia.
  rewrite shl_align_id by lia.
  rewrite Hm. apply binary_round_aux_exact; lia.
Qed.

Lemma log2_small n : 0 < n < 2 ^ 53 -> 0 <= Z.log2 n <= 52.
Proof.
  intros H. split; [apply Z.log2_nonneg|].
  assert (Z.log2 n < 53) by (apply Z.log2_lt_pow2; lia). lia.
Qed.

Lemma of_Z_small n : 0 < n < 2 ^ 53 -> of_Z n = canon n.
Proof.
  intros H. pose proof (log2_small n H) as Hl.
  destruct n as [|p|p]; try lia. unfold of_Z, binary_normalize, canon.
  assert (0 < Z.pos p * 2 ^ (52 - Z.log2 (Z.pos p))) by (apply Z.mul_pos_pos; [lia | apply Z.pow_pos_nonneg; lia]).
  replace (Z.log2 (Z.pos p) - 52) with (0 - (52 - Z.log2 (Z.pos p))) by lia.
  apply binary_round_exact_l; rewrite ?Z2Pos.id by lia;
    rewrite ?Z.log2_mul_pow2 by lia; unfold emax, prec; lia.
Qed.

Lemma canon_mantissa n :
  0 < n < 2 ^ 53 ->
  Z.pos (Z.to_pos (n * 2 ^ (52 - Z.log2 n))) = n * 2 ^ (52 - Z.log2 n)
  /\ Z.log2 (n * 2 ^ (52 - Z.log2 n)) = 52.
Proof.
  intros H. pose proof (log2_small n H) as Hl.
  assert (0 < n * 2 ^ (52 - Z.log2 n)) by (apply Z.mul_pos_pos; [lia | apply Z.pow_pos_nonneg; lia]).
  split; [apply Z2Pos.id; lia|]. rewrite Z.log2_mul_pow2 by lia. lia.
Qed.

Lemma mul_canon_one n : 0 < n < 2 ^ 53 -> mul (canon n) one = canon n.
Proof.
  intros H. pose proof (log2_small n H) as Hl.
  destruct (canon_mantissa n H) as [Hm Hd].
  unfold mul, canon, one, SFmul. cbn [xorb].
  rewrite Pos2Z.inj_mul. change (Z.pos 4503599627370496) with (2 ^ 52).
  replace (Z.log2 n - 52) with (Z.log2 n - 52 + -52 + 52) at 2 by lia.
  apply binary_round_aux_exact; rewrite ?Hm, ?Hd; unfold emax, prec; lia.
Qed.

Lemma trunc_canon n : 0 < n < 2 ^ 53 -> trunc (canon n) = Some n.
Proof.
  intros H. pose proof (log2_small n H) as Hl.
  destruct (canon_mantissa n H) as [Hm Hd].
  unfold trunc, canon. rewrite Hm. cbn [cond_Zopp]. f_equal.
  destruct (Z.leb_spec 0 (Z.log2 n - 52)).
  - replace (Z.log2 n - 52) with 0 by lia. replace (52 - Z.log2 n) with 0 by lia.
    rewrite Z.pow_0_r. lia.
  - replace (- (Z.log2 n - 52)) with (52 - Z.log2 n) by lia.
    apply Z.div_mul. apply Z.pow_nonzero; lia.
Qed.

Lemma add_canon a b :
  0 < a -> 0 < b -> a + b < 2 ^ 53 -> add (canon a) (canon b) = canon (a + b).
Proof.
  intros Ha Hb Hab.
  pose proof (log2_small a ltac:(lia)) as Hla.
  pose proof (log2_small b ltac:(lia)) as Hlb.
  pose proof (log2_small (a + b) ltac:(lia)) as Hlab.
  pose proof (Z.log2_le_mono a (a + b) ltac:(lia)) as Hma.
  pose proof (Z.log2_le_mono b (a + b) ltac:(lia)) as Hmb.
  destruct (canon_mantissa a ltac:(lia)) as [Hca _].
  destruct (canon_mantissa b ltac:(lia)) as [Hcb _].
  destruct (canon_mantissa (a + b) ltac:(lia)) as [Hcab Hdab].
  unfold add, canon, SFadd. cbn [cond_Zopp].
  set (ea := Z.log2 a - 52). set (eb := Z.log2 b - 52). set (ez := Z.min ea eb).
  destruct (shl_align_spec (Z.to_pos (a * 2 ^ (52 - Z.log2 a))) ea (ea - ez) ltac:(lia))
    as (ma & Ea & Hma').
  destruct (shl_align_spec (Z.to_pos (b * 2 ^ (52 - Z.log2 b))) eb (eb - ez) ltac:(lia))
    as (mb & Eb & Hmb').
  replace (ea - (ea - ez)) with ez in Ea by lia.
  replace (eb - (eb - ez)) with ez in Eb by lia.
  rewrite Ea, Eb. cbn [fst].
  rewrite Hca in Hma'. rewrite Hcb in Hmb'.
  rewrite <- Z.mul_assoc, <- Z.pow_add_r in Hma', Hmb' by lia.
  replace (52 - Z.log2 a + (ea - ez)) with (- ez) in Hma' by lia.
  replace (52 - Z.log2 b + (eb - ez)) with (- ez) in Hmb' by lia.
  change (Z.pos ma + Z.pos mb) with (Z.pos (ma + mb)). unfold binary_normalize.
  replace (Z.log2 (a + b) - 52) with (ez + (- ez - (52 - Z.log2 (a + b)))) by lia.
  apply binary_round_exact_r; rewrite ?Hcab, ?Hdab; unfold emax, prec; try lia.
  rewrite Pos2Z.inj_add, Hma', Hmb', <- Z.mul_assoc, <- Z.pow_add_r by lia.
  replace (52 - Z.log2 (a + b) + (- ez - (52 - Z.log2 (a + b)))) with (- ez) by lia. lia.
Qed.

Lemma of_Z_0 : of_Z 0 = S754_zero false.
Proof. reflexivity. Qed.

Lemma float_of_int_small n : 0 < n < 2 ^ 53 -> float_of_int n = Value (canon n).
Proof. intros H. unfold float_of_int. rewrite of_Z_small by done. reflexivity. Qed.

Lemma float_of_int_0 : float_of_int 0 = Value (S754_zero false).
Proof. reflexivity. Qed.

Lemma add_of_Z a b :
  0 <= a -> 0 <= b -> a + b < 2 ^ 53 -> add (of_Z a) (of_Z b) = of_Z (a + b).
Proof.
  intros Ha Hb Hab.
  destruct (decide (b = 0)) as [->|].
  { rewrite Z.add_0_r, of_Z_0. destruct (decide (a = 0)) as [->|]; [done|].
    by rewrite (of_Z_small a) by lia. }
  destruct (decide (a = 0)) as [->|].
  { rewrite Z.add_0_l, of_Z_0. by rewrite (of_Z_small b) by lia. }
  rewrite !of_Z_small by lia. apply add_canon; lia.
Qed.

(** *** No overflow: the magnitude of a rounded result *)

Lemma iter_pos_invariant {A} (P : A → Prop) (f : A → A) :
  (∀ x, P x → P (f x)) → ∀ p x, P x → P (SpecFloat.iter_pos f p x).
Proof. intros Hf. induction p as [p IH|p IH|]; intros x Hx; cbn; auto. Qed.

Lemma shr_1_half mrs : 0 <= shr_m mrs → shr_m (shr_1 mrs) = shr_m mrs / 2.
Proof.
  destruct mrs as [[|[p|p|]|p] r s]; cbn [shr_m shr_1]; try lia; intros _.
  - done.
  - apply (Z.div_unique _ 2 _ 1); [lia|]. rewrite Pos2Z.inj_xI. lia.
  - apply (Z.div_unique _ 2 _ 0); [lia|]. rewrite Pos2Z.inj_xO. lia.
  - done.
Qed.

Lemma iter_shr_div p : ∀ mrs,
  0 <= shr_m mrs → shr_m (SpecFloat.iter_pos shr_1 p mrs) = shr_m mrs / 2 ^ Z.pos p.
Proof.
  assert (Hnn : ∀ q mrs, 0 <= shr_m mrs → 0 <= shr_m (SpecFloat.iter_pos shr_1 q mrs)).
  { intros q. apply (iter_pos_invariant (λ mrs, 0 <= shr_m mrs)).
    intros x Hx. rewrite shr_1_half by done. by apply Z.div_pos. }
  induction p as [p IH|p IH|]; intros mrs Hm; cbn [SpecFloat.iter_pos].
  - rewrite IH, IH, shr_1_half; try done.
    + rewrite !Z.div_div by (try apply Z.pow_pos_nonneg; lia).
      f_equal. replace (Z.pos p~1) with (1 + Z.pos p + Z.pos p) by lia.
      rewrite !Z.pow_add_r, Z.pow_1_r by lia. ring.
    + rewrite shr_1_half by done. by apply Z.div_pos.
    + apply Hnn. rewrite shr_1_half by done. by apply Z.div_pos.
  - rewrite IH, IH; try done; [|by apply Hnn].
    rewrite !Z.div_div by (try apply Z.pow_pos_nonneg; lia).
    f_equal. replace (Z.pos p~0) with (Z.pos p + Z.pos p) by lia.
    by rewrite Z.pow_add_r by lia.
  - by rewrite shr_1_half, Z.pow_1_r.
Qed.

Lemma Zdigits2_nonneg z : 0 <= Zdigits2 z.
Proof. destruct z; cbn; lia. Qed.

Lemma Zdigits2_mono a b : 0 <= a <= b → Zdigits2 a <= Zdigits2 b.
Proof.
  intros [Ha Hab]. destruct (decide (a = 0)) as [->|]; [apply Zdigits2_nonneg|].
  rewrite !Zdigits2_log2 by lia. pose proof (Z.log2_le_mono a b Hab). lia.
Qed.

Lemma Zdigits2_succ a : 0 <= a → Zdigits2 (a + 1) <= Zdigits2 a + 1.
Proof.
  intros Ha. destruct (decide (a = 0)) as [->|]; [done|].
  rewrite !Zdigits2_log2 by lia. pose proof (Z.log2_succ_le a) as Hs.
  unfold Z.succ in Hs. lia.
Qed.

Lemma Zdigits2_div_pow2 m n :
  0 <= m → 0 < n → Zdigits2 (m / 2 ^ n) <= Z.max 0 (Zdigits2 m - n).
Proof.
  intros Hm Hn. assert (H2 : 0 < 2 ^ n) by (apply Z.pow_pos_nonneg; lia).
  destruct (decide (m / 2 ^ n = 0)) as [->|Hq]; [cbn; lia|].
  assert (0 <= m / 2 ^ n) by (apply Z.div_pos; lia).
  assert (Hge : 2 ^ n <= m).
  { destruct (Z.lt_ge_cases m (2 ^ n)); [|done]. rewrite Z.div_small in Hq by lia. done. }
  rewrite !Zdigits2_log2 by lia.
  rewrite <- Z.shiftr_div_pow2, Z.log2_shiftr by lia.
  apply Z.log2_le_pow2 in Hge; lia.
Qed.

Lemma Zdigits2_mul a b : 0 <= a → 0 <= b → Zdigits2 (a * b) <= Zdigits2 a + Zdigits2 b.
Proof.
  intros Ha Hb. destruct (decide (a = 0)) as [->|]; [cbn; apply Zdigits2_nonneg|].
  destruct (decide (b = 0)) as [->|].
  { rewrite Z.mul_0_r. cbn. pose proof (Zdigits2_nonneg a). lia. }
  rewrite !Zdigits2_log2 by nia. pose proof (Z.log2_mul_above a b Ha Hb). lia.
Qed.

Lemma shr_m_of_loc m l : shr_m (shr_record_of_loc m l) = m.
Proof. by destruct l as [|[]]. Qed.

Lemma shr_fexp_bound m e l :
  0 <= m →
  0 <= shr_m (shr_fexp prec emax m e l).1
  ∧ Zdigits2 (shr_m (shr_fexp prec emax m e l).1) + (shr_fexp prec emax m e l).2
    <= Z.max (Zdigits2 m + e) (3 - emax - prec).
Proof.
  intros Hm. unfold shr_fexp, shr.
  destruct (fexp prec emax (Zdigits2 m + e) - e) as [|p|p] eqn:En; cbn [fst snd].
  1,3: rewrite shr_m_of_loc; split; [done | lia].
  rewrite iter_shr_div by (by rewrite shr_m_of_loc). rewrite shr_m_of_loc.
  assert (H2 : 0 < 2 ^ Z.pos p) by (apply Z.pow_pos_nonneg; lia).
  split; [apply Z.div_pos; lia|].
  pose proof (Zdigits2_div_pow2 m (Z.pos p) Hm ltac:(lia)).
  pose proof (Zdigits2_nonneg m).
  unfold fexp, SpecFloat.emin in En. unfold prec, emax in *. lia.
Qed.

Lemma round_nearest_even_bound m l :
  0 <= m → 0 <= round_nearest_even m l ∧ Zdigits2 (round_nearest_even m l) <= Zdigits2 m + 1.
Proof.
  intros Hm. pose proof (Zdigits2_succ m Hm).
  destruct l as [|[]]; cbn [round_nearest_even]; try (split; lia).
  destruct (Z.even m); split; lia.
Qed.

Lemma binary_round_aux_bound sx mx ex lx B :
  0 <= mx → Zdigits2 mx + ex <= B → 3 - emax - prec <= B → B + 1 <= emax - prec →
  binary_round_aux prec emax sx mx ex lx = S754_zero sx
  ∨ ∃ m e, binary_round_aux prec emax sx mx ex lx = S754_finite sx m e
           ∧ Z.pos (digits2_pos m) + e <= B + 1.
Proof.
  intros Hm HB Hlo Hhi. unfold binary_round_aux.
  pose proof (Zdigits2_nonneg mx).
  destruct (shr_fexp_bound mx ex lx Hm) as [Hm1 Hb1].
  destruct (shr_fexp prec emax mx ex lx) as [mrs' e']. cbn [fst snd] in Hm1, Hb1.
  destruct (round_nearest_even_bound (shr_m mrs') (loc_of_shr_record mrs') Hm1) as [Hr Hd].
  destruct (shr_fexp_bound (round_nearest_even (shr_m mrs') (loc_of_shr_record mrs')) e'
              loc_Exact Hr) as [Hm2 Hb2].
  destruct (shr_fexp prec emax _ e' loc_Exact) as [mrs'' e'']. cbn [fst snd] in Hm2, Hb2.
  destruct (shr_m mrs'') as [|m|m] eqn:Em; [by left | | lia].
  right. cbn [Zdigits2] in Hb2. exists m, e''.
  unfold prec, emax in *.
  destruct (Z.leb_spec e'' (1024 - 53)); [split; [done|lia] | lia].
Qed.

Lemma mul_below B1 B2 x y :
  below B1 x → below B2 y → 3 - emax - prec <= B1 + B2 → B1 + B2 + 1 <= emax - prec →
  below (B1 + B2 + 1) (mul x y).
Proof.
  intros Hx Hy Hlo Hhi.
  destruct x as [[]|[]| |[] mx ex], y as [[]|[]| |[] my ey]; try done.
  unfold mul, SFmul. cbn [xorb]. cbn [below] in Hx, Hy.
  destruct (binary_round_aux_bound false (Z.pos (mx * my)) (ex + ey) loc_Exact (B1 + B2))
    as [-> | (m & e & -> & Hb)]; try done.
  rewrite Pos2Z.inj_mul. pose proof (Zdigits2_mul (Z.pos mx) (Z.pos my)). cbn [Zdigits2] in *. lia.
Qed.

Lemma div_below B x my ey :
  below B x → 3 - emax - prec <= B - ey → B - ey + 1 <= emax - prec →
  below (B - ey + 1) (div x (S754_finite false my ey)).
Proof.
  intros Hx Hlo Hhi. destruct x as [[]|[]| |[] mx ex]; try done.
  unfold div, SFdiv, SFdiv_core_binary. cbn [xorb]. cbn [below] in Hx.
  set (e' := Z.min _ _). set (s := ex - ey - e').
  assert (Hs : 0 <= s) by (unfold s, e'; lia).
  set (m' := match s with Z0 => Z.pos mx | Z.pos _ => Z.shiftl (Z.pos mx) s | Z.neg _ => 0 end).
  assert (Hm' : m' = Z.pos mx * 2 ^ s).
  { unfold m'. destruct s; [lia | by rewrite Z.shiftl_mul_pow2 | lia]. }
  assert (H2 : 0 < 2 ^ s) by (apply Z.pow_pos_nonneg; lia).
  pose proof (Z_div_mod m' (Z.pos my) ltac:(lia)) as Hdm.
  destruct (Z.div_eucl m' (Z.pos my)) as [q r]. destruct Hdm as [Hq Hr].
  assert (Hq0 : 0 <= q) by nia.
  assert (Hqm : q <= m') by nia.
  destruct (binary_round_aux_bound false q e' (new_location (Z.pos my) r) (B - ey))
    as [-> | (m & e & -> & Hb)]; try done.
  pose proof (Zdigits2_mono q m' ltac:(lia)) as Hd.
  assert (Hpos : 0 < Z.pos mx * 2 ^ s) by (apply Z.mul_pos_pos; lia).
  rewrite Hm' in Hd. rewrite (Zdigits2_log2 _ Hpos), Z.log2_mul_pow2 in Hd by lia.
  pose proof (digits2_log2 mx). unfold s in Hd. lia.
Qed.

Lemma of_Z_below n : 0 <= n < 2 ^ 53 → below 53 (of_Z n).
Proof.
  intros Hn. destruct (decide (n = 0)) as [->|]; [done|].
  rewrite of_Z_small by lia. unfold canon. cbn [below].
  destruct (canon_mantissa n ltac:(lia)) as [Hm Hd].
  rewrite digits2_log2, Hm, Hd. pose proof (log2_small n ltac:(lia)). lia.
Qed.

Lemma trunc_below B f : below B f → ∃ k, trunc f = Some k ∧ 0 <= k.
Proof.
  destruct f as [[]|[]| |[] m e]; try done; intros _; cbn [trunc cond_Zopp].
  - by exists 0.
  - eexists. split; [done|]. destruct (Z.leb_spec 0 e).
    + apply Z.mul_nonneg_nonneg; [lia | apply Z.pow_nonneg; lia].
    + apply Z.div_pos; [lia | apply Z.pow_pos_nonneg; lia].
Qed.

(** [int(len * (partial_amt / 10.0))] is defined and not negative. *)
Lemma index_defined n pa :
  0 <= n < 2 ^ 53 → 0 <= pa < 2 ^ 53 →
  ∃ k, trunc (mul (of_Z n) (div (of_Z pa) lit_10_0)) = Some k ∧ 0 <= k.
Proof.
  intros Hn Hpa. apply (trunc_below (53 + (53 - -49 + 1) + 1)).
  apply mul_below; [by apply of_Z_below | | unfold prec, emax; lia..].
  apply div_below; [by apply of_Z_below | unfold prec, emax; lia..].
Qed.

Lemma float_of_int_of_Z n : 0 <= n < 2 ^ 53 → float_of_int n = Value (of_Z n).
Proof.
  intros Hn. destruct (decide (n = 0)) as [->|]; [done|].
  rewrite float_of_int_small by lia. by rewrite of_Z_small by lia.
Qed.

End FloatFacts.

(** ** Counters hold the number of occurrences *)

Section CounterFacts.
Import Counter.

Lemma count_nil v : count v [] = 0.
Proof. reflexivity. Qed.

Lemma count_cons v u y : count v (u :: y) = (if decide (u = v) then 1 else 0) + count v y.
Proof.
  unfold count. rewrite filter_cons. destruct (decide (u = v)); simpl; lia.
Qed.

Lemma count_app v y1 y2 : count v (y1 ++ y2) = count v y1 + count v y2.
Proof. unfold count. rewrite filter_app, length_app. lia. Qed.

Lemma count_nonneg v y : 0 <= count v y.
Proof. unfold count. lia. Qed.

Lemma count_pos_elem v y : 0 < count v y ↔ v ∈ y.
Proof.
  induction y as [|u y IH]; [rewrite count_nil; split; [lia | by intros ?%elem_of_nil]|].
  rewrite count_cons, elem_of_cons. pose proof (count_nonneg v y).
  destruct (decide (u = v)) as [->|]; [split; [auto | lia]|].
  rewrite Z.add_0_l, IH. split; [auto | by intros [|]].
Qed.

Lemma count_le_length v y : count v y <= Z.of_nat (length y).
Proof. unfold count. pose proof (length_filter (λ u, u = v) y). lia. Qed.

Lemma count_two_le y : count 0 y + count 1 y <= Z.of_nat (length y).
Proof.
  induction y as [|u y IH]; [done|].
  rewrite !count_cons, length_cons. repeat case_decide; lia.
Qed.

Lemma count_binary y :
  Forall (λ v, v = 0 ∨ v = 1) y → count 0 y + count 1 y = Z.of_nat (length y).
Proof.
  induction 1 as [|u y Hu _ IH]; [done|].
  rewrite !count_cons, length_cons.
  destruct Hu as [-> | ->]; repeat case_decide; lia.
Qed.

Lemma get_incr k c k' :
  get (incr k c) k' = (if decide (k = k') then 1 else 0) + get c k'.
Proof.
  induction c as [|[k0 n] c IH]; simpl.
  - repeat case_decide; lia.
  - destruct (decide (k0 = k)) as [->|Hne]; simpl; repeat case_decide; subst; try lia; done.
Qed.

Lemma get_fold y : ∀ c k, get (fold_left (λ c k, incr k c) y c) k = get c k + count k y.
Proof.
  induction y as [|u y IH]; intros c k; simpl.
  - rewrite count_nil. lia.
  - rewrite IH, get_incr, count_cons. lia.
Qed.

Lemma get_new y k : get (new y) k = count k y.
Proof. unfold new. rewrite get_fold. simpl. lia. Qed.

Lemma incr_keys k c :
  (incr k c).*1 = if decide (k ∈ c.*1) then c.*1 else c.*1 ++ [k].
Proof.
  induction c as [|[k0 n] c IH].
  - case_decide as Hd; [by apply elem_of_nil in Hd | done].
  - cbn [incr]. destruct (decide (k0 = k)) as [->|Hne]; rewrite !fmap_cons; cbn [fst].
    + destruct (decide (k ∈ k :: c.*1)) as [|Hd]; [done | exfalso; apply Hd; set_solver].
    + rewrite IH. destruct (decide (k ∈ c.*1)), (decide (k ∈ k0 :: c.*1)); try done.
      * exfalso. set_solver.
      * exfalso. set_solver.
Qed.

Lemma incr_NoDup k c : NoDup c.*1 → NoDup (incr k c).*1.
Proof.
  intros Hc. rewrite incr_keys. case_decide; [done|].
  apply NoDup_app. split_and!; [done | | apply NoDup_singleton].
  intros x Hx ->%list_elem_of_singleton. done.
Qed.

Lemma fold_keys y : ∀ c,
  NoDup c.*1 →
  NoDup (fold_left (λ c k, incr k c) y c).*1
  ∧ ∀ k, k ∈ (fold_left (λ c k, incr k c) y c).*1 ↔ k ∈ c.*1 ∨ k ∈ y.
Proof.
  induction y as [|u y IH]; intros c Hc; simpl.
  - split; [done|]. intros k. rewrite elem_of_nil. naive_solver.
  - destruct (IH (incr u c) (incr_NoDup u c Hc)) as [Hn Hk]. split; [done|].
    intros k. rewrite Hk, incr_keys, elem_of_cons.
    case_decide; rewrite ?elem_of_app, ?list_elem_of_singleton; naive_solver.
Qed.

Lemma new_NoDup y : NoDup (new y).*1.
Proof. apply (fold_keys y []). constructor. Qed.

Lemma new_keys y k : k ∈ (new y).*1 ↔ k ∈ y.
Proof.
  destruct (fold_keys y [] (NoDup_nil_2)) as [_ Hk]. unfold new. rewrite Hk.
  simpl. rewrite elem_of_nil. naive_solver.
Qed.

Lemma get_elem c k n : NoDup c.*1 → (k, n) ∈ c → get c k = n.
Proof.
  induction c as [|[k0 n0] c IH]; intros Hc Hin; [by apply elem_of_nil in Hin|].
  apply NoDup_cons in Hc as [Hk0 Hc]. simpl.
  apply elem_of_cons in Hin as [[= <- <-]|Hin]; [by rewrite decide_True|].
  rewrite decide_False; [by apply IH|].
  intros ->. apply Hk0. apply list_elem_of_fmap. by exists (k, n).
Qed.

Lemma new_items y k n : (k, n) ∈ new y ↔ k ∈ y ∧ n = count k y.
Proof.
  split.
  - intros Hin. split.
    + apply new_keys. apply list_elem_of_fmap. by exists (k, n).
    + rewrite <- get_new. symmetry. apply get_elem; [apply new_NoDup | done].
  - intros [Hk ->]. apply new_keys, list_elem_of_fmap in Hk as ([k' n'] & -> & Hin).
    simpl. pose proof (get_elem _ _ _ (new_NoDup y) Hin) as Hg.
    rewrite get_new in Hg. by rewrite Hg.
Qed.

Lemma max_item_spec items : ∀ best,
  max_item best items ∈ best :: items
  ∧ ∀ it, it ∈ best :: items → it.2 <= (max_item best items).2.
Proof.
  induction items as [|it0 items IH]; intros best; simpl.
  - split; [set_solver|]. intros it ->%list_elem_of_singleton. lia.
  - destruct (IH (if best.2 <? it0.2 then it0 else best)) as [Hin Hmax]. split.
    + apply elem_of_cons in Hin as [-> | Hin].
      * destruct (best.2 <? it0.2); set_solver.
      * set_solver.
    + intros it Hit.
      assert (H0 : (if best.2 <? it0.2 then it0 else best).2 <= (max_item (if best.2 <? it0.2 then it0 else best) items).2)
        by (apply Hmax; set_solver).
      apply elem_of_cons in Hit as [-> | Hit]; [|apply elem_of_cons in Hit as [-> | Hit]].
      * destruct (Z.ltb_spec best.2 it0.2); lia.
      * destruct (Z.ltb_spec best.2 it0.2); lia.
      * apply Hmax. set_solver.
Qed.

(** The item [most_common(1)] returns holds a label of maximal count. *)
Lemma most_common_new y :
  y ≠ [] →
  ∃ k, most_common_1 (new y) = [(k, count k y)] ∧ k ∈ y ∧ ∀ u, count u y <= count k y.
Proof.
  intros Hy. unfold most_common_1.
  destruct (new y) as [|it rest] eqn:E.
  { destruct y as [|u y]; [done|]. exfalso.
    assert (u ∈ (new (u :: y)).*1) as Hu by (apply new_keys; set_solver).
    rewrite E in Hu. by apply elem_of_nil in Hu. }
  destruct (max_item_spec rest it) as [Hin Hmax]. rewrite <- E in Hin, Hmax.
  destruct (max_item it rest) as [k n]. apply new_items in Hin as [Hk ->].
  exists k. split_and!; [done | done |]. intros u.
  destruct (decide (u ∈ y)) as [Hu|Hu].
  - apply (Hmax (u, count u y)). apply new_items. done.
  - pose proof (count_pos_elem u y). pose proof (count_pos_elem k y).
    pose proof (count_nonneg u y). destruct (decide (0 < count u y)); [tauto | ].
    assert (0 < count k y) by tauto. lia.
Qed.

End CounterFacts.

(** ** The heap and the attributes of the two classifiers *)

Section ClassifierFacts.
Context `{Sklearn}.

Lemma load_lookup l o (w : world) : heap w !! l = Some o → load l w = Return o w.
Proof. intros Hl. unfold load. by rewrite Hl. Qed.

Lemma lookup_set_object l o (w : world) : heap (set_object l o w) !! l = Some o.
Proof. apply lookup_insert_eq. Qed.

Lemma set_object_twice l o o' (w : world) :
  set_object l o (set_object l o' w) = set_object l o w.
Proof. unfold set_object. simpl. by rewrite insert_insert_eq. Qed.

Lemma set_object_id l o (w : world) : heap w !! l = Some o → set_object l o w = w.
Proof. intros Hl. destruct w as [h g]. unfold set_object. simpl in *. by rewrite insert_id. Qed.

Lemma mv_fit_spec self X y st (w : world) :
  heap w !! self = Some (MajorityVote st) →
  MajorityVoteClassifier.fit self X y w =
    match Counter.most_common_1 (Counter.new y) with
    | [] => Raise IndexError w
    | item :: _ => Return self (set_object self (MajorityVote (Some item.1)) w)
    end.
Proof.
  intros Hl. unfold MajorityVoteClassifier.fit, MajorityVoteClassifier.set_prediction_.
  unfold mbind, M_bind, lift.
  destruct (Counter.most_common_1 (Counter.new y)) as [|item rest] eqn:E.
  - reflexivity.
  - unfold Counter.most_common_1 in E. destruct (Counter.new y); [done|].
    injection E as <- <-. cbn [getitem]. simpl. unfold load. by rewrite Hl.
Qed.

Lemma mv_predict_spec self X st (w : world) :
  heap w !! self = Some (MajorityVote st) →
  MajorityVoteClassifier.predict self X w =
    match st with
    | None => Raise (Exception not_initialized) w
    | Some v => Return (replicate (length X) v) w
    end.
Proof.
  intros Hl. unfold MajorityVoteClassifier.predict, MajorityVoteClassifier.get_prediction_.
  unfold mbind, M_bind. rewrite (load_lookup _ _ _ Hl). by destruct st.
Qed.

Lemma mv_fit_mode self X y st (w : world) v :
  heap w !! self = Some (MajorityVote st) →
  (∀ u, u ≠ v → count u y < count v y) →
  MajorityVoteClassifier.fit self X y w
  = Return self (set_object self (MajorityVote (Some v)) w).
Proof.
  intros Hl Hv. rewrite (mv_fit_spec _ _ _ _ _ Hl).
  assert (Hy : y ≠ []).
  { intros ->. specialize (Hv (v + 1) ltac:(lia)). rewrite !count_nil in Hv. lia. }
  destruct (most_common_new y Hy) as (k & -> & _ & Hk). cbn [fst].
  destruct (decide (k = v)) as [->|Hne]; [done|].
  specialize (Hv k Hne). specialize (Hk v). lia.
Qed.

(** C3. For a label vector [y] with a unique most common value [v] (so [y]
    is not empty), fitting a majority-vote classifier on any [X] and [y]
    and predicting on a matrix of [n] rows returns [v] repeated [n] times,
    whatever the feature values are. *)
Theorem majority_vote_predicts_mode self (X X' : matrix) (y : labels) (v : label) st (w : world) :
  heap w !! self = Some (MajorityVote st) →
  y ≠ [] →
  (∀ u, u ≠ v → count u y < count v y) →
  ∃ w',
    MajorityVoteClassifier.fit self X y w = Return self w'
    ∧ MajorityVoteClassifier.predict self X' w' = Return (replicate (length X') v) w'.
Proof.
  intros Hl _ Hv. eexists. split; [by apply (mv_fit_mode _ _ _ st)|].
  by rewrite (mv_predict_spec _ _ (Some v)) by apply lookup_set_object.
Qed.

Lemma mv_fit_inv self X y r (w w' : world) :
  MajorityVoteClassifier.fit self X y w = Return r w' →
  ∃ st item rest,
    heap w !! self = Some (MajorityVote st)
    ∧ Counter.most_common_1 (Counter.new y) = item :: rest
    ∧ r = self ∧ w' = set_object self (MajorityVote (Some item.1)) w.
Proof.
  destruct (heap w !! self) as [[st|st|e]|] eqn:Hl.
  - rewrite (mv_fit_spec _ _ _ _ _ Hl).
    destruct (Counter.most_common_1 (Counter.new y)) as [|item rest]; [done|].
    intros [= <- <-]. by exists st, item, rest.
  - unfold MajorityVoteClassifier.fit, MajorityVoteClassifier.set_prediction_, mbind, M_bind, lift, load.
    destruct (getitem _ 0); [rewrite Hl|]; done.
  - unfold MajorityVoteClassifier.fit, MajorityVoteClassifier.set_prediction_, mbind, M_bind, lift, load.
    destruct (getitem _ 0); [rewrite Hl|]; done.
  - unfold MajorityVoteClassifier.fit, MajorityVoteClassifier.set_prediction_, mbind, M_bind, lift, load.
    destruct (getitem _ 0); [rewrite Hl|]; done.
Qed.

Lemma rc_fit_spec self X y st (w : world) :
  heap w !! self = Some (Random st) →
  RandomClassifier.fit self X y w =
    match zero_share y with
    | Value p => Return self (set_object self (Random (Some p)) w)
    | Error e => Raise e w
    end.
Proof.
  intros Hl. unfold RandomClassifier.fit, RandomClassifier.set_probabilities_, zero_share.
  rewrite !get_new. unfold mbind, M_bind, result_bind, lift.
  destruct (float_of_int (count 0 y)) as [a|]; [|done].
  destruct (float_of_int (count 1 y)) as [c|]; [|done].
  destruct (float_truediv a (Float.add a c)) as [p|]; [|done].
  by rewrite (load_lookup _ _ _ Hl).
Qed.

Lemma rc_fit_inv self X y r (w w' : world) :
  RandomClassifier.fit self X y w = Return r w' →
  ∃ st p,
    heap w !! self = Some (Random st) ∧ zero_share y = Value p
    ∧ r = self ∧ w' = set_object self (Random (Some p)) w.
Proof.
  destruct (heap w !! self) as [[st|st|e]|] eqn:Hl.
  2:{ rewrite (rc_fit_spec _ _ _ _ _ Hl). destruct (zero_share y) as [p|]; [|done].
      intros [= <- <-]. by exists st, p. }
  all: unfold RandomClassifier.fit, RandomClassifier.set_probabilities_, mbind, M_bind, lift, load.
  all: repeat (match goal with |- context [match ?r with Value _ => _ | Error _ => _ end] =>
                 destruct r end); rewrite ?Hl; done.
Qed.

Lemma rc_predict_spec self X sd p (w : world) :
  heap w !! self = Some (Random (Some p)) →
  RandomClassifier.predict self X sd w =
    match np_random_seed (kwarg 1234 sd) with
    | inl name => Raise (LibraryError name) w
    | inr g =>
        match np_random_choice 2 (length X) [p; Float.sub (Float.of_Z 1) p] g with
        | inl name => Raise (LibraryError name) (World (heap w) g)
        | inr (ys, g') => Return ys (World (heap w) g')
        end
    end.
Proof.
  intros Hl. unfold RandomClassifier.predict, RandomClassifier.get_probabilities_.
  unfold mbind, M_bind. rewrite (load_lookup _ _ _ Hl). cbn iota beta.
  unfold random_seed. destruct (np_random_seed (kwarg 1234 sd)) as [name|g]; [done|].
  reflexivity.
Qed.

Lemma rc_predict_fresh self X sd (w : world) :
  heap w !! self = Some (Random None) →
  RandomClassifier.predict self X sd w = Raise (Exception not_initialized) w.
Proof.
  intros Hl. unfold RandomClassifier.predict, RandomClassifier.get_probabilities_.
  unfold mbind, M_bind. by rewrite (load_lookup _ _ _ Hl).
Qed.

Lemma zero_share_some y :
  0 < count 0 y + count 1 y → Z.of_nat (length y) < 2 ^ 53 →
  zero_share y
  = Value (Float.div (Float.of_Z (count 0 y))
                     (Float.add (Float.of_Z (count 0 y)) (Float.of_Z (count 1 y)))).
Proof.
  intros Hpos Hlen.
  pose proof (count_nonneg 0 y). pose proof (count_nonneg 1 y).
  pose proof (count_le_length 0 y). pose proof (count_le_length 1 y).
  pose proof (count_two_le y) as Hsum.
  unfold zero_share, float_of_int.
  assert (Hfin : ∀ c, 0 <= c < 2 ^ 53 → Float.is_finite (Float.of_Z c) = true).
  { intros c Hc. destruct (decide (c = 0)) as [->|]; [done|]. by rewrite of_Z_small by lia. }
  rewrite !Hfin by lia. cbn [mbind result_bind]. unfold float_truediv.
  rewrite add_of_Z by lia. rewrite (of_Z_small (count 0 y + count 1 y)) by lia.
  reflexivity.
Qed.

Lemma zero_share_none y :
  count 0 y = 0 → count 1 y = 0 → zero_share y = Error ZeroDivisionError.
Proof. intros Hc0 Hc1. unfold zero_share. rewrite Hc0, Hc1. reflexivity. Qed.

(** C4. For a non-empty label vector over 0 and 1 (of fewer than 2^53
    entries), [RandomClassifier.fit] stores in [probabilities_] the double
    quotient of the count of zeros by the sum of the counts of zeros and of
    ones; on [0, 0, 0, 1] it stores exactly 0.75. *)
Theorem random_fit_probability self (X : matrix) (y : labels) st (w : world) :
  heap w !! self = Some (Random st) →
  y ≠ [] →
  Forall (λ v, v = 0 ∨ v = 1) y →
  Z.of_nat (length y) < 2 ^ 53 →
  RandomClassifier.fit self X y w
  = Return self
      (set_object self
         (Random (Some (Float.div (Float.of_Z (count 0 y))
                                  (Float.add (Float.of_Z (count 0 y)) (Float.of_Z (count 1 y))))))
         w)
  ∧ RandomClassifier.fit self X [0; 0; 0; 1] w
    = Return self (set_object self (Random (Some Float.three_quarters)) w).
Proof.
  intros Hl Hy Hbin Hlen. split.
  - rewrite (rc_fit_spec _ _ _ _ _ Hl), zero_share_some; [done | | done].
    rewrite (count_binary y Hbin). destruct y; [done | simpl; lia].
  - by rewrite (rc_fit_spec _ _ _ _ _ Hl).
Qed.

(** C5. Two calls of [RandomClassifier.predict] with the same seed, on
    instances holding the same [probabilities_] and on matrices of the same
    number [n] of rows, give the same result whatever the generator's state
    and the feature values are; a returned sequence has [n] labels, each 0
    or 1 (as [np.random.choice(2, n)] gives them). *)
Theorem random_predict_deterministic self1 self2 (X1 X2 : matrix) p sd (w1 w2 : world) :
  (∀ n q g ys g',
     np_random_choice 2 n q g = inr (ys, g') →
     length ys = n ∧ Forall (λ v, v = 0 ∨ v = 1) ys) →
  heap w1 !! self1 = Some (Random (Some p)) →
  heap w2 !! self2 = Some (Random (Some p)) →
  length X1 = length X2 →
  observe (RandomClassifier.predict self1 X1 (Some sd) w1)
  = observe (RandomClassifier.predict self2 X2 (Some sd) w2)
  ∧ ∀ ys,
      observe (RandomClassifier.predict self1 X1 (Some sd) w1) = Value ys →
      length ys = length X1 ∧ Forall (λ v, v = 0 ∨ v = 1) ys.
Proof.
  intros Hchoice Hl1 Hl2 Hlen.
  rewrite (rc_predict_spec _ _ _ _ _ Hl1), (rc_predict_spec _ _ _ _ _ Hl2).
  rewrite Hlen.
  destruct (np_random_seed (kwarg 1234 (Some sd))) as [name|g]; [done|].
  destruct (np_random_choice 2 (length X2) _ g) as [name|[ys g']] eqn:E; [done|].
  split; [done|]. intros ys' [= <-]. by eapply Hchoice.
Qed.

Lemma mv_fit_raise self X y e (w w' : world) :
  MajorityVoteClassifier.fit self X y w = Raise e w' → w' = w.
Proof.
  destruct (heap w !! self) as [[st|st|est]|] eqn:Hl.
  - rewrite (mv_fit_spec _ _ _ _ _ Hl).
    destruct (Counter.most_common_1 (Counter.new y)); [by intros [= _ <-] | done].
  - unfold MajorityVoteClassifier.fit, MajorityVoteClassifier.set_prediction_, mbind, M_bind, lift, load.
    destruct (getitem _ 0); [rewrite Hl|]; by intros [= _ <-].
  - unfold MajorityVoteClassifier.fit, MajorityVoteClassifier.set_prediction_, mbind, M_bind, lift, load.
    destruct (getitem _ 0); [rewrite Hl|]; by intros [= _ <-].
  - unfold MajorityVoteClassifier.fit, MajorityVoteClassifier.set_prediction_, mbind, M_bind, lift, load.
    destruct (getitem _ 0); [rewrite Hl|]; by intros [= _ <-].
Qed.

Lemma rc_fit_raise self X y e (w w' : world) :
  RandomClassifier.fit self X y w = Raise e w' → w' = w.
Proof.
  destruct (heap w !! self) as [[st|st|est]|] eqn:Hl.
  2:{ rewrite (rc_fit_spec _ _ _ _ _ Hl). destruct (zero_share y); [done | by intros [= _ <-]]. }
  all: unfold RandomClassifier.fit, RandomClassifier.set_probabilities_, mbind, M_bind, lift, load.
  all: repeat (match goal with |- context [match ?r with Value _ => _ | Error _ => _ end] =>
                 destruct r end); rewrite ?Hl; by intros [= _ <-].
Qed.

(** C6, as the code has it. [predict] on a newly constructed instance of
    either classifier raises the exception "Classifier not initialized.
    Perform a fit first.".  Once a call of [fit] has returned, on whatever
    data and in whatever state, [predict] does not raise it: the
    majority-vote classifier returns its predictions, the random classifier
    raises at most what numpy raises.  A call of [fit] that raises has
    stored nothing: the state is the one before the call, and [predict] on
    an instance that held nothing still raises the exception. *)
Theorem predict_before_and_after_fit (X' : matrix) sd :
  (∀ w0 : world, (clf ← MajorityVoteClassifier.init; MajorityVoteClassifier.predict clf X') w0
         = Raise (Exception not_initialized) (final (MajorityVoteClassifier.init w0)))
  ∧ (∀ w0 : world, (clf ← RandomClassifier.init; RandomClassifier.predict clf X' sd) w0
           = Raise (Exception not_initialized) (final (RandomClassifier.init w0)))
  ∧ (∀ mv X y r (w w1 : world),
       MajorityVoteClassifier.fit mv X y w = Return r w1 →
       ∃ ys, MajorityVoteClassifier.predict mv X' w1 = Return ys w1)
  ∧ (∀ rc X y r (w w2 : world),
       RandomClassifier.fit rc X y w = Return r w2 →
       ∀ msg, observe (RandomClassifier.predict rc X' sd w2) ≠ Error (Exception msg))
  ∧ (∀ mv X y e (w w1 : world),
       MajorityVoteClassifier.fit mv X y w = Raise e w1 →
       w1 = w
       ∧ (heap w !! mv = Some (MajorityVote None) →
          MajorityVoteClassifier.predict mv X' w1 = Raise (Exception not_initialized) w1))
  ∧ (∀ rc X y e (w w2 : world),
       RandomClassifier.fit rc X y w = Raise e w2 →
       w2 = w
       ∧ (heap w !! rc = Some (Random None) →
          RandomClassifier.predict rc X' sd w2 = Raise (Exception not_initialized) w2)).
Proof.
  split_and!.
  - intros w0. unfold mbind, M_bind, MajorityVoteClassifier.init, new. cbn [final].
    by rewrite (mv_predict_spec _ _ None) by apply lookup_insert_eq.
  - intros w0. unfold mbind, M_bind, RandomClassifier.init, new. cbn [final].
    by rewrite rc_predict_fresh by apply lookup_insert_eq.
  - intros mv X y r w w1 Hmv.
    apply mv_fit_inv in Hmv as (st & item & rest & _ & _ & -> & ->).
    eexists. by rewrite (mv_predict_spec _ _ (Some item.1)) by apply lookup_set_object.
  - intros rc X y r w w2 Hrc.
    apply rc_fit_inv in Hrc as (st & p & _ & _ & -> & ->). intros msg.
    rewrite (rc_predict_spec _ _ _ p) by apply lookup_set_object.
    destruct (np_random_seed _) as [name|g]; [done|].
    by destruct (np_random_choice 2 _ _ _) as [name|[ys g']].
  - intros mv X y e w w1 ->%mv_fit_raise. split; [done|].
    intros Hl. by rewrite (mv_predict_spec _ _ None).
  - intros rc X y e w w2 ->%rc_fit_raise. split; [done|].
    intros Hl. by rewrite rc_predict_fresh.
Qed.

(** C7, as the code has it. [RandomClassifier.fit] checks nothing about the
    label set: it looks at the counts of 0 and of 1 only.  When [y] holds
    neither, the division raises ZeroDivisionError, which nothing catches,
    and the instance is left as it was; when [y] holds a 0 or a 1 (and has
    fewer than 2^53 entries) the quotient of the two counts is stored, other
    labels being ignored. *)
Theorem random_fit_label_set self (X : matrix) (y : labels) st (w : world) :
  heap w !! self = Some (Random st) →
  Z.of_nat (length y) < 2 ^ 53 →
  (count 0 y = 0 → count 1 y = 0 →
   RandomClassifier.fit self X y w = Raise ZeroDivisionError w)
  ∧ (0 < count 0 y + count 1 y →
     RandomClassifier.fit self X y w
     = Return self
         (set_object self
            (Random (Some (Float.div (Float.of_Z (count 0 y))
                                     (Float.add (Float.of_Z (count 0 y))
                                                (Float.of_Z (count 1 y))))))
            w)).
Proof.
  intros Hl Hlen. rewrite (rc_fit_spec _ _ _ _ _ Hl). split.
  - intros Hc0 Hc1. by rewrite zero_share_none.
  - intros Hpos. by rewrite zero_share_some.
Qed.

Lemma predict_heap_mv self X (w : world) :
  heap (final (MajorityVoteClassifier.predict self X w)) = heap w.
Proof.
  unfold MajorityVoteClassifier.predict, MajorityVoteClassifier.get_prediction_.
  unfold mbind, M_bind, load. destruct (heap w !! self) as [[[v|]|?|?]|]; done.
Qed.

Lemma predict_heap_rc self X sd (w : world) :
  heap (final (RandomClassifier.predict self X sd w)) = heap w.
Proof.
  destruct (heap w !! self) as [[?|[p|]|?]|] eqn:Hl.
  2:{ rewrite (rc_predict_spec _ _ _ _ _ Hl).
      destruct (np_random_seed _) as [name|g]; [done|].
      by destruct (np_random_choice 2 _ _ g) as [name|[ys g']]. }
  all: unfold RandomClassifier.predict, RandomClassifier.get_probabilities_.
  all: unfold mbind, M_bind, load; by rewrite Hl.
Qed.

(** C9. For both classifiers a call of [fit] that returns gives back the
    instance it was called on; a second [fit] on the same data does what the
    first did and leaves its state (also when both raise, nothing being
    stored); whatever was stored before is replaced by what the data
    determine; [predict] leaves every object of the heap as it was. *)
Theorem fit_returns_self_and_overwrites :
  (∀ mv X y r (w w1 : world),
     MajorityVoteClassifier.fit mv X y w = Return r w1 →
     r = mv
     ∧ MajorityVoteClassifier.fit mv X y w1 = Return mv w1
     ∧ ∀ st, MajorityVoteClassifier.fit mv X y (set_object mv (MajorityVote st) w)
             = Return mv w1)
  ∧ (∀ rc X y r (w w2 : world),
       RandomClassifier.fit rc X y w = Return r w2 →
       r = rc
       ∧ RandomClassifier.fit rc X y w2 = Return rc w2
       ∧ ∀ st, RandomClassifier.fit rc X y (set_object rc (Random st) w) = Return rc w2)
  ∧ (∀ mv X y (w : world),
       MajorityVoteClassifier.fit mv X y (final (MajorityVoteClassifier.fit mv X y w))
       = MajorityVoteClassifier.fit mv X y w)
  ∧ (∀ rc X y (w : world),
       RandomClassifier.fit rc X y (final (RandomClassifier.fit rc X y w))
       = RandomClassifier.fit rc X y w)
  ∧ (∀ mv X' (w0 : world), heap (final (MajorityVoteClassifier.predict mv X' w0)) = heap w0)
  ∧ (∀ rc X' sd (w0 : world), heap (final (RandomClassifier.predict rc X' sd w0)) = heap w0).
Proof.
  assert (Hmv : ∀ mv X y r (w w1 : world),
            MajorityVoteClassifier.fit mv X y w = Return r w1 →
            r = mv
            ∧ MajorityVoteClassifier.fit mv X y w1 = Return mv w1
            ∧ ∀ st, MajorityVoteClassifier.fit mv X y (set_object mv (MajorityVote st) w)
                    = Return mv w1).
  { intros mv X y r w w1 Hfit.
    apply mv_fit_inv in Hfit as (st1 & item & rest & Hl1 & Hitem & -> & ->).
    split_and!; [done | |].
    - rewrite (mv_fit_spec _ _ _ (Some item.1)) by apply lookup_set_object.
      by rewrite Hitem, set_object_twice.
    - intros st. rewrite (mv_fit_spec _ _ _ st) by apply lookup_set_object.
      by rewrite Hitem, set_object_twice. }
  assert (Hrc : ∀ rc X y r (w w2 : world),
            RandomClassifier.fit rc X y w = Return r w2 →
            r = rc
            ∧ RandomClassifier.fit rc X y w2 = Return rc w2
            ∧ ∀ st, RandomClassifier.fit rc X y (set_object rc (Random st) w) = Return rc w2).
  { intros rc X y r w w2 Hfit.
    apply rc_fit_inv in Hfit as (st2 & p & Hl2 & Hp & -> & ->).
    split_and!; [done | |].
    - rewrite (rc_fit_spec _ _ _ (Some p)) by apply lookup_set_object.
      by rewrite Hp, set_object_twice.
    - intros st. rewrite (rc_fit_spec _ _ _ st) by apply lookup_set_object.
      by rewrite Hp, set_object_twice. }
  split_and!; [exact Hmv | exact Hrc | | | |].
  - intros mv X y w. destruct (MajorityVoteClassifier.fit mv X y w) as [r w1|e w1] eqn:Hfit.
    + destruct (Hmv _ _ _ _ _ _ Hfit) as (-> & Hagain & _). exact Hagain.
    + pose proof (mv_fit_raise _ _ _ _ _ _ Hfit) as ->. exact Hfit.
  - intros rc X y w. destruct (RandomClassifier.fit rc X y w) as [r w2|e w2] eqn:Hfit.
    + destruct (Hrc _ _ _ _ _ _ Hfit) as (-> & Hagain & _). exact Hagain.
    + pose proof (rc_fit_raise _ _ _ _ _ _ Hfit) as ->. exact Hfit.
  - intros. apply predict_heap_mv.
  - intros. apply predict_heap_rc.
Qed.

End ClassifierFacts.

(** ** The loops of the evaluators *)

Section EvaluationFacts.
Context `{Sklearn}.

Lemma bind_value_result {A B} (a : A) (f : A → result B) : Value a ≫= f = f a.
Proof. reflexivity. Qed.

Lemma error_trial_score clf X y ts i sums (w : world) :
  error_trial clf X y ts i sums w
  = (parts ← lift (from_library (train_test_split X y ts i)); score clf parts sums) w.
Proof.
  unfold error_trial, score, mbind, M_bind, lift. destruct sums as [s1 s2].
  by destruct (train_test_split X y ts i) as [name|[[[Xtr Xte] ytr] yte]].
Qed.

Lemma error_partial_trial_score clf X y ts pa i sums (w : world) :
  error_partial_trial clf X y ts pa i sums w
  = (parts ← lift (truncated_split pa X y ts i); score clf parts sums) w.
Proof.
  unfold error_partial_trial, truncated_split, score. destruct sums as [s1 s2].
  destruct (train_test_split X y ts i) as [name|[[[Xtr Xte] ytr] yte]]; [done|].
  unfold mbind, M_bind, result_bind, lift, from_library. cbv beta iota.
  destruct (truncate Xtr pa) as [Xtr'|]; [|done].
  by destruct (truncate ytr pa) as [ytr'|].
Qed.

Lemma py_sub_1 a : py_sub (Int 1) (Float a) = Value (Float (Float.sub (Float.of_Z 1) a)).
Proof. reflexivity. Qed.

Lemma py_add_summable s c : summable s → py_add s (Float c) = Value (plus s c).
Proof. by intros [-> | [f ->]]. Qed.

Lemma plus_summable s c : summable (plus s c).
Proof. right. by eexists. Qed.

Lemma accumulate s a :
  summable s →
  result_bind _ _ (py_add s) (py_sub (Int 1) (Float a))
  = Value (plus s (Float.sub (Float.of_Z 1) a)).
Proof. intros Hs. rewrite py_sub_1. by apply py_add_summable. Qed.

Lemma error_trial_trial clf X y ts i s1 s2 (w : world) :
  summable s1 → summable s2 →
  error_trial clf X y ts i (s1, s2) w =
    match trial clf X y ts i w with
    | Return (c1, c2) w' => Return (plus s1 c1, plus s2 c2) w'
    | Raise e w' => Raise e w'
    end.
Proof.
  intros Hs1 Hs2. unfold error_trial, trial.
  destruct (train_test_split X y ts i) as [name|[[[Xtr Xte] ytr] yte]]; [done|].
  unfold mbind, M_bind, lift, from_library. cbv beta iota.
  destruct (call_fit clf Xtr ytr w) as [r w1|e w1]; [|done].
  destruct (call_predict clf Xtr w1) as [ptr w2|e w2]; [|done].
  destruct (call_predict clf Xte w2) as [pte w3|e w3]; [|done].
  destruct (accuracy_score ytr ptr) as [name|a]; [done|].
  rewrite (accumulate s1 a Hs1).
  destruct (accuracy_score yte pte) as [name|b]; [done|].
  by rewrite (accumulate s2 b Hs2).
Qed.

Lemma for_in_trials clf X y ts (l : list Z) : ∀ s1 s2 (w : world),
  summable s1 → summable s2 →
  for_in l (error_trial clf X y ts) (s1, s2) w =
    match mapM (trial clf X y ts) l w with
    | Return cs w' => Return (fold_left plus cs.*1 s1, fold_left plus cs.*2 s2) w'
    | Raise e w' => Raise e w'
    end.
Proof.
  induction l as [|i l IH]; intros s1 s2 w Hs1 Hs2; [done|].
  cbn [for_in mapM]. unfold mbind, M_bind.
  rewrite error_trial_trial by done.
  destruct (trial clf X y ts i w) as [[c1 c2] w1|e w1]; [|done].
  rewrite IH by apply plus_summable.
  by destruct (mapM (trial clf X y ts) l w1) as [cs w2|e w2].
Qed.

Lemma error_error_spec clf X y ntrials ts (w : world) :
  error clf X y (Some ntrials) (Some ts) w = error_spec clf X y ntrials ts w.
Proof.
  unfold error, error_spec.
  change (kwarg 100 (Some ntrials)) with ntrials.
  change (kwarg (Float Float.lit_0_2) (Some ts)) with ts.
  unfold mbind, M_bind. rewrite for_in_trials by (by left).
  by destruct (mapM (trial clf X y ts) (range 0 ntrials) w) as [cs w'|e w'].
Qed.

Lemma mapM_M_length {A B} (f : A → M B) (l : list A) : ∀ cs (w w' : world),
  mapM f l w = Return cs w' → length cs = length l.
Proof.
  induction l as [|x l IH]; intros cs w w'.
  - by intros [= <- _].
  - cbn [mapM]. unfold mbind, M_bind.
    destruct (f x w) as [b w1|e w1]; [|done].
    destruct (mapM f l w1) as [bs w2|e w2] eqn:E; [|done].
    intros [= <- _]. cbn [length]. f_equal. by eapply IH.
Qed.

Lemma length_range n : length (range 0 n) = Z.to_nat n.
Proof. unfold range. by rewrite length_fmap, length_seq, Z.sub_0_r. Qed.

Lemma range_cons n : 0 < n → ∃ l, range 0 n = 0 :: l.
Proof.
  intros Hn. unfold range. rewrite Z.sub_0_r.
  destruct (Z.to_nat n) as [|k] eqn:E; [lia|]. by eexists.
Qed.

Lemma fold_plus_float cs : ∀ f, fold_left plus cs (Float f) = Float (fold_left Float.add cs f).
Proof. induction cs as [|c cs IH]; intros f; [done|]. cbn [fold_left]. apply IH. Qed.

Lemma total_float cs : cs ≠ [] → total cs = Float (fold_left Float.add cs (Float.of_Z 0)).
Proof.
  destruct cs as [|c cs]; [done|]. intros _.
  apply (fold_plus_float cs (Float.add (Float.of_Z 0) c)).
Qed.

Lemma py_truediv_float_int f n :
  0 < n < 2 ^ 53 →
  py_truediv (Float f) (Int n) = Value (Float (Float.div f (Float.of_Z n))).
Proof.
  intros Hn. unfold py_truediv, to_float. rewrite float_of_int_small by done.
  cbn [mbind result_bind]. unfold float_truediv. cbn [Float.is_zero Float.canon].
  cbn [mbind result_bind]. by rewrite of_Z_small.
Qed.

(** C1, as the code has it. For 1 <= ntrials < 2^53, [error] runs the
    trials 0, 1, ..., ntrials - 1 in this order, trial [i] splitting with
    [random_state = i] and the given [test_size], fitting on the training
    partition and contributing 1 - accuracy on the training and on the test
    partition; it returns the two sums of the contributions divided by
    [ntrials], the sums and quotients being those of doubles; an exception
    of a trial ends it.  With [ntrials = 0] no trial is run and the
    quotient 0 / 0 raises ZeroDivisionError: no pair is returned.  The
    defaults are 100 trials and the fraction 0.2. *)
Theorem error_repeated_holdout clf (X : matrix) (y : labels) ts (w : world) :
  (∀ ntrials, error clf X y (Some ntrials) (Some ts) w = error_spec clf X y ntrials ts w)
  ∧ (∀ ntrials,
       0 < ntrials < 2 ^ 53 →
       match mapM (trial clf X y ts) (range 0 ntrials) w with
       | Return cs w' =>
           length cs = Z.to_nat ntrials
           ∧ error clf X y (Some ntrials) (Some ts) w
             = Return
                 (Float (Float.div (fold_left Float.add cs.*1 (Float.of_Z 0))
                                   (Float.of_Z ntrials)),
                  Float (Float.div (fold_left Float.add cs.*2 (Float.of_Z 0))
                                   (Float.of_Z ntrials)))
                 w'
       | Raise e w' => error clf X y (Some ntrials) (Some ts) w = Raise e w'
       end)
  ∧ error clf X y None None w = error clf X y (Some 100) (Some (Float Float.lit_0_2)) w
  ∧ error clf X y (Some 0) (Some ts) w = Raise ZeroDivisionError w.
Proof.
  split_and!; [intros; apply error_error_spec | | done | done].
  intros ntrials Hn.
  rewrite error_error_spec. unfold error_spec, mbind, M_bind.
  destruct (mapM (trial clf X y ts) (range 0 ntrials) w) as [cs w'|e w'] eqn:E; [|done].
  pose proof (mapM_M_length _ _ _ _ _ E) as Hlen. rewrite length_range in Hlen.
  split; [done|].
  assert (Hcs : cs ≠ []) by (intros ->; simpl in Hlen; lia).
  rewrite !total_float by (by destruct cs).
  rewrite !py_truediv_float_int by done. reflexivity.
Qed.

Lemma truncate_one {A} (a : list A) :
  Z.of_nat (length a) < 2 ^ 53 → truncate a (Float Float.one) = Value a.
Proof.
  intros Hlen. unfold truncate, py_mul, to_float.
  destruct (decide (length a = 0%nat)) as [Hz|Hnz].
  - apply length_zero_iff_nil in Hz as ->. reflexivity.
  - rewrite float_of_int_small by lia. cbn [mbind result_bind].
    rewrite mul_canon_one by lia. unfold py_int.
    change (Float.canon ?n) with (S754_finite false (Z.to_pos (n * 2 ^ (52 - Z.log2 n))) (Z.log2 n - 52)) at 1.
    cbv iota. rewrite trunc_canon by lia. cbn [from_option].
    unfold slice_to. cbn [mbind result_bind].
    destruct (Z.ltb_spec (Z.of_nat (length a)) 0); [lia|].
    by rewrite Nat2Z.id, firstn_all.
Qed.

Lemma truncated_split_one X y ts i :
  match train_test_split X y ts i with
  | inr (X_train, _, y_train, _) =>
      Z.of_nat (length X_train) < 2 ^ 53 ∧ Z.of_nat (length y_train) < 2 ^ 53
  | inl _ => True
  end →
  truncated_split (Float Float.one) X y ts i = from_library (train_test_split X y ts i).
Proof.
  unfold truncated_split.
  destruct (train_test_split X y ts i) as [name|[[[Xtr Xte] ytr] yte]]; [done|].
  intros [HX Hy]. cbn [from_library mbind result_bind].
  by rewrite !truncate_one.
Qed.

Lemma for_in_ext {A S} (f g : A → S → M S) (l : list A) : ∀ s (w : world),
  Forall (λ x, ∀ s w, f x s w = g x s w) l → for_in l f s w = for_in l g s w.
Proof.
  induction l as [|x l IH]; intros s w Hl; [done|].
  apply Forall_cons in Hl as [Hx Hl]. cbn [for_in]. unfold mbind, M_bind.
  rewrite Hx. destruct (g x s w) as [s' w'|e w']; [|done]. by apply IH.
Qed.

Lemma error_partial_full clf X y ntrials ts (w : world) :
  small_partitions X y ts ntrials →
  error_partial clf X y (Some ntrials) (Some ts) (Some (Int 10)) w
  = error clf X y (Some ntrials) (Some ts) w.
Proof.
  intros Hsmall. unfold error_partial, error.
  change (kwarg 100 (Some ntrials)) with ntrials.
  change (kwarg (Float Float.lit_0_2) (Some ts)) with ts.
  change (py_truediv (kwarg (Int 10) (Some (Int 10))) (Float Float.lit_10_0))
    with (Value (Float Float.one)).
  unfold mbind at 1. unfold M_bind at 1. cbn [lift].
  unfold mbind at 1 4. unfold M_bind at 1 4.
  rewrite (for_in_ext _ (error_trial clf X y ts)); [done|].
  eapply Forall_impl; [exact Hsmall|]. intros i Hi s w0. cbv beta in Hi.
  rewrite error_partial_trial_score, error_trial_score.
  by rewrite truncated_split_one.
Qed.

Lemma index_nonneg n pa :
  0 <= n < 2 ^ 53 → 0 <= pa < 2 ^ 53 →
  ∃ k, Float.trunc (Float.mul (Float.of_Z n) (Float.div (Float.of_Z pa) Float.lit_10_0)) = Some k
       ∧ 0 <= k.
Proof. apply index_defined. Qed.

Lemma py_truediv_tenth pa :
  0 <= pa < 2 ^ 53 →
  py_truediv (Int pa) (Float Float.lit_10_0)
  = Value (Float (Float.div (Float.of_Z pa) Float.lit_10_0)).
Proof.
  intros Hpa. unfold py_truediv, to_float. by rewrite float_of_int_of_Z by done.
Qed.

Lemma truncate_first_rows {A} (a : list A) pa :
  Z.of_nat (length a) < 2 ^ 53 → 0 <= pa < 2 ^ 53 →
  truncate a (Float (Float.div (Float.of_Z pa) Float.lit_10_0)) = Value (first_rows a pa).
Proof.
  intros Hlen Hpa.
  destruct (index_nonneg (Z.of_nat (length a)) pa ltac:(lia) Hpa) as (k & Hk & Hk0).
  unfold first_rows, double_index. rewrite Hk. change (default 0 (Some k)) with k.
  unfold truncate, py_mul, to_float. rewrite float_of_int_of_Z by lia.
  rewrite !bind_value_result. unfold py_int.
  assert (Hnan : Float.mul (Float.of_Z (Z.of_nat (length a)))
                   (Float.div (Float.of_Z pa) Float.lit_10_0) ≠ S754_nan).
  { intros E. by rewrite E in Hk. }
  rewrite Hk. destruct (Float.mul _ _); try done; cbn [from_option];
    rewrite bind_value_result; unfold slice_to; by destruct (Z.ltb_spec k 0); [lia|].
Qed.

Lemma bind_ext_at {A B} (m1 m2 : M A) (k : A → M B) (w : world) :
  m1 w = m2 w → (m1 ≫= k) w = (m2 ≫= k) w.
Proof. intros E. unfold mbind, M_bind. by rewrite E. Qed.

Lemma error_partial_first_rows clf X y ntrials ts pa (w : world) :
  small_partitions X y ts ntrials → 0 <= pa < 2 ^ 53 →
  error_partial clf X y (Some ntrials) (Some ts) (Some (Int pa)) w
  = error_on_first_rows clf X y ntrials ts pa w.
Proof.
  intros Hsmall Hpa. unfold error_partial, error_on_first_rows.
  change (kwarg 100 (Some ntrials)) with ntrials.
  change (kwarg (Float Float.lit_0_2) (Some ts)) with ts.
  change (kwarg (Int 10) (Some (Int pa))) with (Int pa).
  rewrite py_truediv_tenth by done.
  unfold mbind at 1. unfold M_bind at 1. cbn [lift].
  apply bind_ext_at, for_in_ext.
  eapply Forall_impl; [exact Hsmall|]. intros i Hi s w0. cbv beta in Hi.
  rewrite error_partial_trial_score. unfold truncated_split.
  destruct (train_test_split X y ts i) as [name|[[[Xtr Xte] ytr] yte]]; [done|].
  destruct Hi as [HX Hy]. cbn [from_library].
  rewrite !bind_value_result, !truncate_first_rows by done.
  by rewrite !bind_value_result.
Qed.

(** X16. For an integer [partial_amt] from 0 to below 2^53 and training
    partitions of fewer than 2^53 rows, [error_partial] is the repeated
    holdout in which every trial fits on the first
    [int(len * (partial_amt / 10.0))] rows of its training partition, the
    quotient and the product being those of doubles; this index exists, is
    not negative, and is one below floor(len * partial_amt / 10) for 90
    rows and [partial_amt = 7].  With [partial_amt = 10], its default,
    [error_partial] returns what [error] returns. *)
Theorem error_partial_truncates clf (X : matrix) (y : labels) ntrials ts (w : world) :
  (∀ pa (n : nat),
     0 <= pa < 2 ^ 53 → Z.of_nat n < 2 ^ 53 →
     ∃ k, double_index n pa = Some k ∧ 0 <= k)
  ∧ (∀ pa,
       0 <= pa < 2 ^ 53 → small_partitions X y ts ntrials →
       error_partial clf X y (Some ntrials) (Some ts) (Some (Int pa)) w
       = error_on_first_rows clf X y ntrials ts pa w)
  ∧ double_index 90 7 = Some (90 * 7 / 10 - 1)
  ∧ (small_partitions X y ts ntrials →
     error_partial clf X y (Some ntrials) (Some ts) (Some (Int 10)) w
     = error clf X y (Some ntrials) (Some ts) w
     ∧ error_partial clf X y (Some ntrials) (Some ts) None w
       = error clf X y (Some ntrials) (Some ts) w).
Proof.
  split_and!.
  - intros pa n Hpa Hn. apply index_nonneg; [lia | done].
  - intros pa Hpa Hsmall. by apply error_partial_first_rows.
  - by vm_compute.
  - intros Hsmall. split; by apply error_partial_full.
Qed.

Lemma call_fit_mv clf X y st (w : world) :
  heap w !! clf = Some (MajorityVote st) →
  call_fit clf X y w = MajorityVoteClassifier.fit clf X y w.
Proof. intros Hl. unfold call_fit, mbind, M_bind. by rewrite (load_lookup _ _ _ Hl). Qed.

Lemma call_fit_rc clf X y st (w : world) :
  heap w !! clf = Some (Random st) →
  call_fit clf X y w = RandomClassifier.fit clf X y w.
Proof. intros Hl. unfold call_fit, mbind, M_bind. by rewrite (load_lookup _ _ _ Hl). Qed.

Lemma call_predict_mv clf X st (w : world) :
  heap w !! clf = Some (MajorityVote st) →
  call_predict clf X w = MajorityVoteClassifier.predict clf X w.
Proof. intros Hl. unfold call_predict, mbind, M_bind. by rewrite (load_lookup _ _ _ Hl). Qed.

Lemma call_predict_rc clf X st (w : world) :
  heap w !! clf = Some (Random st) →
  call_predict clf X w = RandomClassifier.predict clf X None w.
Proof. intros Hl. unfold call_predict, mbind, M_bind. by rewrite (load_lookup _ _ _ Hl). Qed.

Lemma score_fit_raises clf Xtr Xte ytr yte sums e (w w' : world) :
  call_fit clf Xtr ytr w = Raise e w' →
  score clf (Xtr, Xte, ytr, yte) sums w = Raise e w'.
Proof. intros Hf. unfold score. destruct sums. unfold mbind, M_bind. by rewrite Hf. Qed.


Lemma error_partial_first_trial_raises clf X y ntrials ts pa f e (w w' : world) :
  0 < ntrials →
  py_truediv pa (Float Float.lit_10_0) = Value f →
  error_partial_trial clf X y ts f 0 (Int 0, Int 0) w = Raise e w' →
  error_partial clf X y (Some ntrials) (Some ts) (Some pa) w = Raise e w'.
Proof.
  intros Hn Hf Ht. unfold error_partial.
  change (kwarg 100 (Some ntrials)) with ntrials.
  change (kwarg (Float Float.lit_0_2) (Some ts)) with ts.
  change (kwarg (Int 10) (Some pa)) with pa. rewrite Hf.
  destruct (range_cons ntrials Hn) as [l ->].
  cbn [for_in]. unfold mbind, M_bind. cbn [lift]. by rewrite Ht.
Qed.

Lemma mv_fit_empty clf X st (w : world) :
  heap w !! clf = Some (MajorityVote st) → call_fit clf X [] w = Raise IndexError w.
Proof. intros Hl. by rewrite (call_fit_mv _ _ _ _ _ Hl), (mv_fit_spec _ _ _ _ _ Hl). Qed.

Lemma rc_fit_empty clf X st (w : world) :
  heap w !! clf = Some (Random st) → call_fit clf X [] w = Raise ZeroDivisionError w.
Proof. intros Hl. by rewrite (call_fit_rc _ _ _ _ _ Hl), (rc_fit_spec _ _ _ _ _ Hl). Qed.

Lemma truncated_trial_raises clf X y ts f Xtr Xte ytr yte Xtr' e (w : world) :
  train_test_split X y ts 0 = inr (Xtr, Xte, ytr, yte) →
  truncate Xtr f = Value Xtr' → truncate ytr f = Value [] →
  call_fit clf Xtr' [] w = Raise e w →
  error_partial_trial clf X y ts f 0 (Int 0, Int 0) w = Raise e w.
Proof.
  intros Hs HX Hy Hf. rewrite error_partial_trial_score. unfold truncated_split.
  rewrite Hs. cbn [from_library mbind result_bind]. rewrite HX, Hy.
  cbn [mbind result_bind]. unfold mbind, M_bind. cbn [lift].
  by apply score_fit_raises.
Qed.

Lemma rc_call_predict clf X p (w : world) :
  heap w !! clf = Some (Random (Some p)) →
  ∃ w', heap w' = heap w
    ∧ call_predict clf X w =
        match random_labels p (length X) with
        | inl name => Raise (LibraryError name) w'
        | inr ys => Return ys w'
        end.
Proof.
  intros Hl. rewrite (call_predict_rc _ _ _ _ Hl), (rc_predict_spec _ _ _ _ _ Hl).
  unfold random_labels. change (kwarg 1234 None) with 1234.
  destruct (np_random_seed 1234) as [name|g]; [by exists w|].
  destruct (np_random_choice 2 (length X) _ g) as [name|[ys g']]; by eexists (World _ _).
Qed.

Lemma score_random clf parts sums st (w : world) :
  heap w !! clf = Some (Random st) →
  observe (score clf parts sums w) = random_score parts sums.
Proof.
  intros Hl. destruct parts as [[[Xtr Xte] ytr] yte], sums as [s1 s2].
  unfold score, random_score, mbind, M_bind, result_bind.
  rewrite (call_fit_rc _ _ _ _ _ Hl), (rc_fit_spec _ _ _ _ _ Hl).
  destruct (zero_share ytr) as [p|e]; [|done].
  destruct (rc_call_predict clf Xtr p (set_object clf (Random (Some p)) w))
    as (w1 & Hw1 & ->); [apply lookup_set_object|].
  destruct (random_labels p (length Xtr)) as [name|ptr]; [done|].
  destruct (rc_call_predict clf Xte p w1) as (w2 & Hw2 & ->);
    [rewrite Hw1; apply lookup_set_object|].
  destruct (random_labels p (length Xte)) as [name|pte]; [done|].
  cbn [from_library]. unfold lift.
  destruct (accuracy_score ytr ptr) as [name|a]; [done|]. cbn [from_library].
  destruct (match py_sub (Int 1) (Float a) with Value x => py_add s1 x | Error e => Error e end)
    as [s1'|e]; [|done].
  destruct (accuracy_score yte pte) as [name|b]; [done|]. cbn [from_library].
  by destruct (match py_sub (Int 1) (Float b) with Value x => py_add s2 x | Error e => Error e end)
    as [s2'|e].
Qed.

(** C10. [predict] of a random classifier called without a seed, as the
    evaluators call it, seeds numpy's generator with 1234: for a given
    [probabilities_] and number of rows it gives the same result whatever
    the state of the generator is, and what a trial of [error] yields for a
    random classifier is a function of the trial's partitions alone, the
    trial index entering through the split only. *)
Theorem random_predictions_use_seed_1234 clf (X X1 X2 : matrix) (y : labels) ts i j sums
    st1 st2 (w1 w2 : world) :
  heap w1 !! clf = Some (Random st1) →
  heap w2 !! clf = Some (Random st2) →
  train_test_split X y ts i = train_test_split X y ts j →
  length X1 = length X2 →
  (∀ self X0 w0,
     RandomClassifier.predict self X0 None w0 = RandomClassifier.predict self X0 (Some 1234) w0)
  ∧ call_predict clf X1 w1 = RandomClassifier.predict clf X1 (Some 1234) w1
  ∧ (st1 = st2 → observe (call_predict clf X1 w1) = observe (call_predict clf X2 w2))
  ∧ observe (error_trial clf X y ts i sums w1)
    = (parts ← from_library (train_test_split X y ts i); random_score parts sums)
  ∧ observe (error_trial clf X y ts i sums w1) = observe (error_trial clf X y ts j sums w2).
Proof.
  intros Hl1 Hl2 Hsplit Hlen.
  assert (Htrial : ∀ k st (w : world), heap w !! clf = Some (Random st) →
            observe (error_trial clf X y ts k sums w)
            = (parts ← from_library (train_test_split X y ts k); random_score parts sums)).
  { intros k st w Hl. rewrite error_trial_score. unfold mbind at 1. unfold M_bind.
    destruct (train_test_split X y ts k) as [name|parts]; [done|].
    cbn [lift from_library mbind result_bind]. by eapply score_random. }
  split_and!.
  - done.
  - by rewrite (call_predict_rc _ _ _ _ Hl1).
  - intros <-. rewrite (call_predict_rc _ _ _ _ Hl1), (call_predict_rc _ _ _ _ Hl2).
    destruct st1 as [p|].
    + rewrite (rc_predict_spec _ _ _ _ _ Hl1), (rc_predict_spec _ _ _ _ _ Hl2), Hlen.
      destruct (np_random_seed _) as [name|g]; [done|].
      by destruct (np_random_choice 2 (length X2) _ g) as [name|[ys g']].
    + by rewrite !rc_predict_fresh.
  - by eapply Htrial.
  - rewrite (Htrial i st1 w1 Hl1), (Htrial j st2 w2 Hl2). by rewrite Hsplit.
Qed.

End EvaluationFacts.

(** ** The script on examples *)

Section Examples.
Import Sample.

Lemma draws_labels size p0 : ∀ g,
  length (draws size p0 g).1 = size ∧ Forall (λ v, v = 0 ∨ v = 1) (draws size p0 g).1.
Proof.
  induction size as [|k IH]; intros g; [by split|].
  cbn [draws]. destruct (IH ((1103515245 * g + 12345) mod 2 ^ 31)) as [Hlen Hall].
  destruct (draws k p0 _) as [vs g'']. cbn [fst] in *. split; [by rewrite <- Hlen|].
  constructor; [|done]. destruct (SFltb _ _); auto.
Qed.

Lemma choice_labels n q g ys g' :
  np_random_choice 2 n q g = inr (ys, g') →
  length ys = n ∧ Forall (λ v, v = 0 ∨ v = 1) ys.
Proof.
  destruct q as [|p0 [|p1 [|]]]; try done. cbn. intros [= E].
  pose proof (draws_labels n p0 g) as Hd. by rewrite E in Hd.
Qed.

Lemma majority_vote_predicts_mode_witness :
  ∃ w',
    MajorityVoteClassifier.fit 1%positive X4 y4 w0 = Return 1%positive w'
    ∧ MajorityVoteClassifier.predict 1%positive X4 w' = Return (replicate (length X4) 1) w'.
Proof.
  apply (majority_vote_predicts_mode 1%positive X4 X4 y4 1 None w0).
  - reflexivity.
  - discriminate.
  - intros u Hu. unfold y4. rewrite !count_cons, !count_nil. repeat case_decide; lia.
Defined.

Lemma random_fit_probability_witness :
  RandomClassifier.fit 2%positive X4 [0; 0; 0; 1] w0
  = Return 2%positive
      (set_object 2%positive
         (Random (Some (Float.div (Float.of_Z (count 0 [0; 0; 0; 1]))
                                  (Float.add (Float.of_Z (count 0 [0; 0; 0; 1]))
                                             (Float.of_Z (count 1 [0; 0; 0; 1]))))))
         w0)
  ∧ RandomClassifier.fit 2%positive X4 [0; 0; 0; 1] w0
    = Return 2%positive (set_object 2%positive (Random (Some Float.three_quarters)) w0).
Proof.
  apply (random_fit_probability 2%positive X4 [0; 0; 0; 1] None w0).
  - reflexivity.
  - discriminate.
  - repeat first [apply List.Forall_nil | apply List.Forall_cons; [(by left) || (by right)|]].
  - reflexivity.
Defined.

Lemma random_predict_deterministic_witness :
  observe (RandomClassifier.predict 2%positive X4 (Some 42) w_fit)
  = observe (RandomClassifier.predict 2%positive X4' (Some 42) w_alone)
  ∧ ∀ ys,
      observe (RandomClassifier.predict 2%positive X4 (Some 42) w_fit) = Value ys →
      length ys = length X4 ∧ Forall (λ v, v = 0 ∨ v = 1) ys.
Proof.
  apply (random_predict_deterministic 2%positive 2%positive X4 X4' Float.three_quarters 42
           w_fit w_alone choice_labels); reflexivity.
Defined.

Lemma predict_before_and_after_fit_witness :
  (∃ ys, MajorityVoteClassifier.predict 1%positive X4'
           (final (MajorityVoteClassifier.fit 1%positive X4 y4 w0))
         = Return ys (final (MajorityVoteClassifier.fit 1%positive X4 y4 w0)))
  ∧ (∀ msg, observe (RandomClassifier.predict 2%positive X4' None
                       (final (RandomClassifier.fit 2%positive X4 y4 w0)))
            ≠ Error (Exception msg))
  ∧ MajorityVoteClassifier.predict 1%positive X4' w0 = Raise (Exception not_initialized) w0
  ∧ RandomClassifier.predict 2%positive X4' None w0 = Raise (Exception not_initialized) w0.
Proof.
  destruct (predict_before_and_after_fit X4' None) as (_ & _ & Hmv & Hrc & Hmv' & Hrc').
  split_and!.
  - apply (Hmv 1%positive X4 y4 1%positive w0). reflexivity.
  - apply (Hrc 2%positive X4 y4 2%positive w0). reflexivity.
  - apply (Hmv' 1%positive [] [] IndexError w0 w0); reflexivity.
  - apply (Hrc' 2%positive X4 [2; 2; 2; 2] ZeroDivisionError w0 w0); reflexivity.
Defined.

(** A call of [fit] that raises, on no row for the majority-vote classifier
    and on labels without 0 and 1 for the random one: [predict] raises
    "Classifier not initialized" after it as before it. *)
Lemma predict_uninitialised_after_failed_fit :
  MajorityVoteClassifier.fit 1%positive [] [] w0 = Raise IndexError w0
  ∧ MajorityVoteClassifier.predict 1%positive X4'
      (final (MajorityVoteClassifier.fit 1%positive [] [] w0))
    = Raise (Exception not_initialized) w0
  ∧ RandomClassifier.fit 2%positive X4 [2; 2; 2; 2] w0 = Raise ZeroDivisionError w0
  ∧ RandomClassifier.predict 2%positive X4' None
      (final (RandomClassifier.fit 2%positive X4 [2; 2; 2; 2] w0))
    = Raise (Exception not_initialized) w0.
Proof. repeat split; reflexivity. Qed.

Lemma random_fit_label_set_witness :
  (count 0 [0; 0; 2] = 0 → count 1 [0; 0; 2] = 0 →
   RandomClassifier.fit 2%positive X4 [0; 0; 2] w0 = Raise ZeroDivisionError w0)
  ∧ (0 < count 0 [0; 0; 2] + count 1 [0; 0; 2] →
     RandomClassifier.fit 2%positive X4 [0; 0; 2] w0
     = Return 2%positive
         (set_object 2%positive
            (Random (Some (Float.div (Float.of_Z (count 0 [0; 0; 2]))
                                     (Float.add (Float.of_Z (count 0 [0; 0; 2]))
                                                (Float.of_Z (count 1 [0; 0; 2]))))))
            w0)).
Proof.
  apply (random_fit_label_set 2%positive X4 [0; 0; 2] None w0); reflexivity.
Defined.

(** The labels 0, 0, 2 are not the set of 0 and 1, and [fit] stores 1.0. *)
Lemma random_fit_accepts_other_labels :
  RandomClassifier.fit 2%positive X4 [0; 0; 2] w0
  = Return 2%positive (set_object 2%positive (Random (Some Float.one)) w0).
Proof. reflexivity. Qed.

Lemma fit_returns_self_and_overwrites_witness :
  (1%positive = 1%positive
   ∧ MajorityVoteClassifier.fit 1%positive X4 y4
       (final (MajorityVoteClassifier.fit 1%positive X4 y4 w0))
     = Return 1%positive (final (MajorityVoteClassifier.fit 1%positive X4 y4 w0))
   ∧ ∀ st, MajorityVoteClassifier.fit 1%positive X4 y4 (set_object 1%positive (MajorityVote st) w0)
           = Return 1%positive (final (MajorityVoteClassifier.fit 1%positive X4 y4 w0)))
  ∧ (2%positive = 2%positive
     ∧ RandomClassifier.fit 2%positive X4 y4 (final (RandomClassifier.fit 2%positive X4 y4 w0))
       = Return 2%positive (final (RandomClassifier.fit 2%positive X4 y4 w0))
     ∧ ∀ st, RandomClassifier.fit 2%positive X4 y4 (set_object 2%positive (Random st) w0)
             = Return 2%positive (final (RandomClassifier.fit 2%positive X4 y4 w0))).
Proof.
  destruct fit_returns_self_and_overwrites as (Hmv & Hrc & _).
  split.
  - apply (Hmv 1%positive X4 y4 1%positive w0). reflexivity.
  - apply (Hrc 2%positive X4 y4 2%positive w0). reflexivity.
Defined.

Lemma error_repeated_holdout_witness :
  error 1%positive X4 y4 (Some 2) (Some (Int 1)) w0 = error_spec 1%positive X4 y4 2 (Int 1) w0
  ∧ match mapM (trial 1%positive X4 y4 (Int 1)) (range 0 2) w0 with
    | Return cs w' =>
        length cs = Z.to_nat 2
        ∧ error 1%positive X4 y4 (Some 2) (Some (Int 1)) w0
          = Return
              (Float (Float.div (fold_left Float.add cs.*1 (Float.of_Z 0)) (Float.of_Z 2)),
               Float (Float.div (fold_left Float.add cs.*2 (Float.of_Z 0)) (Float.of_Z 2)))
              w'
    | Raise e w' => error 1%positive X4 y4 (Some 2) (Some (Int 1)) w0 = Raise e w'
    end.
Proof.
  destruct (error_repeated_holdout 1%positive X4 y4 (Int 1) w0) as (Hspec & Hpair & _).
  split; [apply Hspec | apply Hpair; lia].
Defined.

(** With [ntrials = 0] the call of [error] returns no pair: the loop makes
    no call of a library, and the quotient of the int 0 by the int 0
    raises. *)
Lemma error_with_no_trial_raises :
  error 1%positive X4 y4 (Some 0) None w0 = Raise ZeroDivisionError w0
  ∧ ∀ r w', error 1%positive X4 y4 (Some 0) None w0 ≠ Return r w'.
Proof. split; [reflexivity | done]. Qed.

Lemma error_partial_truncates_witness :
  (∀ n : nat, Z.of_nat n < 2 ^ 53 → ∃ k, double_index n 7 = Some k ∧ 0 <= k)
  ∧ error_partial 1%positive X100 y100 (Some 2) (Some (Int 10)) (Some (Int 7)) w0
    = error_on_first_rows 1%positive X100 y100 2 (Int 10) 7 w0
  ∧ error_partial 1%positive X100 y100 (Some 2) (Some (Int 10)) (Some (Int 10)) w0
    = error 1%positive X100 y100 (Some 2) (Some (Int 10)) w0
  ∧ error_partial 1%positive X100 y100 (Some 2) (Some (Int 10)) None w0
    = error 1%positive X100 y100 (Some 2) (Some (Int 10)) w0.
Proof.
  assert (Hsmall : small_partitions X100 y100 (Int 10) 2).
  { unfold small_partitions. change (range 0 2) with [0; 1].
    repeat first [apply List.Forall_nil | apply List.Forall_cons; [vm_compute; by split|]]. }
  destruct (error_partial_truncates 1%positive X100 y100 2 (Int 10) w0)
    as (Hindex & Hrows & _ & Hfull).
  split_and!.
  - intros n Hn. apply Hindex; [lia | done].
  - apply Hrows; [lia | done].
  - by apply Hfull.
  - by apply Hfull.
Defined.

(** C2. With 90 training rows and [partial_amt = 7], that is 70%,
    [error_partial] fits on 62 rows, not on floor(90 * 7 / 10) = 63:
    7 / 10.0 is a double below 0.7 and the product with 90 is the double
    62.99999999999999, which [int] cuts to 62.  The errors of the single
    trial are 0.5 and 1.0 where the 63 rows give 31/63 and 0.0. *)
Lemma error_partial_one_row_short :
  (f ← py_truediv (Int 7) (Float Float.lit_10_0);
   l ← truncate (replicate 90 0) f;
   Value (length l)) = Value 62%nat
  ∧ length (truncate_spec (replicate 90 0) 7) = 63%nat
  ∧ observe (error_partial 1%positive X100 y100 (Some 1) (Some (Int 10)) (Some (Int 7)) w0)
    = Value (Float (S754_finite false 4503599627370496 (-53)),
             Float (S754_finite false 4503599627370496 (-52)))
  ∧ observe (error_partial_spec 1%positive X100 y100 1 (Int 10) 7 w0)
    = Value (Float (S754_finite false 8864227837999072 (-54)), Float (S754_zero false)).
Proof. by vm_compute. Qed.

Lemma random_predictions_use_seed_1234_witness :
  (∀ self X0 w,
     RandomClassifier.predict self X0 None w = RandomClassifier.predict self X0 (Some 1234) w)
  ∧ call_predict 2%positive X4 w_fit = RandomClassifier.predict 2%positive X4 (Some 1234) w_fit
  ∧ (Some Float.three_quarters = Some Float.three_quarters →
     observe (call_predict 2%positive X4 w_fit) = observe (call_predict 2%positive X4' w_alone))
  ∧ observe (error_trial 2%positive X4 y4 (Int 1) 0 (Int 0, Int 0) w_fit)
    = (parts ← from_library (train_test_split X4 y4 (Int 1) 0);
       random_score parts (Int 0, Int 0))
  ∧ observe (error_trial 2%positive X4 y4 (Int 1) 0 (Int 0, Int 0) w_fit)
    = observe (error_trial 2%positive X4 y4 (Int 1) 4 (Int 0, Int 0) w_alone).
Proof.
  apply (random_predictions_use_seed_1234 2%positive X4 X4 X4' y4 (Int 1) 0 4 (Int 0, Int 0)
           (Some Float.three_quarters) (Some Float.three_quarters) w_fit w_alone); reflexivity.
Defined.

End Examples.

(** * More of the classifiers *)

Section TieBreak.
Import Counter.

Lemma fold_keys_prefix y : ∀ c,
  ∃ extra, (fold_left (λ c k, incr k c) y c).*1 = c.*1 ++ extra.
Proof.
  induction y as [|u y IH]; intros c; cbn [fold_left].
  - exists []. by rewrite app_nil_r.
  - destruct (IH (incr u c)) as [extra ->]. rewrite incr_keys.
    case_decide; [by eexists|]. rewrite <- app_assoc. by eexists.
Qed.

(** The keys seen before the first occurrence of [v] come before [v]. *)
Lemma new_keys_first pre v rest :
  v ∉ pre → ∃ extra, (new (pre ++ v :: rest)).*1 = (new pre).*1 ++ v :: extra.
Proof.
  intros Hv. unfold new. rewrite fold_left_app. cbn [fold_left].
  destruct (fold_keys_prefix rest (incr v (fold_left (λ c k, incr k c) pre []))) as [extra ->].
  rewrite incr_keys. rewrite decide_False by (by rewrite (new_keys pre v)).
  rewrite <- app_assoc. by exists extra.
Qed.

Lemma NoDup_split_inj {A} (a a' b b' : list A) v :
  NoDup (a ++ v :: b) → a ++ v :: b = a' ++ v :: b' → a = a'.
Proof.
  revert a'. induction a as [|x a IH]; intros a' Hnd Heq.
  - destruct a' as [|x' a']; [done|]. simplify_eq/=.
    apply NoDup_cons in Hnd as [Hx _]. exfalso. apply Hx. set_solver.
  - destruct a' as [|x' a']; simplify_eq/=.
    + apply NoDup_cons in Hnd as [Hx _]. exfalso. apply Hx. set_solver.
    + apply NoDup_cons in Hnd as [_ Hnd]. f_equal. by eapply IH.
Qed.

(** [max] keeps the first of the largest items. *)
Lemma max_item_first items : ∀ best,
  ∃ c1 c2,
    best :: items = c1 ++ max_item best items :: c2
    ∧ (∀ it, it ∈ c1 → it.2 < (max_item best items).2)
    ∧ (∀ it, it ∈ c2 → it.2 <= (max_item best items).2).
Proof.
  induction items as [|it0 items IH]; intros best; cbn [max_item].
  - exists [], []. split_and!; [done | |]; by intros it ?%elem_of_nil.
  - destruct (Z.ltb_spec best.2 it0.2) as [Hlt|Hge].
    + destruct (IH it0) as (c1 & c2 & Heq & H1 & H2).
      destruct (max_item_spec items it0) as [_ Hmax].
      specialize (Hmax it0 ltac:(set_solver)).
      remember (max_item it0 items) as m.
      exists (best :: c1), c2. split_and!; [by rewrite Heq | | done].
      intros it [->|Hit]%elem_of_cons; [lia | by apply H1].
    + destruct (IH best) as (c1 & c2 & Heq & H1 & H2).
      remember (max_item best items) as m.
      destruct c1 as [|x c1]; cbn [app] in Heq; injection Heq as Hb Hi.
      * exists [], (it0 :: items). cbn [app]. rewrite <- Hb. split_and!; [done | |].
        -- by intros it ?%elem_of_nil.
        -- intros it [->|Hit]%elem_of_cons; [lia|]. rewrite Hb. apply H2. by rewrite <- Hi.
      * exists (best :: it0 :: c1), c2. cbn [app]. rewrite Hi. split_and!; [done | | done].
        subst x. specialize (H1 best ltac:(set_solver)) as Hbest.
        intros it [->|[->|Hit]%elem_of_cons]%elem_of_cons; [done | lia |].
        apply H1. set_solver.
Qed.

(** The label [most_common(1)] gives: one of the most frequent, and every
    label first seen before it is strictly less frequent. *)
Lemma most_common_first y :
  y ≠ [] →
  ∃ v rest_items pre rest,
    most_common_1 (new y) = (v, count v y) :: rest_items
    ∧ y = pre ++ v :: rest ∧ (v ∉ pre)
    ∧ (∀ u, u ∈ pre → count u y < count v y)
    ∧ (∀ u, count u y <= count v y).
Proof.
  intros Hy. destruct (most_common_new y Hy) as (v & Hmc & Hv & Hmax).
  apply list_elem_of_split_l in Hv as (pre & rest & Hsplit & Hpre).
  exists v, [], pre, rest. split_and!; try done.
  intros u Hu. unfold most_common_1 in Hmc.
  destruct (new y) as [|it items] eqn:E; [done|]. injection Hmc as Hm.
  destruct (max_item_first items it) as (c1 & c2 & Heq & H1 & _). rewrite Hm in Heq, H1.
  pose proof (new_NoDup y) as Hnd. rewrite E, Heq, fmap_app, fmap_cons in Hnd. cbn [fst] in Hnd.
  destruct (new_keys_first pre v rest Hpre) as [extra Hkeys].
  rewrite <- Hsplit, E, Heq, fmap_app, fmap_cons in Hkeys. cbn [fst] in Hkeys.
  pose proof (NoDup_split_inj _ _ _ _ _ Hnd Hkeys) as Hc1.
  assert (u ∈ c1.*1) as ([u' n'] & -> & Hin)%list_elem_of_fmap
    by (rewrite Hc1; by apply new_keys).
  specialize (H1 _ Hin). cbn [fst snd] in *.
  assert ((u', n') ∈ new y) as [_ ->]%new_items by (rewrite E, Heq; set_solver).
  done.
Qed.

End TieBreak.

Section MoreFloatFacts.
Import Float.

Lemma div_eucl_exact a b : 0 < b → Z.div_eucl (b * a) b = (a, 0).
Proof.
  intros Hb.
  assert (Hd : b * a / b = a) by (rewrite Z.mul_comm; apply Z.div_mul; lia).
  assert (Hm : (b * a) mod b = 0) by (rewrite Z.mul_comm; apply Z.mod_mul; lia).
  unfold Z.div, Z.modulo in Hd, Hm.
  destruct (Z.div_eucl (b * a) b) as [q r]. cbn [fst snd] in *. by subst.
Qed.

(** A double holding a positive integer, divided by itself, is 1.0. *)
Lemma div_canon_self n : 0 < n < 2 ^ 53 → div (canon n) (canon n) = one.
Proof.
  intros Hn. pose proof (log2_small n Hn) as Hl.
  destruct (canon_mantissa n Hn) as [Hm Hd].
  unfold div, canon, SFdiv, SFdiv_core_binary.
  set (e := Z.log2 n - 52).
  rewrite Zdigits2_log2 by lia. rewrite Hm, Hd.
  set (M := n * 2 ^ (52 - Z.log2 n)) in *.
  replace (52 + 1 + e - (52 + 1 + e)) with 0 by lia.
  replace (e - e) with 0 by lia.
  change (Z.min (fexp prec emax 0) 0) with (-53).
  change (0 - -53) with 53. cbv iota.
  rewrite Z.shiftl_mul_pow2 by lia.
  change IntDef.Z.div_eucl with Z.div_eucl.
  rewrite (div_eucl_exact (2 ^ 53) M) by lia.
  assert (Hloc : new_location M 0 = loc_Exact).
  { unfold new_location, new_location_even, new_location_odd. by destruct (Z.even _). }
  rewrite Hloc. cbn [xorb].
  change (2 ^ 53) with (Z.pos 4503599627370496 * 2 ^ 1).
  by rewrite binary_round_aux_exact.
Qed.

End MoreFloatFacts.

Section MoreClassifierFacts.
Context `{Sklearn}.

(** X1. [MajorityVoteClassifier.fit] on an empty label vector raises
    IndexError and stores nothing: a new instance stays uninitialised and a
    fitted one goes on predicting the label of its last successful fit. *)
Theorem majority_fit_empty self (X X' : matrix) st (w : world) :
  heap w !! self = Some (MajorityVote st) →
  MajorityVoteClassifier.fit self X [] w = Raise IndexError w
  ∧ MajorityVoteClassifier.predict self X'
      (final (MajorityVoteClassifier.fit self X [] w))
    = match st with
      | None => Raise (Exception not_initialized) w
      | Some v => Return (replicate (length X') v) w
      end.
Proof.
  intros Hl. rewrite (mv_fit_spec _ _ _ _ _ Hl). cbn [Counter.new fold_left Counter.most_common_1 final].
  split; [done|]. apply (mv_predict_spec _ _ _ _ Hl).
Qed.

(** X2. On a non-empty label vector [MajorityVoteClassifier.fit] returns
    and stores a label of [y] that no label outnumbers; among equally
    frequent labels it is the one first seen in [y]: every label that
    occurs before its first occurrence is strictly less frequent. *)
Theorem majority_fit_first_most_common self (X : matrix) (y : labels) st (w : world) :
  heap w !! self = Some (MajorityVote st) →
  y ≠ [] →
  ∃ v pre rest,
    MajorityVoteClassifier.fit self X y w
    = Return self (set_object self (MajorityVote (Some v)) w)
    ∧ y = pre ++ v :: rest ∧ (v ∉ pre)
    ∧ (∀ u, u ∈ pre → count u y < count v y)
    ∧ (∀ u, count u y <= count v y).
Proof.
  intros Hl Hy. destruct (most_common_first y Hy) as (v & ri & pre & rest & Hmc & Hrest).
  exists v, pre, rest. split; [|done]. by rewrite (mv_fit_spec _ _ _ _ _ Hl), Hmc.
Qed.

(** X3. What [RandomClassifier.fit] does depends on [y] through the
    numbers of zeros and of ones only: the order of the labels, the other
    labels, the features and the value stored before play no part. *)
Theorem random_fit_counts self (X X' : matrix) (y y' : labels) st st' (w : world) :
  heap w !! self = Some (Random st) →
  count 0 y = count 0 y' →
  count 1 y = count 1 y' →
  observe (RandomClassifier.fit self X y w)
  = observe (RandomClassifier.fit self X' y' (set_object self (Random st') w))
  ∧ ∀ r w', RandomClassifier.fit self X y w = Return r w' →
            RandomClassifier.fit self X' y' (set_object self (Random st') w) = Return r w'.
Proof.
  intros Hl Hc0 Hc1.
  rewrite (rc_fit_spec _ _ _ _ _ Hl), (rc_fit_spec _ _ _ st') by apply lookup_set_object.
  assert (zero_share y = zero_share y') as <- by (unfold zero_share; by rewrite Hc0, Hc1).
  destruct (zero_share y) as [p|e]; [|done].
  split; [done|]. intros r w' [= <- <-]. by rewrite set_object_twice.
Qed.

(** X4. On labels of a single class [RandomClassifier.fit] stores a
    certainty: exactly 1.0 when [y] has zeros and no one, exactly 0.0 when
    it has ones and no zero (for fewer than 2^53 labels). *)
Theorem random_fit_single_class self (X : matrix) (y : labels) st (w : world) :
  heap w !! self = Some (Random st) →
  Z.of_nat (length y) < 2 ^ 53 →
  (0 < count 0 y → count 1 y = 0 →
   RandomClassifier.fit self X y w
   = Return self (set_object self (Random (Some Float.one)) w))
  ∧ (count 0 y = 0 → 0 < count 1 y →
     RandomClassifier.fit self X y w
     = Return self (set_object self (Random (Some (S754_zero false))) w)).
Proof.
  intros Hl Hlen. rewrite (rc_fit_spec _ _ _ _ _ Hl).
  pose proof (count_le_length 0 y). pose proof (count_le_length 1 y).
  split; intros Hc0 Hc1.
  - rewrite zero_share_some by lia. rewrite Hc1, add_of_Z by lia.
    rewrite Z.add_0_r, of_Z_small, div_canon_self by lia. done.
  - rewrite zero_share_some by lia. rewrite Hc0, add_of_Z by lia.
    rewrite Z.add_0_l, (of_Z_small (count 1 y)) by lia. done.
Qed.

End MoreClassifierFacts.

(** * More of the evaluators *)

Section MoreEvaluationFacts.
Context `{Sklearn}.

Lemma getitem_0_cons {A} (x : A) l : getitem (x :: l) 0 = Value x.
Proof.
  unfold getitem. cbn [length]. rewrite Nat2Z.inj_succ.
  change (0 <? 0) with false. cbv iota.
  destruct (Z.ltb_spec 0 (Z.succ (Z.of_nat (length l)))); [done | lia].
Qed.

Lemma score_majority clf Xtr Xte ytr yte sums st (w : world) :
  heap w !! clf = Some (MajorityVote st) →
  observe (score clf (Xtr, Xte, ytr, yte) sums w) = majority_score (Xtr, Xte, ytr, yte) sums
  ∧ ∀ r w', score clf (Xtr, Xte, ytr, yte) sums w = Return r w' →
      ∃ item rest,
        Counter.most_common_1 (Counter.new ytr) = item :: rest
        ∧ w' = set_object clf (MajorityVote (Some item.1)) w.
Proof.
  intros Hl. destruct sums as [s1 s2].
  unfold score, majority_score, mbind, M_bind, result_bind.
  rewrite (call_fit_mv _ _ _ _ _ Hl), (mv_fit_spec _ _ _ _ _ Hl).
  destruct (Counter.most_common_1 (Counter.new ytr)) as [|item rest]; [done|].
  rewrite getitem_0_cons.
  rewrite (call_predict_mv _ _ (Some item.1)) by apply lookup_set_object.
  rewrite (mv_predict_spec _ _ (Some item.1)) by apply lookup_set_object.
  rewrite (call_predict_mv _ _ (Some item.1)) by apply lookup_set_object.
  rewrite (mv_predict_spec _ _ (Some item.1)) by apply lookup_set_object.
  unfold lift.
  destruct (from_library (accuracy_score ytr _)) as [a|e]; [|done].
  destruct (match py_sub (Int 1) (Float a) with Value x => py_add s1 x | Error e => Error e end)
    as [s1'|e]; [|done].
  destruct (from_library (accuracy_score yte _)) as [b|e]; [|done].
  destruct (match py_sub (Int 1) (Float b) with Value x => py_add s2 x | Error e => Error e end)
    as [s2'|e]; [|done].
  split; [done|]. intros r w' [= <- <-]. by exists item, rest.
Qed.

Lemma score_random_world clf parts sums st r (w w' : world) :
  heap w !! clf = Some (Random st) →
  score clf parts sums w = Return r w' →
  ∃ p, heap w' = <[clf := Random (Some p)]> (heap w).
Proof.
  intros Hl. destruct parts as [[[Xtr Xte] ytr] yte], sums as [s1 s2].
  unfold score, mbind, M_bind.
  rewrite (call_fit_rc _ _ _ _ _ Hl), (rc_fit_spec _ _ _ _ _ Hl).
  destruct (zero_share ytr) as [p|e]; [|done].
  destruct (rc_call_predict clf Xtr p (set_object clf (Random (Some p)) w))
    as (w1 & Hw1 & ->); [apply lookup_set_object|].
  destruct (random_labels p (length Xtr)) as [name|ptr]; [done|].
  destruct (rc_call_predict clf Xte p w1) as (w2 & Hw2 & ->);
    [rewrite Hw1; apply lookup_set_object|].
  destruct (random_labels p (length Xte)) as [name|pte]; [done|].
  unfold lift.
  destruct (from_library (accuracy_score ytr ptr)) as [a|e]; [|done].
  destruct (result_bind _ _ (py_add s1) (py_sub (Int 1) (Float a))) as [s1'|e]; [|done].
  destruct (from_library (accuracy_score yte pte)) as [b|e]; [|done].
  destruct (result_bind _ _ (py_add s2) (py_sub (Int 1) (Float b))) as [s2'|e]; [|done].
  intros [= <- <-]. exists p. by rewrite Hw2, Hw1.
Qed.

(** A loop body that splits, then scores. *)
Lemma split_score_same clf (sp : result (matrix * matrix * labels * labels))
    sums (w1 w2 : world) :
  same_baseline clf w1 w2 →
  observe ((parts ← lift sp; score clf parts sums) w1)
  = observe ((parts ← lift sp; score clf parts sums) w2)
  ∧ ∀ r1 r2 w1' w2',
      (parts ← lift sp; score clf parts sums) w1 = Return r1 w1' →
      (parts ← lift sp; score clf parts sums) w2 = Return r2 w2' →
      same_baseline clf w1' w2'.
Proof.
  intros Hsame. unfold mbind, M_bind, lift.
  destruct sp as [[[[Xtr Xte] ytr] yte]|e]; [|done].
  destruct Hsame as [(st1 & st2 & Hl1 & Hl2)|(st1 & st2 & Hl1 & Hl2)].
  - destruct (score_majority clf Xtr Xte ytr yte sums st1 w1 Hl1) as [Ho1 Hw1].
    destruct (score_majority clf Xtr Xte ytr yte sums st2 w2 Hl2) as [Ho2 Hw2].
    split; [by rewrite Ho1, Ho2|]. intros r1 r2 w1' w2' Hr1 Hr2.
    destruct (Hw1 _ _ Hr1) as (i1 & ? & _ & ->). destruct (Hw2 _ _ Hr2) as (i2 & ? & _ & ->).
    left. exists (Some i1.1), (Some i2.1). split; apply lookup_set_object.
  - split.
    + by rewrite (score_random _ _ _ _ _ Hl1), (score_random _ _ _ _ _ Hl2).
    + intros r1 r2 w1' w2' Hr1 Hr2.
      destruct (score_random_world _ _ _ _ _ _ _ Hl1 Hr1) as [p1 Hp1].
      destruct (score_random_world _ _ _ _ _ _ _ Hl2 Hr2) as [p2 Hp2].
      right. exists (Some p1), (Some p2). rewrite Hp1, Hp2. split; apply lookup_insert_eq.
Qed.

Lemma for_in_same {A S} (body : A → S → M S) (P : world → world → Prop) (l : list A) :
  (∀ x s w1 w2, P w1 w2 →
     observe (body x s w1) = observe (body x s w2)
     ∧ ∀ r1 r2 w1' w2', body x s w1 = Return r1 w1' → body x s w2 = Return r2 w2' → P w1' w2') →
  ∀ s w1 w2, P w1 w2 → observe (for_in l body s w1) = observe (for_in l body s w2).
Proof.
  intros Hbody. induction l as [|x l IH]; intros s w1 w2 HP; [done|].
  cbn [for_in]. unfold mbind, M_bind.
  destruct (Hbody x s w1 w2 HP) as [Ho Hw].
  destruct (body x s w1) as [r1 w1'|e1 w1'], (body x s w2) as [r2 w2'|e2 w2']; simplify_eq/=; try done.
  apply IH. by eapply Hw.
Qed.

Lemma finish_same (m : M (number * number)) ntrials (w1 w2 : world) :
  observe (m w1) = observe (m w2) →
  observe (('(train_error, test_error) ← m;
            train_error ← lift (py_truediv train_error (Int ntrials));
            test_error ← lift (py_truediv test_error (Int ntrials));
            mret (train_error, test_error)) w1)
  = observe (('(train_error, test_error) ← m;
              train_error ← lift (py_truediv train_error (Int ntrials));
              test_error ← lift (py_truediv test_error (Int ntrials));
              mret (train_error, test_error)) w2).
Proof.
  intros Hm. unfold mbind, M_bind, lift.
  destruct (m w1) as [[s1 s2] w1'|e1 w1'], (m w2) as [[t1 t2] w2'|e2 w2']; simplify_eq/=; try done.
  destruct (py_truediv _ _); [|done]. by destruct (py_truediv _ _).
Qed.

(** X5. For a classifier of one of the two baseline classes the errors
    [error] and [error_partial] return, or the exception they raise, do not
    depend on what the classifier had stored, on the state of numpy's
    generator or on the other objects: every trial fits before it predicts,
    and the random predictions are seeded. *)
Theorem baseline_error_state_independent clf (X : matrix) (y : labels) nt ts pa
    (w1 w2 : world) :
  same_baseline clf w1 w2 →
  observe (error clf X y nt ts w1) = observe (error clf X y nt ts w2)
  ∧ observe (error_partial clf X y nt ts pa w1) = observe (error_partial clf X y nt ts pa w2).
Proof.
  intros Hsame. split.
  - unfold error. apply finish_same. apply (for_in_same _ (same_baseline clf)); [|done].
    intros i s v1 v2 Hv. rewrite !error_trial_score. by apply split_score_same.
  - unfold error_partial. unfold mbind at 1 5. unfold M_bind at 1 5. unfold lift at 1 4.
    destruct (py_truediv _ _) as [f|e]; [|done].
    apply finish_same. apply (for_in_same _ (same_baseline clf)); [|done].
    intros i s v1 v2 Hv. rewrite !error_partial_trial_score. by apply split_score_same.
Qed.

Lemma float_of_int_error z e : float_of_int z = Error e → not_raised_by_script e.
Proof. unfold float_of_int. destruct (Float.is_finite _); by intros [= <-] msg. Qed.

Lemma to_float_error a e : to_float a = Error e → not_raised_by_script e.
Proof. destruct a; [apply float_of_int_error | done]. Qed.

Lemma float_op_error (op : float → float → float) a b e :
  (x ← to_float a; y ← to_float b; Value (Float (op x y))) = Error e →
  not_raised_by_script e.
Proof.
  unfold mbind, result_bind.
  destruct (to_float a) as [x|e1] eqn:Ea; [|intros [= <-]; by eapply to_float_error].
  destruct (to_float b) as [x'|e1] eqn:Eb; [done|intros [= <-]; by eapply to_float_error].
Qed.

Lemma py_add_error a b e : py_add a b = Error e → not_raised_by_script e.
Proof. destruct a, b; try done; apply (float_op_error Float.add). Qed.

Lemma py_sub_error a b e : py_sub a b = Error e → not_raised_by_script e.
Proof. destruct a, b; try done; apply (float_op_error Float.sub). Qed.

Lemma py_mul_error a b e : py_mul a b = Error e → not_raised_by_script e.
Proof. destruct a, b; try done; apply (float_op_error Float.mul). Qed.

Lemma py_int_error a e : py_int a = Error e → not_raised_by_script e.
Proof.
  destruct a as [z|[]]; cbn; try done; try (by intros [= <-] msg).
Qed.

Lemma float_truediv_error x y e : float_truediv x y = Error e → not_raised_by_script e.
Proof. unfold float_truediv. destruct (Float.is_zero y); [|done]. by intros [= <-] msg. Qed.

Lemma py_truediv_error a b e : py_truediv a b = Error e → not_raised_by_script e.
Proof.
  assert (Hmixed : ∀ a b,
    (x ← to_float a; y ← to_float b; q ← float_truediv x y; Value (Float q)) = Error e →
    not_raised_by_script e).
  { intros a' b'. unfold mbind, result_bind.
    destruct (to_float a') as [x|e1] eqn:Ea; [|intros [= <-]; by eapply to_float_error].
    destruct (to_float b') as [x'|e1] eqn:Eb; [|intros [= <-]; by eapply to_float_error].
    destruct (float_truediv x x') as [q|e1] eqn:Eq; [done|].
    intros [= <-]. by eapply float_truediv_error. }
  destruct a as [x|x], b as [z|z]; try apply Hmixed.
  unfold py_truediv, int_truediv. destruct (z =? 0); [by intros [= <-] msg|].
  destruct x; try done; destruct (Float.is_finite _); try done; by intros [= <-] msg.
Qed.

Lemma from_library_error {A} (r : library A) e :
  from_library r = Error e → not_raised_by_script e.
Proof. destruct r; [|done]. by intros [= <-] msg. Qed.

Lemma getitem_error {A} (l : list A) i e : getitem l i = Error e → not_raised_by_script e.
Proof.
  unfold getitem. destruct (_ && _); [|by intros [= <-] msg].
  destruct (l !! _); [done|]. by intros [= <-] msg.
Qed.

Lemma bind_error {A B} (r : result A) (f : A → result B) e :
  r ≫= f = Error e → r = Error e ∨ ∃ a, f a = Error e.
Proof.
  unfold mbind, result_bind. destruct r as [a|e']; intros Hr; [right; by exists a | left; by injection Hr as ->].
Qed.

Ltac bind_cases H :=
  cbv beta iota in H;
  lazymatch type of H with
  | _ ≫= _ = Error _ =>
      let a := fresh "a" in
      apply bind_error in H as [H|[a H]]; [bind_cases H | bind_cases H]
  | _ => idtac
  end.

Ltac primitive_error :=
  first [ done
        | by eapply float_of_int_error
        | by eapply float_truediv_error
        | by eapply from_library_error
        | by eapply getitem_error
        | by eapply py_sub_error
        | by eapply py_add_error
        | by eapply py_mul_error
        | by eapply py_int_error ].

Lemma zero_share_error y e : zero_share y = Error e → not_raised_by_script e.
Proof. unfold zero_share. intros Hr. bind_cases Hr; primitive_error. Qed.

Lemma truncate_error {A} (a : list A) pa e : truncate a pa = Error e → not_raised_by_script e.
Proof. unfold truncate. intros Hr. bind_cases Hr; primitive_error. Qed.

Lemma truncated_split_error pa X y ts i e :
  truncated_split pa X y ts i = Error e → not_raised_by_script e.
Proof.
  unfold truncated_split. intros [?|[[[[Xtr Xte] ytr] yte] Hr]]%bind_error.
  - by eapply from_library_error.
  - bind_cases Hr; first [done | by eapply truncate_error].
Qed.

Lemma majority_score_error parts sums e :
  majority_score parts sums = Error e → not_raised_by_script e.
Proof.
  destruct parts as [[[Xtr Xte] ytr] yte], sums as [s1 s2]. unfold majority_score.
  intros Hr. bind_cases Hr; primitive_error.
Qed.

Lemma random_score_error parts sums e :
  random_score parts sums = Error e → not_raised_by_script e.
Proof.
  destruct parts as [[[Xtr Xte] ytr] yte], sums as [s1 s2]. unfold random_score.
  intros Hr. bind_cases Hr; first [done | by eapply zero_share_error | primitive_error].
Qed.

Lemma split_score_error clf (sp : result (matrix * matrix * labels * labels)) sums (w : world) :
  (∀ e, sp = Error e → not_raised_by_script e) →
  same_baseline clf w w →
  (∀ e, observe ((parts ← lift sp; score clf parts sums) w) = Error e →
        not_raised_by_script e)
  ∧ ∀ r w', (parts ← lift sp; score clf parts sums) w = Return r w' → same_baseline clf w' w'.
Proof.
  intros Hsp Hsame. split.
  - unfold mbind, M_bind, lift.
    destruct sp as [[[[Xtr Xte] ytr] yte]|e0]; [|intros e [= <-]; by apply Hsp].
    destruct Hsame as [(st & _ & Hl & _)|(st & _ & Hl & _)].
    + destruct (score_majority clf Xtr Xte ytr yte sums st w Hl) as [-> _].
      apply majority_score_error.
    + rewrite (score_random _ _ _ _ _ Hl). apply random_score_error.
  - intros r w' Hr. by destruct (split_score_same clf sp sums w w Hsame) as [_ Hw]; eapply Hw.
Qed.

Lemma for_in_error {A S} (body : A → S → M S) (Q : world → Prop) (l : list A) :
  (∀ x s w, Q w →
     (∀ e, observe (body x s w) = Error e → not_raised_by_script e)
     ∧ ∀ r w', body x s w = Return r w' → Q w') →
  ∀ s w e, Q w → observe (for_in l body s w) = Error e → not_raised_by_script e.
Proof.
  intros Hbody. induction l as [|x l IH]; intros s w e HQ; [done|].
  cbn [for_in]. unfold mbind, M_bind. destruct (Hbody x s w HQ) as [He Hw].
  destruct (body x s w) as [r w'|e' w']; [|intros [= <-]; by apply He].
  apply IH. by eapply Hw.
Qed.

Lemma finish_error (m : M (number * number)) ntrials (w : world) :
  (∀ e, observe (m w) = Error e → not_raised_by_script e) →
  ∀ e,
    observe (('(train_error, test_error) ← m;
              train_error ← lift (py_truediv train_error (Int ntrials));
              test_error ← lift (py_truediv test_error (Int ntrials));
              mret (train_error, test_error)) w) = Error e →
    not_raised_by_script e.
Proof.
  intros Hm e. unfold mbind, M_bind, lift.
  destruct (m w) as [[s1 s2] w'|e' w']; [|intros [= <-]; by apply Hm].
  destruct (py_truediv s1 _) as [q1|e1] eqn:E1; [|intros [= <-]; by eapply py_truediv_error].
  destruct (py_truediv s2 _) as [q2|e2] eqn:E2; [done|intros [= <-]; by eapply py_truediv_error].
Qed.

(** X6. On a classifier of one of the two baseline classes, also one that
    was never fitted, [error] and [error_partial] never end with the
    script's own "Classifier not initialized" exception: what they raise
    comes from the interpreter or from a library. *)
Theorem baseline_error_never_uninitialised clf (X : matrix) (y : labels) nt ts pa
    (w : world) msg :
  same_baseline clf w w →
  observe (error clf X y nt ts w) ≠ Error (Exception msg)
  ∧ observe (error_partial clf X y nt ts pa w) ≠ Error (Exception msg).
Proof.
  intros Hsame. split; intros Hraise.
  - eapply (finish_error _ _ w); [|exact Hraise|done].
    intros e. apply (for_in_error _ (λ v, same_baseline clf v v)); [|done].
    intros i s v Hv. rewrite error_trial_score.
    apply split_score_error; [apply from_library_error | done].
  - unfold error_partial in Hraise. unfold mbind at 1, M_bind at 1, lift at 1 in Hraise.
    destruct (py_truediv _ _) as [f|e] eqn:Ef.
    + eapply (finish_error _ _ w); [|exact Hraise|done].
      intros e. apply (for_in_error _ (λ v, same_baseline clf v v)); [|done].
      intros i s v Hv. rewrite error_partial_trial_score.
      apply split_score_error; [apply truncated_split_error | done].
    + injection Hraise as ->. by eapply py_truediv_error.
Qed.

Lemma range_nonpos n : n <= 0 → range 0 n = [].
Proof. intros Hn. unfold range. by replace (Z.to_nat (n - 0)) with 0%nat by lia. Qed.

Lemma last_range n : 0 < n → last (range 0 n) = Some (n - 1).
Proof.
  intros Hn. unfold range. rewrite Z.sub_0_r.
  destruct (Z.to_nat n) as [|k] eqn:E; [lia|].
  rewrite fmap_last, seq_S, last_snoc. cbn. f_equal. lia.
Qed.

Lemma for_in_majority_world clf (body : Z → number * number → M (number * number))
    (sp : Z → result (matrix * matrix * labels * labels)) :
  (∀ i s w, body i s w = (parts ← lift (sp i); score clf parts s) w) →
  ∀ l s st (w : world) r w',
    heap w !! clf = Some (MajorityVote st) →
    for_in l body s w = Return r w' →
    match last l with
    | None => w' = w
    | Some i =>
        ∃ Xtr Xte ytr yte item rest,
          sp i = Value (Xtr, Xte, ytr, yte)
          ∧ Counter.most_common_1 (Counter.new ytr) = item :: rest
          ∧ w' = set_object clf (MajorityVote (Some item.1)) w
    end.
Proof.
  intros Hbody. induction l as [|i l IH]; intros s st w r w' Hl; [by intros [= _ <-]|].
  cbn [for_in]. unfold mbind at 1. unfold M_bind. rewrite Hbody.
  unfold mbind, M_bind, lift.
  destruct (sp i) as [[[[Xtr Xte] ytr] yte]|e] eqn:Esp; [|done].
  destruct (score clf (Xtr, Xte, ytr, yte) s w) as [s' w1|e w1] eqn:Escore; [|done].
  destruct (score_majority clf Xtr Xte ytr yte s st w Hl) as [_ Hw].
  destruct (Hw _ _ Escore) as (item & rest & Hitem & ->).
  intros Hloop.
  specialize (IH s' (Some item.1) _ r w' (lookup_set_object _ _ _) Hloop).
  destruct l as [|j l]; cbn [last] in *.
  - subst w'. by exists Xtr, Xte, ytr, yte, item, rest.
  - assert (is_Some (last (j :: l))) as [k Ek] by (by apply last_is_Some).
    rewrite Ek in IH |- *.
    destruct IH as (Xtr' & Xte' & ytr' & yte' & item' & rest' & ? & ? & ->).
    exists Xtr', Xte', ytr', yte', item', rest'. by rewrite set_object_twice.
Qed.

Lemma finish_return (m : M (number * number)) ntrials r (w w' : world) :
  ('(train_error, test_error) ← m;
   train_error ← lift (py_truediv train_error (Int ntrials));
   test_error ← lift (py_truediv test_error (Int ntrials));
   mret (train_error, test_error)) w = Return r w' →
  ∃ s, m w = Return s w'.
Proof.
  unfold mbind, M_bind, lift. destruct (m w) as [[s1 s2] w1|e w1]; [|done].
  destruct (py_truediv s1 _); [|done]. destruct (py_truediv s2 _); [|done].
  intros [= _ <-]. by eexists.
Qed.

(** X7. [error] and [error_partial] fit the caller's classifier again and
    again: when they return on a majority-vote classifier, it is left
    predicting the most common label of the (truncated) training partition
    of the last trial, whatever it predicted before; nothing else of the
    heap and nothing of the generator has changed. *)
Theorem error_leaves_last_fit clf (X : matrix) (y : labels) ntrials ts pa st (w : world) :
  heap w !! clf = Some (MajorityVote st) →
  0 < ntrials →
  (∀ r w', error clf X y (Some ntrials) (Some ts) w = Return r w' →
     ∃ Xtr Xte ytr yte item rest,
       train_test_split X y ts (ntrials - 1) = inr (Xtr, Xte, ytr, yte)
       ∧ Counter.most_common_1 (Counter.new ytr) = item :: rest
       ∧ w' = set_object clf (MajorityVote (Some item.1)) w)
  ∧ (∀ r w', error_partial clf X y (Some ntrials) (Some ts) pa w = Return r w' →
       ∃ f Xtr Xte ytr yte item rest,
         py_truediv (kwarg (Int 10) pa) (Float Float.lit_10_0) = Value f
         ∧ truncated_split f X y ts (ntrials - 1) = Value (Xtr, Xte, ytr, yte)
         ∧ Counter.most_common_1 (Counter.new ytr) = item :: rest
         ∧ w' = set_object clf (MajorityVote (Some item.1)) w).
Proof.
  intros Hl Hn. split; intros r w' Hr.
  - unfold error in Hr. apply finish_return in Hr as [s Hloop].
    change (kwarg 100 (Some ntrials)) with ntrials in Hloop.
    pose proof (for_in_majority_world clf _
                  (λ i, from_library (train_test_split X y (kwarg (Float Float.lit_0_2) (Some ts)) i))
                  (λ i s w, error_trial_score clf X y _ i s w) _ _ _ _ _ _ Hl Hloop) as Hlast.
    rewrite last_range in Hlast by done.
    destruct Hlast as (Xtr & Xte & ytr & yte & item & rest & Hsp & Hitem & ->).
    exists Xtr, Xte, ytr, yte, item, rest. split_and!; [|done|done].
    change (kwarg (Float Float.lit_0_2) (Some ts)) with ts in Hsp.
    by destruct (train_test_split X y ts (ntrials - 1)); simplify_eq/=.
  - unfold error_partial in Hr. unfold mbind at 1, M_bind at 1, lift at 1 in Hr.
    destruct (py_truediv _ _) as [f|e] eqn:Ef; [|done].
    apply finish_return in Hr as [s Hloop].
    change (kwarg 100 (Some ntrials)) with ntrials in Hloop.
    change (kwarg (Float Float.lit_0_2) (Some ts)) with ts in Hloop.
    pose proof (for_in_majority_world clf _ (truncated_split f X y ts)
                  (λ i s w, error_partial_trial_score clf X y ts f i s w)
                  _ _ _ _ _ _ Hl Hloop) as Hlast.
    rewrite last_range in Hlast by done.
    destruct Hlast as (Xtr & Xte & ytr & yte & item & rest & Hsp & Hitem & ->).
    by exists f, Xtr, Xte, ytr, yte, item, rest.
Qed.

(** X8. With [ntrials = 0] the evaluators run no trial and the final
    quotient 0 / 0 raises ZeroDivisionError; with a negative [ntrials] they
    run no trial either and return the pair (-0.0, -0.0).  The classifier,
    the heap and the generator are left untouched, whatever [clf] is. *)
Theorem error_without_trials clf (X : matrix) (y : labels) ts n (w : world) :
  n < 0 →
  error clf X y (Some 0) ts w = Raise ZeroDivisionError w
  ∧ error clf X y (Some n) ts w = Return (Float (S754_zero true), Float (S754_zero true)) w
  ∧ error_partial clf X y (Some 0) ts None w = Raise ZeroDivisionError w
  ∧ error_partial clf X y (Some n) ts None w
    = Return (Float (S754_zero true), Float (S754_zero true)) w.
Proof.
  intros Hn.
  assert (Hdiv : py_truediv (Int 0) (Int n) = Value (Float (S754_zero true))).
  { unfold py_truediv, int_truediv. destruct (Z.eqb_spec n 0); [lia|].
    by destruct (Z.ltb_spec n 0); [|lia]. }
  split_and!.
  - done.
  - unfold error. change (kwarg 100 (Some n)) with n. rewrite range_nonpos by lia.
    cbn [for_in]. unfold mbind, M_bind. cbn [mret M_ret]. unfold lift. by rewrite Hdiv.
  - done.
  - unfold error_partial. change (kwarg 100 (Some n)) with n. rewrite range_nonpos by lia.
    cbn [for_in]. unfold mbind, M_bind. cbn [mret M_ret kwarg default].
    change (py_truediv (Int 10) (Float Float.lit_10_0)) with (Value (Float Float.one)).
    unfold lift. by rewrite Hdiv.
Qed.

Lemma truncate_zero {A} (a : list A) :
  Z.of_nat (length a) < 2 ^ 53 → truncate a (Float (S754_zero false)) = Value [].
Proof.
  intros Hlen. unfold truncate, py_mul, to_float.
  destruct (decide (length a = 0%nat)) as [Hz|Hnz].
  - apply length_zero_iff_nil in Hz as ->. reflexivity.
  - by rewrite float_of_int_small by lia.
Qed.

(** X9. With [partial_amt = 0] the training partition of every trial is
    cut to no row at all, and on a baseline classifier [error_partial]
    ends in the first trial with the failure of [fit]: IndexError for the
    majority-vote classifier, ZeroDivisionError for the random one. *)
Theorem error_partial_zero_fails clf (X : matrix) (y : labels) ntrials ts (w : world)
    Xtr Xte ytr yte :
  0 < ntrials →
  train_test_split X y ts 0 = inr (Xtr, Xte, ytr, yte) →
  Z.of_nat (length Xtr) < 2 ^ 53 →
  Z.of_nat (length ytr) < 2 ^ 53 →
  (∀ st, heap w !! clf = Some (MajorityVote st) →
     error_partial clf X y (Some ntrials) (Some ts) (Some (Int 0)) w = Raise IndexError w)
  ∧ (∀ st, heap w !! clf = Some (Random st) →
       error_partial clf X y (Some ntrials) (Some ts) (Some (Int 0)) w
       = Raise ZeroDivisionError w).
Proof.
  intros Hn Hs HX Hy.
  assert (Hf : py_truediv (Int 0) (Float Float.lit_10_0) = Value (Float (S754_zero false)))
    by done.
  split; intros st Hl.
  - eapply error_partial_first_trial_raises; [done | exact Hf |].
    eapply truncated_trial_raises; [done | by apply truncate_zero | by apply truncate_zero |].
    by eapply mv_fit_empty.
  - eapply error_partial_first_trial_raises; [done | exact Hf |].
    eapply truncated_trial_raises; [done | by apply truncate_zero | by apply truncate_zero |].
    by eapply rc_fit_empty.
Qed.

(** X10. The truncation of [error_partial] only drops rows at the end,
    whatever [partial_amt] is (above 10 or negative too), and it keeps
    features and labels aligned: partitions of equal length are cut to
    prefixes of equal length, or fail together. *)
Theorem truncate_prefix_aligned (Xtr : matrix) (ytr : labels) pa :
  length Xtr = length ytr →
  (∀ Xtr', truncate Xtr pa = Value Xtr' →
     Xtr' `prefix_of` Xtr
     ∧ ∃ ytr', truncate ytr pa = Value ytr' ∧ ytr' `prefix_of` ytr
               ∧ length Xtr' = length ytr')
  ∧ (∀ e, truncate Xtr pa = Error e → truncate ytr pa = Error e).
Proof.
  intros Hlen. unfold truncate. rewrite <- Hlen.
  destruct (py_mul (Int (Z.of_nat (length Xtr))) pa ≫= py_int) as [k|e0];
    unfold mbind, result_bind.
  - unfold slice_to. rewrite <- Hlen. split; [|done].
    intros Xtr' [= <-]. split; [apply prefix_take|].
    eexists. split_and!; [done | apply prefix_take |].
    rewrite !length_take. lia.
  - split; [done|]. by intros e [= <-].
Qed.






End MoreEvaluationFacts.

(** ** More examples *)

Section MoreExamples.
Import Sample.




Lemma majority_fit_empty_witness :
  MajorityVoteClassifier.fit 1%positive X4 [] w0 = Raise IndexError w0
  ∧ MajorityVoteClassifier.predict 1%positive X4'
      (final (MajorityVoteClassifier.fit 1%positive X4 [] w0))
    = Raise (Exception not_initialized) w0.
Proof. apply (majority_fit_empty 1%positive X4 X4' None w0). reflexivity. Defined.

Lemma majority_fit_first_most_common_witness :
  ∃ v pre rest,
    MajorityVoteClassifier.fit 1%positive X4 [1; 0; 0; 1] w0
    = Return 1%positive (set_object 1%positive (MajorityVote (Some v)) w0)
    ∧ [1; 0; 0; 1] = pre ++ v :: rest ∧ (v ∉ pre)
    ∧ (∀ u, u ∈ pre → count u [1; 0; 0; 1] < count v [1; 0; 0; 1])
    ∧ (∀ u, count u [1; 0; 0; 1] <= count v [1; 0; 0; 1]).
Proof.
  apply (majority_fit_first_most_common 1%positive X4 [1; 0; 0; 1] None w0).
  - reflexivity.
  - discriminate.
Defined.

Lemma random_fit_counts_witness :
  observe (RandomClassifier.fit 2%positive X4 [0; 1; 1; 2] w0)
  = observe (RandomClassifier.fit 2%positive X4' [1; 5; 0; 1]
               (set_object 2%positive (Random (Some Float.one)) w0))
  ∧ ∀ r w', RandomClassifier.fit 2%positive X4 [0; 1; 1; 2] w0 = Return r w' →
            RandomClassifier.fit 2%positive X4' [1; 5; 0; 1]
              (set_object 2%positive (Random (Some Float.one)) w0) = Return r w'.
Proof.
  apply (random_fit_counts 2%positive X4 X4' [0; 1; 1; 2] [1; 5; 0; 1] None
           (Some Float.one) w0); reflexivity.
Defined.

Lemma random_fit_single_class_witness :
  (0 < count 0 [0; 0] → count 1 [0; 0] = 0 →
   RandomClassifier.fit 2%positive X4 [0; 0] w0
   = Return 2%positive (set_object 2%positive (Random (Some Float.one)) w0))
  ∧ (count 0 [0; 0] = 0 → 0 < count 1 [0; 0] →
     RandomClassifier.fit 2%positive X4 [0; 0] w0
     = Return 2%positive (set_object 2%positive (Random (Some (S754_zero false))) w0)).
Proof. apply (random_fit_single_class 2%positive X4 [0; 0] None w0); reflexivity. Defined.

Lemma baseline_error_state_independent_witness :
  observe (error 2%positive X4 y4 (Some 2) (Some (Int 1)) w_fit)
  = observe (error 2%positive X4 y4 (Some 2) (Some (Int 1)) w_alone)
  ∧ observe (error_partial 2%positive X4 y4 (Some 2) (Some (Int 1)) (Some (Int 5)) w_fit)
    = observe (error_partial 2%positive X4 y4 (Some 2) (Some (Int 1)) (Some (Int 5)) w_alone).
Proof.
  apply (baseline_error_state_independent 2%positive X4 y4 (Some 2) (Some (Int 1))
           (Some (Int 5)) w_fit w_alone).
  right. exists (Some Float.three_quarters), (Some Float.three_quarters).
  split; reflexivity.
Defined.

Lemma baseline_error_never_uninitialised_witness :
  observe (error 1%positive X4 y4 (Some 2) (Some (Int 1)) w0)
  ≠ Error (Exception not_initialized)
  ∧ observe (error_partial 1%positive X4 y4 (Some 2) (Some (Int 1)) None w0)
    ≠ Error (Exception not_initialized).
Proof.
  apply (baseline_error_never_uninitialised 1%positive X4 y4 (Some 2) (Some (Int 1)) None
           w0 not_initialized).
  left. exists None, None. split; reflexivity.
Defined.

Lemma error_leaves_last_fit_witness :
  (∀ r w', error 1%positive X4 y4 (Some 2) (Some (Int 1)) w0 = Return r w' →
     ∃ Xtr Xte ytr yte item rest,
       train_test_split X4 y4 (Int 1) (2 - 1) = inr (Xtr, Xte, ytr, yte)
       ∧ Counter.most_common_1 (Counter.new ytr) = item :: rest
       ∧ w' = set_object 1%positive (MajorityVote (Some item.1)) w0)
  ∧ (∀ r w', error_partial 1%positive X4 y4 (Some 2) (Some (Int 1)) None w0 = Return r w' →
       ∃ f Xtr Xte ytr yte item rest,
         py_truediv (kwarg (Int 10) None) (Float Float.lit_10_0) = Value f
         ∧ truncated_split f X4 y4 (Int 1) (2 - 1) = Value (Xtr, Xte, ytr, yte)
         ∧ Counter.most_common_1 (Counter.new ytr) = item :: rest
         ∧ w' = set_object 1%positive (MajorityVote (Some item.1)) w0).
Proof.
  apply (error_leaves_last_fit 1%positive X4 y4 2 (Int 1) None None w0).
  - reflexivity.
  - lia.
Defined.

Lemma error_without_trials_witness :
  error 1%positive X4 y4 (Some 0) None w0 = Raise ZeroDivisionError w0
  ∧ error 1%positive X4 y4 (Some (-3)) None w0
    = Return (Float (S754_zero true), Float (S754_zero true)) w0
  ∧ error_partial 1%positive X4 y4 (Some 0) None None w0 = Raise ZeroDivisionError w0
  ∧ error_partial 1%positive X4 y4 (Some (-3)) None None w0
    = Return (Float (S754_zero true), Float (S754_zero true)) w0.
Proof. apply (error_without_trials 1%positive X4 y4 None (-3) w0). lia. Defined.

Lemma error_partial_zero_fails_witness :
  (∀ st, heap w0 !! 1%positive = Some (MajorityVote st) →
     error_partial 1%positive X4 y4 (Some 2) (Some (Int 1)) (Some (Int 0)) w0
     = Raise IndexError w0)
  ∧ (∀ st, heap w0 !! 1%positive = Some (Random st) →
       error_partial 1%positive X4 y4 (Some 2) (Some (Int 1)) (Some (Int 0)) w0
       = Raise ZeroDivisionError w0).
Proof.
  apply (error_partial_zero_fails 1%positive X4 y4 2 (Int 1) w0
           (drop 1 X4) (take 1 X4) [1; 1; 1] [0]).
  - lia.
  - reflexivity.
  - simpl. lia.
  - simpl. lia.
Defined.

Lemma truncate_prefix_aligned_witness :
  (∀ Xtr', truncate X4 (Float Float.three_quarters) = Value Xtr' →
     Xtr' `prefix_of` X4
     ∧ ∃ ytr', truncate y4 (Float Float.three_quarters) = Value ytr' ∧ ytr' `prefix_of` y4
               ∧ length Xtr' = length ytr')
  ∧ (∀ e, truncate X4 (Float Float.three_quarters) = Error e →
          truncate y4 (Float Float.three_quarters) = Error e).
Proof. apply (truncate_prefix_aligned X4 y4 (Float Float.three_quarters)). reflexivity. Defined.

End MoreExamples.

(** * plot_histogram *)

Section HistogramFacts.
Context `{Format, Pyplot}.

Lemma getitem_nonneg {A} (l : list A) i :
  0 <= i →
  getitem l i = match l !! Z.to_nat i with Some x => Value x | None => Error IndexError end.
Proof.
  intros Hi. unfold getitem. destruct (Z.ltb_spec i 0); [lia|].
  destruct (Z.leb_spec 0 i); [|lia]. cbn [andb].
  destruct (Z.ltb_spec i (Z.of_nat (length l))) as [Hlt|Hge].
  - destruct (l !! Z.to_nat i) eqn:E; [done|]. apply lookup_ge_None in E. lia.
  - destruct (l !! Z.to_nat i) eqn:E; [|done]. apply lookup_lt_Some in E. lia.
Qed.

Lemma getitem_last {A} (l : list A) x : getitem (l ++ [x]) (-1) = Value x.
Proof.
  unfold getitem. rewrite length_app. cbn [length].
  change (-1 <? 0) with true. cbv iota.
  destruct (Z.leb_spec 0 (-1 + Z.of_nat (length l + 1))); [|lia].
  destruct (Z.ltb_spec (-1 + Z.of_nat (length l + 1)) (Z.of_nat (length l + 1))); [|lia].
  cbn [andb]. replace (Z.to_nat (-1 + Z.of_nat (length l + 1))) with (length l) by lia.
  by rewrite list_lookup_middle.
Qed.

Lemma strict_sorted {A} (R S : relation A) (l : list A) :
  (∀ x y, R x y → x ≠ y → S x y) →
  StronglySorted R l → NoDup l → StronglySorted S l.
Proof.
  intros HRS. induction 1 as [|x l Hl IH Hx]; intros Hnd; [constructor|].
  apply NoDup_cons in Hnd as [Hnin Hnd]. constructor; [by apply IH|].
  rewrite Forall_forall in Hx |- *. intros z Hz. apply HRS; [by apply Hx|].
  by intros ->.
Qed.

Lemma sorted_labels_elem (y : labels) t : t ∈ sorted_labels y ↔ t ∈ y.
Proof. unfold sorted_labels. by rewrite merge_sort_Permutation, elem_of_remove_dups. Qed.

Lemma sorted_labels_NoDup (y : labels) : NoDup (sorted_labels y).
Proof. unfold sorted_labels. rewrite merge_sort_Permutation. apply NoDup_remove_dups. Qed.

Lemma sorted_labels_sorted (y : labels) : StronglySorted Z.lt (sorted_labels y).
Proof.
  apply (strict_sorted Z.le); [lia | | apply sorted_labels_NoDup].
  apply StronglySorted_merge_sort; apply _.
Qed.

Lemma sorted_values_elem (X : list Qc) x : x ∈ sorted_values X ↔ x ∈ X.
Proof. unfold sorted_values. by rewrite merge_sort_Permutation, elem_of_remove_dups. Qed.

Lemma sorted_values_NoDup (X : list Qc) : NoDup (sorted_values X).
Proof. unfold sorted_values. rewrite merge_sort_Permutation. apply NoDup_remove_dups. Qed.

Lemma Qcle_neq_lt (x y : Qc) : Qcle x y → x ≠ y → Qclt x y.
Proof. intros Hle Hne. destruct (Qcle_lt_or_eq _ _ Hle); [done | by destruct Hne]. Qed.

Lemma sorted_values_sorted (X : list Qc) : StronglySorted Qclt (sorted_values X).
Proof.
  apply (strict_sorted Qcle); [apply Qcle_neq_lt | | apply sorted_values_NoDup].
  apply StronglySorted_merge_sort; apply _.
Qed.

(** The members of a group: the values of [X] whose label is [t]. *)
Lemma select_ok {A} (X : list A) (y : labels) t : ∀ (i : nat),
  (i + length y ≤ length X)%nat →
  select X y (Z.of_nat i) t = Value (filter (λ p, p.2 = t) (zip (drop i X) y)).*1.
Proof.
  induction y as [|yi y IH]; intros i Hlen; [by rewrite zip_with_nil_r|].
  cbn [length] in Hlen. cbn [select].
  destruct (drop i X) as [|x X'] eqn:Ed.
  { apply (f_equal length) in Ed. rewrite length_drop in Ed. cbn in Ed. lia. }
  assert (Hx : X !! i = Some x).
  { pose proof (lookup_drop X i 0) as Hd0. rewrite Ed, Nat.add_0_r in Hd0. done. }
  assert (Hd : drop (S i) X = X').
  { replace (S i) with (i + 1)%nat by lia. by rewrite <- drop_drop, Ed. }
  replace (Z.of_nat i + 1) with (Z.of_nat (S i)) by lia.
  rewrite IH by lia. rewrite Hd. cbn [zip_with]. rewrite filter_cons. cbn [snd].
  destruct (decide (yi = t)); [|done].
  rewrite getitem_nonneg by lia. rewrite Nat2Z.id, Hx. done.
Qed.

Lemma select_error {A} (X : list A) (y : labels) t e : ∀ i,
  0 <= i → select X y i t = Error e → e = IndexError.
Proof.
  induction y as [|yi y IH]; intros i Hi; [done|]. cbn [select].
  destruct (decide (yi = t)); [|apply IH; lia].
  rewrite getitem_nonneg by done. destruct (X !! Z.to_nat i); [|by intros [= <-]].
  cbn [mbind result_bind].
  destruct (select X y (i + 1) t) as [xs|e'] eqn:E; [done|].
  intros [= <-]. eapply IH; [|done]. lia.
Qed.

(** A label found at an index where [X] has no row makes the group fail. *)
Lemma select_fail {A} (X : list A) (y : labels) t : ∀ (i j : nat),
  y !! j = Some t → (length X ≤ i + j)%nat →
  select X y (Z.of_nat i) t = Error IndexError.
Proof.
  induction y as [|yi y IH]; intros i j Hj Hlen; [done|]. cbn [select].
  replace (Z.of_nat i + 1) with (Z.of_nat (S i)) by lia.
  destruct j as [|j]; simplify_eq/=.
  - rewrite decide_True by done. rewrite getitem_nonneg by lia.
    rewrite Nat2Z.id. by rewrite (lookup_ge_None_2 X i) by lia.
  - assert (Hrest : select X y (Z.of_nat (S i)) t = Error IndexError) by (apply (IH _ j); [done|lia]).
    rewrite Hrest. destruct (decide (yi = t)); [|done].
    rewrite getitem_nonneg by lia. by destruct (X !! Z.to_nat (Z.of_nat i)).
Qed.

Lemma bind_value {A B} (a : A) (f : A → result B) : Value a ≫= f = f a.
Proof. reflexivity. Qed.

Lemma bind_raise {A B} e (f : A → result B) : Error e ≫= f = Error e.
Proof. reflexivity. Qed.

Lemma mapM_result_value {A B} (f : A → result B) (g : A → B) (l : list A) :
  (∀ x, x ∈ l → f x = Value (g x)) → mapM f l = Value (g <$> l).
Proof.
  induction l as [|x l IH]; intros Hf; [done|]. cbn [mapM].
  rewrite Hf by set_solver. rewrite bind_value.
  rewrite IH by (intros; apply Hf; set_solver). done.
Qed.

Lemma mapM_result_error {A B} (f : A → result B) (l : list A) e0 :
  (∀ x e, x ∈ l → f x = Error e → e = e0) →
  (∃ x, x ∈ l ∧ f x = Error e0) →
  mapM f l = Error e0.
Proof.
  induction l as [|x l IH]; intros Hall [x0 [Hin Hx0]]; [by apply elem_of_nil in Hin|].
  cbn [mapM]. destruct (f x) as [b|e] eqn:Ex.
  - rewrite bind_value, IH; [done | |].
    + intros x1 e1 Hx1 He1. apply (Hall x1 e1); [set_solver|done].
    + apply elem_of_cons in Hin as [->|Hin]; [congruence|]. by exists x0.
  - rewrite bind_raise. f_equal. apply (Hall x e); [set_solver|done].
Qed.

(** Grouping by a key, over keys without repetition that cover the list,
    loses and repeats nothing. *)
Lemma concat_groups {A} (key : A → label) (l : list A) (targets : labels) :
  NoDup targets →
  (∀ a, a ∈ l → key a ∈ targets) →
  concat ((λ t, filter (λ a, key a = t) l) <$> targets) ≡ₚ l.
Proof.
  intros Hnd. induction l as [|a l IH]; intros Hcover.
  - induction targets as [|t ts IHt]; [done|]. cbn [fmap list_fmap concat].
    rewrite filter_nil. apply IHt; [by apply NoDup_cons in Hnd as [_ ?]|].
    by intros a Ha%elem_of_nil.
  - assert (key a ∈ targets) as (t1 & t2 & Ht)%list_elem_of_split by (apply Hcover; set_solver).
    assert (IH' := IH ltac:(intros; apply Hcover; set_solver)). clear IH.
    rewrite Ht in Hnd, IH' |- *. apply NoDup_app in Hnd as (_ & Hdisj & [Hnin _]%NoDup_cons).
    rewrite !fmap_app, !fmap_cons, !concat_app in IH' |- *. cbn [concat] in IH' |- *.
    rewrite filter_cons, decide_True by done.
    assert (Hother : ∀ ts : labels, key a ∉ ts →
              (λ t, filter (λ a0, key a0 = t) (a :: l)) <$> ts
              = (λ t, filter (λ a0, key a0 = t) l) <$> ts).
    { intros ts Hts. apply list_fmap_ext. intros i t Hi%list_elem_of_lookup_2.
      rewrite filter_cons, decide_False; [done|]. by intros <-. }
    rewrite (Hother t1), (Hother t2); [|done|].
    + cbn [app]. rewrite <- Permutation_middle. by constructor.
    + intros Hin. by apply (Hdisj (key a)); [|set_solver].
Qed.

(** *** range *)

Lemma elem_of_range a b k : k ∈ range a b ↔ a <= k < b.
Proof.
  unfold range. rewrite list_elem_of_fmap. split.
  - intros (n & -> & Hn%elem_of_seq). lia.
  - intros Hk. exists (Z.to_nat (k - a)). split; [lia|]. apply elem_of_seq. lia.
Qed.

Lemma seq_sorted s n : StronglySorted lt (seq s n).
Proof.
  revert s. induction n as [|n IH]; intros s; cbn [seq]; constructor; [apply IH|].
  apply Forall_forall. intros k Hk%elem_of_seq. lia.
Qed.

Lemma range_sorted a b : StronglySorted Z.lt (range a b).
Proof.
  unfold range. apply (StronglySorted_fmap _ lt); [intros; lia | apply seq_sorted].
Qed.

Lemma range_snoc a b : a <= b → range a (b + 1) = range a b ++ [b].
Proof.
  intros Hab. unfold range.
  replace (Z.to_nat (b + 1 - a)) with (S (Z.to_nat (b - a))) by lia.
  rewrite seq_S, fmap_app. cbn [fmap list_fmap]. do 2 f_equal. lia.
Qed.

Lemma range_length a b : Z.of_nat (length (range a b)) = Z.max 0 (b - a).
Proof. unfold range. rewrite length_fmap, length_seq. lia. Qed.

(** [test_range[-1]] is the upper end of the range. *)
Lemma range_last a b : a <= b → getitem (range a (b + 1)) (-1) = Value b.
Proof. intros Hab. rewrite range_snoc by done. apply getitem_last. Qed.

(** *** min and max *)

Lemma fold_min_spec (rest : list Qc) : ∀ v,
  let m := fold_left (λ best u, if decide (Qclt u best) then u else best) rest v in
  m ∈ v :: rest ∧ ∀ x, x ∈ v :: rest → Qcle m x.
Proof.
  induction rest as [|u rest IH]; intros v; cbn [fold_left].
  - split; [set_solver|]. intros x ->%list_elem_of_singleton. apply Qcle_refl.
  - destruct (IH (if decide (Qclt u v) then u else v)) as [Hin Hle]. cbv zeta. split.
    + destruct (decide (Qclt u v)); set_solver.
    + intros x Hx.
      assert (Hbest : Qcle (if decide (Qclt u v) then u else v) u
                    ∧ Qcle (if decide (Qclt u v) then u else v) v).
      { destruct (decide (Qclt u v)) as [Hlt|Hge].
        - split; [apply Qcle_refl | by apply Qclt_le_weak].
        - split; [by apply Qcnot_lt_le | apply Qcle_refl]. }
      destruct Hbest as [Hu Hv].
      assert (Hm := Hle _ ltac:(left)).
      apply elem_of_cons in Hx as [->|[->|Hx]%elem_of_cons].
      * by eapply Qcle_trans.
      * by eapply Qcle_trans.
      * apply Hle. by right.
Qed.

Lemma fold_max_spec (rest : list Qc) : ∀ v,
  let m := fold_left (λ best u, if decide (Qclt best u) then u else best) rest v in
  m ∈ v :: rest ∧ ∀ x, x ∈ v :: rest → Qcle x m.
Proof.
  induction rest as [|u rest IH]; intros v; cbn [fold_left].
  - split; [set_solver|]. intros x ->%list_elem_of_singleton. apply Qcle_refl.
  - destruct (IH (if decide (Qclt v u) then u else v)) as [Hin Hle]. cbv zeta. split.
    + destruct (decide (Qclt v u)); set_solver.
    + intros x Hx.
      assert (Hbest : Qcle u (if decide (Qclt v u) then u else v)
                    ∧ Qcle v (if decide (Qclt v u) then u else v)).
      { destruct (decide (Qclt v u)) as [Hlt|Hge].
        - split; [apply Qcle_refl | by apply Qclt_le_weak].
        - split; [by apply Qcnot_lt_le | apply Qcle_refl]. }
      destruct Hbest as [Hu Hv].
      assert (Hm := Hle _ ltac:(left)).
      apply elem_of_cons in Hx as [->|[->|Hx]%elem_of_cons].
      * by eapply Qcle_trans.
      * by eapply Qcle_trans.
      * apply Hle. by right.
Qed.

Lemma py_min_spec (l : list Qc) :
  l ≠ [] → ∃ m, py_min l = Value m ∧ m ∈ l ∧ ∀ x, x ∈ l → Qcle m x.
Proof.
  destruct l as [|v rest]; [done|]. intros _. eexists. split; [done|].
  apply fold_min_spec.
Qed.

Lemma py_max_spec (l : list Qc) :
  l ≠ [] → ∃ m, py_max l = Value m ∧ m ∈ l ∧ ∀ x, x ∈ l → Qcle x m.
Proof.
  destruct l as [|v rest]; [done|]. intros _. eexists. split; [done|].
  apply fold_max_spec.
Qed.

Lemma remove_dups_nonempty {A} `{EqDecision A} (l : list A) : l ≠ [] → remove_dups l ≠ [].
Proof.
  destruct l as [|a l]; [done|]. intros _ Hnil.
  assert (Ha : a ∈ remove_dups (a :: l)) by (apply elem_of_remove_dups; set_solver).
  rewrite Hnil in Ha. by apply elem_of_nil in Ha.
Qed.

Lemma sorted_values_length (X : list Qc) :
  NoDup X → length (sorted_values X) = length X.
Proof.
  intros Hnd. unfold sorted_values. rewrite merge_sort_Permutation.
  apply Permutation_length, NoDup_Permutation; [apply NoDup_remove_dups | done |].
  intros x. apply elem_of_remove_dups.
Qed.

(** *** The integer test *)

Lemma Qc_of_Z_sorted a b : StronglySorted Qclt (Qc_of_Z <$> range a b).
Proof.
  apply (StronglySorted_fmap _ Z.lt); [|apply range_sorted].
  intros x1 x2. apply Z2Qc_inj_lt.
Qed.

Lemma Qc_of_Z_NoDup a b : NoDup (Qc_of_Z <$> range a b).
Proof.
  apply NoDup_fmap_2_strong.
  - intros x1 x2 _ _. apply Z2Qc_inj.
  - unfold range. apply NoDup_fmap_2_strong; [intros; lia | apply NoDup_seq].
Qed.

Lemma small_integer_range_sorted (X : list Qc) a b :
  small_integer_range X a b →
  sorted_values (remove_dups X) = Qc_of_Z <$> range a (b + 1)
  ∧ Z.of_nat (length (remove_dups X)) = b - a + 1.
Proof.
  intros (Hab & Hsmall & Helem).
  assert (Heq : sorted_values (remove_dups X) = Qc_of_Z <$> range a (b + 1)).
  { apply (StronglySorted_unique_strong Qclt);
      [| apply sorted_values_sorted | apply Qc_of_Z_sorted |].
    { intros x1 x2 _ _ H12 H21. destruct (Qclt_not_le _ _ H12). by apply Qclt_le_weak. }
    apply NoDup_Permutation; [apply sorted_values_NoDup | apply Qc_of_Z_NoDup |].
    intros x. rewrite sorted_values_elem, elem_of_remove_dups, Helem, list_elem_of_fmap.
    split.
    - intros (k & Hk & ->). exists k. split; [done|]. apply elem_of_range. lia.
    - intros (k & -> & Hk%elem_of_range). exists k. split; [lia|done]. }
  split; [done|].
  rewrite <- (sorted_values_length (remove_dups X)) by apply NoDup_remove_dups.
  rewrite Heq, length_fmap, range_length. lia.
Qed.

Lemma sorted_small_integer_range (X : list Qc) a b :
  X ≠ [] →
  sorted_values (remove_dups X) = Qc_of_Z <$> range a (b + 1) →
  Z.of_nat (length (remove_dups X)) < 10 →
  small_integer_range X a b.
Proof.
  intros HX Heq Hlen.
  assert (Hn : Z.of_nat (length (remove_dups X)) = Z.max 0 (b + 1 - a)).
  { rewrite <- (sorted_values_length (remove_dups X)) by apply NoDup_remove_dups.
    by rewrite Heq, length_fmap, range_length. }
  assert (Hpos : 0 < Z.of_nat (length (remove_dups X))).
  { apply remove_dups_nonempty in HX. destruct (remove_dups X); [done|]. cbn [length]. lia. }
  split; [lia|]. split; [lia|]. intros x.
  rewrite <- elem_of_remove_dups, <- sorted_values_elem, Heq, list_elem_of_fmap. split.
  - intros (k & -> & Hk%elem_of_range). exists k. split; [lia|done].
  - intros (k & Hk & ->). exists k. split; [done|]. apply elem_of_range. lia.
Qed.

Lemma small_integer_range_min_max (X : list Qc) a b :
  small_integer_range X a b →
  py_min (remove_dups X) = Value (Qc_of_Z a) ∧ py_max (remove_dups X) = Value (Qc_of_Z b).
Proof.
  intros (Hab & Hsmall & Helem).
  assert (HX : remove_dups X ≠ []).
  { apply remove_dups_nonempty. intros ->.
    assert (Ha : Qc_of_Z a ∈ @nil Qc) by (apply Helem; exists a; split; [lia|done]).
    by apply elem_of_nil in Ha. }
  destruct (py_min_spec _ HX) as (lo & -> & Hlo & Hmin).
  destruct (py_max_spec _ HX) as (hi & -> & Hhi & Hmax).
  apply elem_of_remove_dups, Helem in Hlo as (kl & Hkl & ->).
  apply elem_of_remove_dups, Helem in Hhi as (kh & Hkh & ->).
  assert (Ha : Qcle (Qc_of_Z kl) (Qc_of_Z a)).
  { apply Hmin, elem_of_remove_dups, Helem. exists a. split; [lia|done]. }
  assert (Hb : Qcle (Qc_of_Z b) (Qc_of_Z kh)).
  { apply Hmax, elem_of_remove_dups, Helem. exists b. split; [lia|done]. }
  apply Z2Qc_inj_le in Ha, Hb.
  split; do 2 f_equal; lia.
Qed.

Lemma Qfloor_Qc_of_Z k : Qfloor (this (Qc_of_Z k)) = k.
Proof. apply Qfloor_Z. Qed.

Lemma Qceiling_Qc_of_Z k : Qceiling (this (Qc_of_Z k)) = k.
Proof. apply Qceiling_Z. Qed.

Lemma floor_le_ceiling (lo hi : Qc) : Qcle lo hi → Qfloor (this lo) <= Qceiling (this hi).
Proof.
  intros Hle. rewrite Zle_Qle.
  eapply Qle_trans; [apply Qfloor_le|]. eapply Qle_trans; [apply Hle|]. apply Qle_ceiling.
Qed.

(** *** The two phases of the function *)

Lemma groups_value (X : list Qc) (y : labels) :
  (length y ≤ length X)%nat →
  mapM (select X y 0) (sorted_labels y)
  = Value ((λ t, (filter (λ p, p.2 = t) (zip X y)).*1) <$> sorted_labels y).
Proof.
  intros Hlen. apply mapM_result_value. intros t _.
  apply (select_ok X y t 0). by rewrite Nat.add_0_l.
Qed.

Lemma groups_error (X : list Qc) (y : labels) :
  (length X < length y)%nat →
  mapM (select X y 0) (sorted_labels y) = Error IndexError.
Proof.
  intros Hlen. apply mapM_result_error.
  - intros t e _. by apply select_error.
  - destruct (y !! length X) as [t|] eqn:Et; [|apply lookup_ge_None in Et; lia].
    exists t. split; [apply sorted_labels_elem; by eapply list_elem_of_lookup_2|].
    apply (select_fail X y t 0 (length X)); [done|lia].
Qed.

Lemma fst_zip_take {A B} (l : list A) (k : list B) : (zip l k).*1 = take (length k) l.
Proof.
  revert k. induction l as [|a l IH]; intros [|b k]; cbn; [done..|]. by rewrite <- IH.
Qed.

Lemma concat_fmap_fmap {A B C} (f : B → C) (g : A → list B) (l : list A) :
  concat ((λ t, f <$> g t) <$> l) = f <$> concat (g <$> l).
Proof.
  induction l as [|a l IH]; [done|]. cbn [fmap list_fmap concat] in *.
  by rewrite fmap_app, <- IH.
Qed.

Lemma bins_value (X : list Qc) :
  X ≠ [] →
  (∀ lo hi, py_min (remove_dups X) = Value lo → py_max (remove_dups X) = Value hi →
            Qceiling (this hi) + 1 - Qfloor (this lo) < 2 ^ 63) →
  ∃ lo hi b align,
    py_min (remove_dups X) = Value lo ∧ py_max (remove_dups X) = Value hi
    ∧ list_range (Qfloor (this lo)) (Qceiling (this hi) + 1)
      = Value (range (Qfloor (this lo)) (Qceiling (this hi) + 1))
    ∧ (if (Z.of_nat (length (remove_dups X)) <? 10)
          && bool_decide (sorted_values (remove_dups X)
                          = Qc_of_Z <$> range (Qfloor (this lo)) (Qceiling (this hi) + 1))
       then last ← getitem (range (Qfloor (this lo)) (Qceiling (this hi) + 1)) (-1);
            Value (Edges (range (Qfloor (this lo)) (Qceiling (this hi) + 1) ++ [last + 1]),
                   "left"%string)
       else Value (Count 10, "mid"%string)) = Value (b, align)
    ∧ ((∃ a c, small_integer_range X a c ∧ b = Edges (range a (c + 2)) ∧ align = "left"%string)
       ∨ ((¬ ∃ a c, small_integer_range X a c) ∧ b = Count 10 ∧ align = "mid"%string)).
Proof.
  intros HX Hspread. assert (HX' := remove_dups_nonempty _ HX).
  destruct (py_min_spec _ HX') as (lo & Hlo & Hlo_in & Hmin).
  destruct (py_max_spec _ HX') as (hi & Hhi & Hhi_in & Hmax).
  assert (Hle : Qfloor (this lo) <= Qceiling (this hi)) by (apply floor_le_ceiling, Hmax, Hlo_in).
  assert (Hrange : list_range (Qfloor (this lo)) (Qceiling (this hi) + 1)
                   = Value (range (Qfloor (this lo)) (Qceiling (this hi) + 1))).
  { unfold list_range. specialize (Hspread lo hi Hlo Hhi).
    by destruct (Z.ltb_spec (Qceiling (this hi) + 1 - Qfloor (this lo)) (2 ^ 63)); [|lia]. }
  exists lo, hi.
  destruct (Z.ltb_spec (Z.of_nat (length (remove_dups X))) 10) as [Hlen|Hlen]; cbn [andb].
  - case_bool_decide as Heq.
    + rewrite range_last by done. rewrite bind_value.
      eexists _, _. split; [done|]. split; [done|]. split; [done|]. split; [done|]. left.
      exists (Qfloor (this lo)), (Qceiling (this hi)).
      split; [by apply sorted_small_integer_range|]. split; [|done].
      replace (Qceiling (this hi) + 2) with (Qceiling (this hi) + 1 + 1) by lia.
      by rewrite (range_snoc _ (Qceiling (this hi) + 1)) by lia.
    + eexists _, _. split; [done|]. split; [done|]. split; [done|]. split; [done|]. right.
      split; [|done]. intros (a & c & Hsir).
      destruct (small_integer_range_min_max _ _ _ Hsir) as [Ea Ec].
      destruct (small_integer_range_sorted _ _ _ Hsir) as [Es _].
      rewrite Hlo in Ea. rewrite Hhi in Ec. injection Ea as ->. injection Ec as ->.
      apply Heq. by rewrite Qfloor_Qc_of_Z, Qceiling_Qc_of_Z.
  - eexists _, _. split; [done|]. split; [done|]. split; [done|]. split; [done|]. right.
    split; [|done]. intros (a & c & Hsir).
    destruct (small_integer_range_sorted _ _ _ Hsir) as [_ En].
    destruct Hsir as (? & ? & _). lia.
Qed.

Lemma small_integer_range_unique (X : list Qc) a c a' c' :
  small_integer_range X a c → small_integer_range X a' c' → a = a' ∧ c = c'.
Proof.
  intros [Ea Ec]%small_integer_range_min_max [Ea' Ec']%small_integer_range_min_max.
  rewrite Ea in Ea'. rewrite Ec in Ec'.
  assert (Qc_of_Z a = Qc_of_Z a') as ->%Z2Qc_inj by congruence.
  assert (Qc_of_Z c = Qc_of_Z c') as ->%Z2Qc_inj by congruence. done.
Qed.

(** Without drawing: the groups and labels by class, the bins, and the
    figures as they were. *)
Lemma plot_histogram_quiet (X : list Qc) (y : labels) Xname yname c :
  X ≠ [] → (length y ≤ length X)%nat →
  (∀ lo hi, py_min (remove_dups X) = Value lo → py_max (remove_dups X) = Value hi →
            Qceiling (this hi) + 1 - Qfloor (this lo) < 2 ^ 63) →
  ∃ b align,
    plot_histogram X y Xname yname false c
    = Value (((λ t, (filter (λ p, p.2 = t) (zip X y)).*1) <$> sorted_labels y, b, align,
              percent_s_eq_s yname <$> sorted_labels y), c)
    ∧ ((∃ lo hi, small_integer_range X lo hi ∧ b = Edges (range lo (hi + 2))
                 ∧ align = "left"%string)
       ∨ ((¬ ∃ lo hi, small_integer_range X lo hi) ∧ b = Count 10 ∧ align = "mid"%string)).
Proof.
  intros HX Hlen Hspread.
  destruct (bins_value X HX Hspread) as (lo & hi & b & align & Hlo & Hhi & Hrange & Hb & Hspec).
  exists b, align. split; [|done].
  unfold plot_histogram. cbv zeta.
  rewrite groups_value by done.
  rewrite bind_value, Hlo, bind_value, Hhi, bind_value, Hrange, bind_value, Hb.
  done.
Qed.

(** Rows missing for a label, then no value at all. *)
Lemma plot_histogram_fails (X : list Qc) (y : labels) Xname yname show c :
  (length X < length y)%nat ∨ X = [] →
  plot_histogram X y Xname yname show c
  = Error (if decide (length X < length y)%nat then IndexError else ValueError).
Proof.
  intros Hcase. destruct (decide (length X < length y)%nat) as [Hlt|Hge].
  - unfold plot_histogram. cbv zeta. by rewrite groups_error.
  - destruct Hcase as [? | ->]; [done|]. destruct y; [done|]. cbn [length] in Hge. lia.
Qed.

Lemma plot_histogram_returns_inv (X : list Qc) (y : labels) Xname yname show c r :
  plot_histogram X y Xname yname show c = Value r →
  X ≠ [] ∧ (length y ≤ length X)%nat
  ∧ ∀ lo hi, py_min (remove_dups X) = Value lo → py_max (remove_dups X) = Value hi →
             Qceiling (this hi) + 1 - Qfloor (this lo) < 2 ^ 63.
Proof.
  intros Hr. split_and!.
  - intros ->. by rewrite plot_histogram_fails in Hr by by right.
  - destruct (decide (length y ≤ length X)%nat); [done|].
    by rewrite plot_histogram_fails in Hr by (left; lia).
  - intros lo hi Hlo Hhi. revert Hr. unfold plot_histogram. cbv zeta.
    destruct (mapM (select X y 0) (sorted_labels y)) as [d|e]; [|done].
    rewrite bind_value, Hlo, bind_value, Hhi, bind_value. unfold list_range.
    by destruct (Z.ltb_spec (Qceiling (this hi) + 1 - Qfloor (this lo)) (2 ^ 63)).
Qed.

Lemma spread_of_elements (X : list Qc) :
  (∀ x x', x ∈ X → x' ∈ X → Qceiling (this x') + 1 - Qfloor (this x) < 2 ^ 63) →
  ∀ lo hi, py_min (remove_dups X) = Value lo → py_max (remove_dups X) = Value hi →
           Qceiling (this hi) + 1 - Qfloor (this lo) < 2 ^ 63.
Proof.
  intros Hall lo hi Hlo Hhi.
  assert (HX' : remove_dups X ≠ []) by (by intros E; rewrite E in Hlo).
  destruct (py_min_spec _ HX') as (lo' & Hlo' & Hlo_in & _).
  destruct (py_max_spec _ HX') as (hi' & Hhi' & Hhi_in & _).
  assert (lo' = lo) as -> by congruence. assert (hi' = hi) as -> by congruence.
  apply Hall; by apply elem_of_remove_dups.
Qed.

(** X11. Called with [show=False] on a column [X] of finite values (neither
    nan nor an infinity, which [list Qc] leaves out and on which
    [math.floor] and [math.ceil] raise) that is not empty, has a value for
    every label of [y] and spans fewer than 2^63 integers (so that
    [list(range(...))] can be built), [plot_histogram] returns and leaves
    the figures alone. There is one group and one legend label per class,
    the classes in increasing order without repetition; the group of a
    class holds the values of [X] at the rows of that class, in row order;
    and the groups together are the first [len(y)] values of [X], each
    once. *)
Theorem plot_histogram_groups (X : list Qc) (y : labels) Xname yname c :
  X ≠ [] → (length y ≤ length X)%nat →
  (∀ x x', x ∈ X → x' ∈ X → Qceiling (this x') + 1 - Qfloor (this x) < 2 ^ 63) →
  ∃ targets b align,
    plot_histogram X y Xname yname false c
    = Value (((λ t, (filter (λ p, p.2 = t) (zip X y)).*1) <$> targets, b, align,
              percent_s_eq_s yname <$> targets), c)
    ∧ StronglySorted Z.lt targets
    ∧ (∀ t, t ∈ targets ↔ t ∈ y)
    ∧ concat ((λ t, (filter (λ p, p.2 = t) (zip X y)).*1) <$> targets) ≡ₚ take (length y) X.
Proof.
  intros HX Hlen Hspread.
  destruct (plot_histogram_quiet X y Xname yname c HX Hlen (spread_of_elements X Hspread))
    as (b & align & Hr & _).
  exists (sorted_labels y), b, align. split; [done|].
  split; [apply sorted_labels_sorted|]. split; [apply sorted_labels_elem|].
  rewrite (concat_fmap_fmap fst (λ t, filter (λ p, p.2 = t) (zip X y))).
  rewrite (concat_groups snd); [apply reflexive_eq, fst_zip_take | apply sorted_labels_NoDup |].
  intros [x t] Hin. apply sorted_labels_elem. cbn [snd]. by eapply elem_of_zip_r.
Qed.

(** X12. Whenever [plot_histogram] returns with [show=False], the bins
    follow the values of the column. If the distinct values of [X] are
    exactly the integers from [lo] to [hi], fewer than ten of them, the
    bins are the edges [lo, lo+1, ..., hi+1], one bin per value, aligned
    ['left']; for any other column they are the number 10, aligned ['mid']. *)
Theorem plot_histogram_bins (X : list Qc) (y : labels) Xname yname c data b align labels c' :
  plot_histogram X y Xname yname false c = Value ((data, b, align, labels), c') →
  (∀ lo hi, small_integer_range X lo hi →
     b = Edges (range lo (hi + 2)) ∧ align = "left"%string)
  ∧ ((¬ ∃ lo hi, small_integer_range X lo hi) → b = Count 10 ∧ align = "mid"%string).
Proof.
  intros Hr. destruct (plot_histogram_returns_inv _ _ _ _ _ _ _ Hr) as (HX & Hlen & Hspread).
  destruct (plot_histogram_quiet X y Xname yname c HX Hlen Hspread)
    as (b' & align' & Hr' & Hspec).
  rewrite Hr in Hr'. injection Hr' as _ <- <- _.
  destruct Hspec as [(lo' & hi' & Hsir' & -> & ->)|(Hnone & -> & ->)]; split.
  - intros lo hi Hsir. by destruct (small_integer_range_unique _ _ _ _ _ Hsir Hsir') as [-> ->].
  - intros Hnone. destruct Hnone. by exists lo', hi'.
  - intros lo hi Hsir. destruct Hnone. by exists lo, hi.
  - done.
Qed.

(** X13. Whatever [show] is and whatever the calls of [pyplot] do or
    raise, [plot_histogram] fails with the IndexError of [X[i]] when [y]
    has more labels than [X] has values, and otherwise, when [X] is empty,
    with the ValueError of [min] on an empty set. *)
Theorem plot_histogram_failure (X : list Qc) (y : labels) Xname yname show c :
  (length X < length y)%nat ∨ X = [] →
  plot_histogram X y Xname yname show c
  = Error (if decide (length X < length y)%nat then IndexError else ValueError).
Proof. apply plot_histogram_fails. Qed.

(** X14. With [show=True] the bins that [plot_histogram] returns are the
    edges that [plt.hist] gives back, not the bins the script computed:
    when both calls return, the groups, the alignment and the legend labels
    are the same, [plt.hist] was called on a new figure with the computed
    bins, and the returned bins are its edges. *)
Theorem plot_histogram_show_returns_edges (X : list Qc) (y : labels) Xname yname c
    data b align labels c0 data' b' align' labels' c' :
  plot_histogram X y Xname yname false c = Value ((data, b, align, labels), c0) →
  plot_histogram X y Xname yname true c = Value ((data', b', align', labels'), c') →
  data' = data ∧ align' = align ∧ labels' = labels
  ∧ ∃ c1 edges c2, plt_figure c = inr c1
                   ∧ plt_hist data b align labels c1 = inr (edges, c2)
                   ∧ b' = Computed edges.
Proof.
  unfold plot_histogram. cbv zeta.
  destruct (mapM (select X y 0) (sorted_labels y)) as [d|e]; [|done]. rewrite !bind_value.
  destruct (py_min (remove_dups X)) as [lo|e]; [|done]. rewrite !bind_value.
  destruct (py_max (remove_dups X)) as [hi|e]; [|done]. rewrite !bind_value.
  destruct (list_range _ _) as [test_range|e]; [|done]. rewrite !bind_value.
  match goal with |- context [if ?cond then _ else _] => destruct cond end.
  - destruct (getitem _ (-1)) as [last|e]; [|done]. rewrite !bind_value.
    intros [= <- <- <- <- <-].
    destruct (plt_figure c) as [name|c1]; [done|]. cbn [from_library]. rewrite bind_value.
    destruct (plt_hist _ _ _ _ c1) as [name|[edges c2]] eqn:Eh; [done|].
    cbn [from_library]. rewrite bind_value.
    destruct (plt_xlabel Xname c2) as [name|c3]; [done|]. cbn [from_library]. rewrite bind_value.
    destruct (plt_ylabel _ c3) as [name|c4]; [done|]. cbn [from_library]. rewrite bind_value.
    destruct (plt_legend c4) as [name|c5]; [done|]. cbn [from_library]. rewrite bind_value.
    destruct (plt_show c5) as [name|c6]; [done|]. cbn [from_library]. rewrite bind_value.
    intros [= <- <- <- <- <-]. do 3 (split; [done|]). by exists c1, edges, c2.
  - rewrite !bind_value.
    intros [= <- <- <- <- <-].
    destruct (plt_figure c) as [name|c1]; [done|]. cbn [from_library]. rewrite bind_value.
    destruct (plt_hist _ _ _ _ c1) as [name|[edges c2]] eqn:Eh; [done|].
    cbn [from_library]. rewrite bind_value.
    destruct (plt_xlabel Xname c2) as [name|c3]; [done|]. cbn [from_library]. rewrite bind_value.
    destruct (plt_ylabel _ c3) as [name|c4]; [done|]. cbn [from_library]. rewrite bind_value.
    destruct (plt_legend c4) as [name|c5]; [done|]. cbn [from_library]. rewrite bind_value.
    destruct (plt_show c5) as [name|c6]; [done|]. cbn [from_library]. rewrite bind_value.
    intros [= <- <- <- <- <-]. do 3 (split; [done|]). by exists c1, edges, c2.
Qed.

(** X15. Drawing adds no failure of the script's own and hides none: with
    [show=True], [plot_histogram] fails with the error of the call with
    [show=False] when that one fails, and otherwise only with an error that
    comes out of [pyplot]. *)
Theorem plot_histogram_show_errors (X : list Qc) (y : labels) Xname yname c e :
  plot_histogram X y Xname yname true c = Error e →
  plot_histogram X y Xname yname false c = Error e
  ∨ ((∃ r, plot_histogram X y Xname yname false c = Value r) ∧ ∃ name, e = LibraryError name).
Proof.
  unfold plot_histogram. cbv zeta.
  destruct (mapM (select X y 0) (sorted_labels y)) as [d|e']; [|by left]. rewrite !bind_value.
  destruct (py_min (remove_dups X)) as [lo|e']; [|by left]. rewrite !bind_value.
  destruct (py_max (remove_dups X)) as [hi|e']; [|by left]. rewrite !bind_value.
  destruct (list_range _ _) as [test_range|e']; [|by left]. rewrite !bind_value.
  match goal with |- context [if ?cond then _ else _] => destruct cond end.
  - destruct (getitem _ (-1)) as [last|e']; [|by left]. rewrite !bind_value.
    intros Hr. right. split; [by eexists|]. revert Hr.
    destruct (plt_figure c) as [name|c1]; [intros [= <-]; by eexists|].
    cbn [from_library]. rewrite bind_value.
    destruct (plt_hist _ _ _ _ c1) as [name|[edges c2]]; [intros [= <-]; by eexists|].
    cbn [from_library]. rewrite bind_value.
    destruct (plt_xlabel Xname c2) as [name|c3]; [intros [= <-]; by eexists|].
    cbn [from_library]. rewrite bind_value.
    destruct (plt_ylabel _ c3) as [name|c4]; [intros [= <-]; by eexists|].
    cbn [from_library]. rewrite bind_value.
    destruct (plt_legend c4) as [name|c5]; [intros [= <-]; by eexists|].
    cbn [from_library]. rewrite bind_value.
    destruct (plt_show c5) as [name|c6]; [intros [= <-]; by eexists|done].
  - rewrite !bind_value.
    intros Hr. right. split; [by eexists|]. revert Hr.
    destruct (plt_figure c) as [name|c1]; [intros [= <-]; by eexists|].
    cbn [from_library]. rewrite bind_value.
    destruct (plt_hist _ _ _ _ c1) as [name|[edges c2]]; [intros [= <-]; by eexists|].
    cbn [from_library]. rewrite bind_value.
    destruct (plt_xlabel Xname c2) as [name|c3]; [intros [= <-]; by eexists|].
    cbn [from_library]. rewrite bind_value.
    destruct (plt_ylabel _ c3) as [name|c4]; [intros [= <-]; by eexists|].
    cbn [from_library]. rewrite bind_value.
    destruct (plt_legend c4) as [name|c5]; [intros [= <-]; by eexists|].
    cbn [from_library]. rewrite bind_value.
    destruct (plt_show c5) as [name|c6]; [intros [= <-]; by eexists|done].
Qed.

End HistogramFacts.

Section HistogramExamples.
Import Sample SampleHistogram.

Lemma plot_histogram_groups_witness :
  ∃ targets b align,
    plot_histogram Pclass y4 "Pclass" "Survived" false blank
    = Value (((λ t, (filter (λ p, p.2 = t) (zip Pclass y4)).*1) <$> targets, b, align,
              percent_s_eq_s "Survived" <$> targets), blank)
    ∧ StronglySorted Z.lt targets
    ∧ (∀ t, t ∈ targets ↔ t ∈ y4)
    ∧ concat ((λ t, (filter (λ p, p.2 = t) (zip Pclass y4)).*1) <$> targets)
      ≡ₚ take (length y4) Pclass.
Proof.
  apply (plot_histogram_groups Pclass y4 "Pclass" "Survived" blank);
    [discriminate | simpl; lia |].
  assert (Hin : ∀ z, z ∈ Pclass → 1 <= Qfloor (this z) ∧ Qceiling (this z) <= 3).
  { intros z Hz. unfold Pclass in Hz. cbn [fmap list_fmap] in Hz.
    repeat (apply elem_of_cons in Hz as [->|Hz]; [by vm_compute|]).
    by apply elem_of_nil in Hz. }
  intros x x' Hx%Hin Hx'%Hin. lia.
Defined.

Lemma plot_histogram_bins_witness :
  plot_histogram Pclass y4 "Pclass" "Survived" false blank
  = Value (([Qc_of_Z <$> [3]; Qc_of_Z <$> [1; 3; 2]], Edges [1; 2; 3; 4], "left"%string,
            ["Survived = 0.0"; "Survived = 1.0"]%string), blank)
  ∧ (∀ lo hi, small_integer_range Pclass lo hi →
       Edges [1; 2; 3; 4] = Edges (range lo (hi + 2)) ∧ "left"%string = "left"%string)
  ∧ ((¬ ∃ lo hi, small_integer_range Pclass lo hi) →
       Edges [1; 2; 3; 4] = Count 10 ∧ "left"%string = "mid"%string).
Proof.
  split; [reflexivity|].
  apply (plot_histogram_bins Pclass y4 "Pclass" "Survived" blank
           ([Qc_of_Z <$> [3]; Qc_of_Z <$> [1; 3; 2]]) (Edges [1; 2; 3; 4]) "left"
           ["Survived = 0.0"; "Survived = 1.0"]%string blank).
  reflexivity.
Defined.

Lemma plot_histogram_failure_witness :
  (length Pclass < length (y4 ++ [0%Z]))%nat
  ∧ plot_histogram Pclass (y4 ++ [0]) "Pclass" "Survived" true blank = Error IndexError.
Proof.
  split; [simpl; lia|].
  apply (plot_histogram_failure Pclass (y4 ++ [0]) "Pclass" "Survived" true blank).
  left. simpl. lia.
Defined.

Lemma plot_histogram_show_returns_edges_witness :
  plot_histogram Pclass y4 "Pclass" "Survived" false blank
  = Value (([Qc_of_Z <$> [3]; Qc_of_Z <$> [1; 3; 2]], Edges [1; 2; 3; 4], "left"%string,
            ["Survived = 0.0"; "Survived = 1.0"]%string), blank)
  ∧ plot_histogram Pclass y4 "Pclass" "Survived" true blank
    = Value (([Qc_of_Z <$> [3]; Qc_of_Z <$> [1; 3; 2]], Computed [], "left"%string,
              ["Survived = 0.0"; "Survived = 1.0"]%string),
             drawn)
  ∧ ∃ c1 edges c2,
      plt_figure blank = inr c1
      ∧ plt_hist ([Qc_of_Z <$> [3]; Qc_of_Z <$> [1; 3; 2]]) (Edges [1; 2; 3; 4]) "left"
          ["Survived = 0.0"; "Survived = 1.0"]%string c1 = inr (edges, c2)
      ∧ Computed [] = Computed edges.
Proof.
  split; [reflexivity|]. split; [reflexivity|].
  apply (plot_histogram_show_returns_edges Pclass y4 "Pclass" "Survived" blank
           ([Qc_of_Z <$> [3]; Qc_of_Z <$> [1; 3; 2]]) (Edges [1; 2; 3; 4]) "left"
           ["Survived = 0.0"; "Survived = 1.0"]%string blank
           ([Qc_of_Z <$> [3]; Qc_of_Z <$> [1; 3; 2]]) (Computed []) "left"
           ["Survived = 0.0"; "Survived = 1.0"]%string
           drawn);
    reflexivity.
Defined.

Lemma plot_histogram_show_errors_witness :
  plot_histogram Pclass (y4 ++ [0]) "Pclass" "Survived" true blank = Error IndexError
  ∧ (plot_histogram Pclass (y4 ++ [0]) "Pclass" "Survived" false blank = Error IndexError
     ∨ ((∃ r, plot_histogram Pclass (y4 ++ [0]) "Pclass" "Survived" false blank = Value r)
        ∧ ∃ name, IndexError = LibraryError name)).
Proof.
  split; [reflexivity|].
  apply (plot_histogram_show_errors Pclass (y4 ++ [0]) "Pclass" "Survived" blank IndexError).
  reflexivity.
Defined.

End HistogramExamples.
